(** * GHS binder automation: deployment pipeline, chemical registry and
      file-status reconciliation

    A shallow embedding of the JavaScript sources

    - [GHSBinderDeployer]      (scripts/github_deployment.js),
    - [ChemicalManager]        (scripts/chemical_manager.js),
    - [GHSManagementDashboard] (scripts/dashboard.js: the file-status report
                               and the request handlers),
    - [GHSBinderPDFGenerator]  (the text fallbacks of the PDF generator),

    together with the properties of the specification that concern them.

    JavaScript strings are sequences of UTF-16 code units and are modelled as
    [list N]; buffers are [list byte].  Asynchronous methods become
    computations in a monad of state, exceptions and output: a method runs
    from a [World] (the remote hosting service, the configuration store and
    the local machine) to a new world, the list of the observable events it
    caused (console output, requests with their outcomes) and a value or a
    thrown error.  The hosting service is an arbitrary state machine [Hub],
    so the theorems hold for every behaviour of the service; a small
    simulated service [Sim] serves to run the methods on sample data. *)

From Stdlib Require Import ZArith NArith String Ascii DecimalString DecimalN Lia.
From Stdlib.Strings Require Import Byte.
From stdpp Require Import gmap list.

Local Open Scope N_scope.

(** JavaScript strings: UTF-16 code units. *)
Abbreviation jsstr := (list N).

(* ===================================================================== *)
(** ** JavaScript built-ins used by the sources                           *)
(* ===================================================================== *)

Module Js.

(** *** String literals.

    A Rocq string literal is a sequence of UTF-8 bytes; [js] decodes it to
    the UTF-16 code units the JavaScript literal with the same text has. *)

Definition utf16_of_code_point (cp : N) : jsstr :=
  if cp <? 65536 then [cp]
  else [55296 + (cp - 65536) / 1024; 56320 + (cp - 65536) mod 1024].

Fixpoint utf8_decode (bs : list N) : jsstr :=
  match bs with
  | [] => []
  | b0 :: r0 =>
    if b0 <? 128 then b0 :: utf8_decode r0
    else match r0 with
    | [] => []
    | b1 :: r1 =>
      if b0 <? 224 then
        utf16_of_code_point ((b0 mod 32) * 64 + b1 mod 64) ++ utf8_decode r1
      else match r1 with
      | [] => []
      | b2 :: r2 =>
        if b0 <? 240 then
          utf16_of_code_point ((b0 mod 16) * 4096 + (b1 mod 64) * 64 + b2 mod 64)
            ++ utf8_decode r2
        else match r2 with
        | [] => []
        | b3 :: r3 =>
          utf16_of_code_point
            ((b0 mod 8) * 262144 + (b1 mod 64) * 4096 + (b2 mod 64) * 64 + b3 mod 64)
            ++ utf8_decode r3
        end
      end
    end
  end.

Definition js (s : string) : jsstr :=
  utf8_decode (map N_of_ascii (list_ascii_of_string s)).

(** *** [Buffer.from(string)]: the UTF-8 bytes of a string.  A surrogate
    that is not part of a pair is encoded as U+FFFD. *)

Definition is_high_surrogate (c : N) : bool := (55296 <=? c) && (c <? 56320).
Definition is_low_surrogate (c : N) : bool := (56320 <=? c) && (c <? 57344).

Definition utf8_of_code_point (cp : N) : list N :=
  if cp <? 128 then [cp]
  else if cp <? 2048 then [192 + cp / 64; 128 + cp mod 64]
  else if cp <? 65536 then
    [224 + cp / 4096; 128 + (cp / 64) mod 64; 128 + cp mod 64]
  else
    [240 + cp / 262144; 128 + (cp / 4096) mod 64; 128 + (cp / 64) mod 64;
     128 + cp mod 64].

Fixpoint utf8_encode (s : jsstr) : list N :=
  match s with
  | [] => []
  | c :: r =>
    if is_high_surrogate c then
      match r with
      | d :: r' =>
        if is_low_surrogate d then
          utf8_of_code_point (65536 + (c - 55296) * 1024 + (d - 56320))
            ++ utf8_encode r'
        else utf8_of_code_point 65533 ++ utf8_encode r
      | [] => utf8_of_code_point 65533
      end
    else if is_low_surrogate c then utf8_of_code_point 65533 ++ utf8_encode r
    else utf8_of_code_point c ++ utf8_encode r
  end.

Definition byte_of_N (n : N) : byte :=
  match Byte.of_N n with Some b => b | None => x00 end.

Definition Buffer_from (s : jsstr) : list byte := map byte_of_N (utf8_encode s).

(** *** [buffer.toString('base64')] *)

Definition base64_digit (n : N) : N :=
  if n <? 26 then 65 + n
  else if n <? 52 then 97 + (n - 26)
  else if n <? 62 then 48 + (n - 52)
  else if n =? 62 then 43 else 47.

Fixpoint base64_of (bs : list N) : jsstr :=
  match bs with
  | [] => []
  | [a] => [base64_digit (a / 4); base64_digit ((a mod 4) * 16); 61; 61]
  | [a; b] =>
    [base64_digit (a / 4); base64_digit ((a mod 4) * 16 + b / 16);
     base64_digit ((b mod 16) * 4); 61]
  | a :: b :: c :: r =>
    [base64_digit (a / 4); base64_digit ((a mod 4) * 16 + b / 16);
     base64_digit ((b mod 16) * 4 + c / 64); base64_digit (c mod 64)]
      ++ base64_of r
  end.

Definition toString_base64 (buf : list byte) : jsstr :=
  base64_of (map Byte.to_N buf).

(** *** Numbers.  The numbers of the sources are lengths, counts and the
    result of [parseInt]; they are integers or [NaN]. *)

Inductive number := NaN | Num (z : Z).

Definition dec_of_N (n : N) : jsstr :=
  js (NilEmpty.string_of_uint (N.to_uint n)).

Definition dec_of_nat (n : nat) : jsstr := dec_of_N (N.of_nat n).

Definition dec_of_Z (z : Z) : jsstr :=
  match z with
  | Zneg p => js "-" ++ dec_of_N (Npos p)
  | _ => dec_of_N (Z.to_N z)
  end.

(** Template-literal conversion of a number. *)
Definition number_to_string (x : number) : jsstr :=
  match x with NaN => js "NaN" | Num z => dec_of_Z z end.

(** [x < y] on numbers: false as soon as one side is [NaN]. *)
Definition lt (x y : number) : bool :=
  match x, y with
  | Num a, Num b => (a <? b)%Z
  | _, _ => false
  end.

(** *** Character classes. *)

(** White space, as matched by [\s] and skipped by [parseInt]. *)
Definition is_space (c : N) : bool :=
  ((9 <=? c) && (c <=? 13)) || (c =? 32) || (c =? 160) || (c =? 5760)
  || ((8192 <=? c) && (c <=? 8202)) || (c =? 8232) || (c =? 8233)
  || (c =? 8239) || (c =? 8287) || (c =? 12288) || (c =? 65279).

Definition is_digit (c : N) : bool := (48 <=? c) && (c <=? 57).
Definition is_lower (c : N) : bool := (97 <=? c) && (c <=? 122).

(** *** [parseInt(s, 10)]: skip leading white space, read an optional sign,
    then the longest run of decimal digits; [NaN] when there is none. *)

Fixpoint skip_spaces (s : jsstr) : jsstr :=
  match s with
  | c :: r => if is_space c then skip_spaces r else s
  | [] => []
  end.

Fixpoint read_digits (acc : Z) (s : jsstr) : Z :=
  match s with
  | c :: r =>
    if is_digit c then read_digits (10 * acc + Z.of_N (c - 48))%Z r else acc
  | [] => acc
  end.

Definition parse_digits (s : jsstr) : option Z :=
  match s with
  | c :: _ => if is_digit c then Some (read_digits 0 s) else None
  | [] => None
  end.

Definition parseInt (s : jsstr) : number :=
  match skip_spaces s with
  | 45 :: r => match parse_digits r with Some z => Num (- z) | None => NaN end
  | 43 :: r => match parse_digits r with Some z => Num z | None => NaN end
  | r => match parse_digits r with Some z => Num z | None => NaN end
  end.

(** *** String predicates. *)

Definition str_eqb (a b : jsstr) : bool := bool_decide (a = b).

Fixpoint startsWith (s p : jsstr) : bool :=
  match p, s with
  | [], _ => true
  | c :: p', d :: s' => (c =? d) && startsWith s' p'
  | _ :: _, [] => false
  end.

Definition endsWith (s p : jsstr) : bool := startsWith (rev s) (rev p).

Fixpoint includes (s p : jsstr) : bool :=
  startsWith s p || match s with [] => false | _ :: r => includes r p end.

(** Truthiness of an optional string: [undefined], [null] and the empty
    string are falsy. *)
Definition truthy (o : option jsstr) : bool :=
  match o with Some (_ :: _) => true | _ => false end.

(** Truthiness of an optional object. *)
Definition present {A} (o : option A) : bool :=
  match o with Some _ => true | None => false end.

(** The double quote character. *)
Definition dquote : jsstr := [34].

(** [o || d] for an optional string. *)
Definition or_default (o : option jsstr) (d : jsstr) : jsstr :=
  match o with Some (c :: r) => c :: r | _ => d end.

End Js.

Import Js.

(* ===================================================================== *)
(** ** Data model: the customer configuration document                    *)
(* ===================================================================== *)

(** A document reference ([literature], [sds], [complete_binder]).  Every
    key may be absent: the chemical input sent by the dashboard carries no
    [url], and [Object.assign] stores such an object as it is. *)
Record DocRef := {
  doc_filename : option jsstr;
  doc_url : option jsstr;
  doc_title : option jsstr
}.

Record ChemicalRecord := {
  chem_id : jsstr;
  chem_name : jsstr;
  chem_description : jsstr;
  chem_hazards : jsstr;
  chem_literature : option DocRef;
  chem_sds : option DocRef;
  chem_supplier : jsstr;
  chem_last_updated : jsstr;
  chem_active : bool;
  chem_deactivated_date : option jsstr
}.

Record Contact := {
  contact_phone : jsstr;
  contact_email : jsstr;
  contact_emergency : jsstr;
  contact_address : jsstr
}.

Record Branding := {
  logo_url : jsstr;
  primary_color : jsstr;
  secondary_color : jsstr
}.

Record GithubRepo := {
  gh_name : jsstr;
  gh_url : jsstr;
  gh_custom_domain : jsstr
}.

Record CustomerInfo := {
  cust_name : jsstr;
  cust_slug : jsstr;
  cust_contact : Contact;
  cust_branding : Branding;
  cust_github_repo : GithubRepo
}.

Record SiteSettings := {
  site_last_updated : jsstr;
  site_generation_date : jsstr;
  site_complete_binder : option DocRef
}.

Record Deployment := {
  dep_status : jsstr;
  dep_created : jsstr;
  dep_last_deployed : option jsstr;
  dep_version : jsstr;
  dep_auto_update : bool
}.

(** [chemicals] is an array in every configuration document the system
    writes, so [customerConfig.chemicals || []] is [chemicals] itself. *)
Record CustomerConfig := {
  customer_info : CustomerInfo;
  chemicals : list ChemicalRecord;
  site_settings : SiteSettings;
  deployment : Deployment
}.

Definition set_chemicals (cfg : CustomerConfig) (cs : list ChemicalRecord)
  : CustomerConfig :=
  {| customer_info := customer_info cfg; chemicals := cs;
     site_settings := site_settings cfg; deployment := deployment cfg |}.

Definition set_site_last_updated (cfg : CustomerConfig) (d : jsstr)
  : CustomerConfig :=
  {| customer_info := customer_info cfg; chemicals := chemicals cfg;
     site_settings :=
       {| site_last_updated := d;
          site_generation_date := site_generation_date (site_settings cfg);
          site_complete_binder := site_complete_binder (site_settings cfg) |};
     deployment := deployment cfg |}.

(** [chemical.literature?.filename] *)
Definition slot_filename (d : option DocRef) : option jsstr :=
  match d with Some r => doc_filename r | None => None end.

(** The strings a chemical names in its two document slots, in the order
    literature, SDS; an absent or empty filename names no file. *)
Definition slot_files (c : ChemicalRecord) : list jsstr :=
  (if truthy (slot_filename (chem_literature c))
   then [or_default (slot_filename (chem_literature c)) []] else [])
  ++
  (if truthy (slot_filename (chem_sds c))
   then [or_default (slot_filename (chem_sds c)) []] else []).

(* ===================================================================== *)
(** ** Errors, the remote service and the world                           *)
(* ===================================================================== *)

(** A thrown [Error]: its message and, for a failed request, the HTTP
    status the client library attaches to it. *)
Record JsError := {
  err_message : jsstr;
  err_status : option Z
}.

Definition Error (msg : jsstr) : JsError :=
  {| err_message := msg; err_status := None |}.

Inductive result (A : Type) : Type :=
| Ok (a : A)
| Throw (e : JsError).
Arguments Ok {A} a.
Arguments Throw {A} e.

(** The repository descriptor returned by the hosting service. *)
Record Repo := {
  repo_name : jsstr;
  repo_default_branch : option jsstr;
  repo_html_url : jsstr
}.

(** Arguments of [repos.createForAuthenticatedUser]. *)
Record CreateRepoArgs := {
  cr_name : jsstr;
  cr_description : jsstr;
  cr_private : bool;
  cr_homepage : jsstr;
  cr_topics : list jsstr;
  cr_has_issues : bool;
  cr_has_projects : bool;
  cr_has_wiki : bool;
  cr_auto_init : bool;
  cr_license_template : jsstr
}.

(** Arguments of [repos.createOrUpdateFileContents]. *)
Record PutArgs := {
  put_owner : jsstr;
  put_repo : jsstr;
  put_path : jsstr;
  put_message : jsstr;
  put_content : jsstr;
  put_branch : jsstr;
  put_sha : option jsstr
}.

(** What [verifyPDFsOnPages] reads of a [fetch] response.  [ok] is the
    client's own field: the status is in the range 200..299. *)
Record Response := {
  res_status : Z;
  res_content_type : option jsstr;
  res_content_length : option jsstr
}.

Definition res_ok (r : Response) : bool :=
  ((200 <=? res_status r) && (res_status r <=? 299))%Z.

(** The hosting service: an arbitrary state [R] and, for each request the
    sources issue, the new state and the outcome.  [getContent] yields the
    [sha] of the file found (absent for a directory listing). *)
Record Hub (R : Type) := {
  createForAuthenticatedUser : R -> CreateRepoArgs -> R * result Repo;
  repos_get : R -> jsstr -> jsstr -> R * result Repo;
  getContent : R -> jsstr -> jsstr -> jsstr -> jsstr -> R * result (option jsstr);
  createOrUpdateFileContents : R -> PutArgs -> R * result unit;
  createPagesSite : R -> jsstr -> jsstr -> jsstr -> jsstr -> R * result unit;
  fetch_head : R -> jsstr -> R * result Response
}.
Arguments createForAuthenticatedUser {R}.
Arguments repos_get {R}.
Arguments getContent {R}.
Arguments createOrUpdateFileContents {R}.
Arguments createPagesSite {R}.
Arguments fetch_head {R}.

(** A path of the local file system, as [fs.existsSync] and
    [fs.readFileSync] see it. *)
Inductive FsEntry :=
| Absent
| File (content : list byte)
| Unreadable (e : JsError).

(** An entry of a customer's asset folder: what [stat] and [readFile]
    answer for it. *)
Record AssetEntry := {
  asset_name : jsstr;
  asset_stat : result bool;
  asset_read : result (list byte)
}.

(** The local machine, which the operations modelled here only read
    ([handleCreateCustomer] alone writes to it, through the file system it
    is given):
    - [pdf_path f]: the path [path.join(__dirname, '..', 'pdfs', f)], and
      [pdfs f]: what the file system holds at that path;
    - [assets slug]: the folder [assets/slug] ([None]: it does not exist)
      and the answer of [readdir] on it;
    - [template]: the answer of reading the shared HTML template;
    - [uploads slug]: the staging folder [uploads/slug] ([None]: [readdir]
      fails, the folder does not exist);
    - the clock: [new Date().toISOString()], its date part, and
      [new Date().toLocaleDateString()]. *)
Record Local := {
  pdf_path : jsstr -> jsstr;
  pdfs : jsstr -> FsEntry;
  assets : jsstr -> option (result (list AssetEntry));
  template : result jsstr;
  uploads : jsstr -> option (gset jsstr);
  now_iso : jsstr;
  today : jsstr;
  locale_date : jsstr
}.

(** Observable effects, in the order they happen: console output, the
    requests sent to the hosting service with the outcome of each, and the
    settling delay. *)
Inductive event :=
| ConsoleLog (s : jsstr)
| ConsoleWarn (s : jsstr)
| ConsoleError (s : jsstr)
| CreateRepo (a : CreateRepoArgs) (o : result Repo)
| GetRepo (owner repo : jsstr) (o : result Repo)
| GetContent (owner repo path ref : jsstr) (o : result (option jsstr))
| Put (a : PutArgs) (o : result unit)
| CreatePages (owner repo branch path : jsstr) (o : result unit)
| Head (url : jsstr) (o : result Response)
| Sleep (ms : N).

(** The world of a method: the hosting service, the configuration store
    and the local machine.  The store holds the documents
    [customer_configs/<key>.json], each a well-formed configuration. *)
Record World (R : Type) := {
  remote : R;
  configs : gmap jsstr CustomerConfig;
  local : Local
}.
Arguments remote {R}.
Arguments configs {R}.
Arguments local {R}.

(* ===================================================================== *)
(** ** The monad of asynchronous methods                                  *)
(* ===================================================================== *)

(** A method runs from a world to a new world, the events it caused, and
    either a value or a thrown error. *)
Definition M (R A : Type) : Type := World R -> World R * list event * result A.

Section Monad.
Context {R : Type}.

Definition ret {A} (a : A) : M R A := fun w => (w, [], Ok a).

Definition throw {A} (e : JsError) : M R A := fun w => (w, [], Throw e).

Definition bind {A B} (m : M R A) (k : A -> M R B) : M R B :=
  fun w => match m w with
           | (w1, e1, Ok a) =>
             match k a w1 with (w2, e2, b) => (w2, e1 ++ e2, b) end
           | (w1, e1, Throw e) => (w1, e1, Throw e)
           end.

(** [try { m } catch (error) { h error }] *)
Definition try_catch {A} (m : M R A) (h : JsError -> M R A) : M R A :=
  fun w => match m w with
           | (w1, e1, Ok a) => (w1, e1, Ok a)
           | (w1, e1, Throw e) =>
             match h e w1 with (w2, e2, b) => (w2, e1 ++ e2, b) end
           end.

(** [for (const x of xs) { body x }] *)
Fixpoint for_of {A} (xs : list A) (body : A -> M R unit) : M R unit :=
  match xs with
  | [] => ret tt
  | x :: r => bind (body x) (fun _ => for_of r body)
  end.

Definition emit (e : event) : M R unit := fun w => (w, [e], Ok tt).

Definition get_local : M R Local := fun w => (w, [], Ok (local w)).

Definition lift_result {A} (r : result A) : M R A := fun w => (w, [], r).

(** A request: answered by the service, recorded with its outcome. *)
Definition request {A} (ev : result A -> event) (call : R -> R * result A) : M R A :=
  fun w => let (r', o) := call (remote w) in
           ({| remote := r'; configs := configs w; local := local w |}, [ev o], o).

(** [sound P m]: [m] leaves the configuration store and the local machine
    as they are, and every event it causes satisfies [P]. *)
Definition sound (P : event -> Prop) {A} (m : M R A) : Prop :=
  forall w w' evs r, m w = (w', evs, r) ->
    configs w' = configs w /\ local w' = local w /\ Forall P evs.

End Monad.

Notation "x <- m ;; k" := (bind m (fun x => k))
  (at level 100, m at next level, right associativity).
Notation "m ;;; k" := (bind m (fun _ => k))
  (at level 100, right associativity).

(* ===================================================================== *)
(** ** Libraries outside the repository                                   *)
(* ===================================================================== *)

(** The view handed to the template engine by [generateHTML]. *)
Record TemplateData := {
  CUSTOMER_NAME : jsstr;
  CUSTOMER_LOGO : jsstr;
  CUSTOMER_CONTACT : jsstr;
  CUSTOMER_EMERGENCY : jsstr;
  LAST_UPDATED : jsstr;
  GENERATION_DATE : jsstr;
  TOTAL_PRODUCTS : nat;
  TOTAL_DOCUMENTS : nat;
  COMPLETE_BINDER_URL : option jsstr;
  PRODUCTS_JSON : jsstr;
  CUSTOMER_INFO_JSON : jsstr
}.

(** Functions the sources call and do not define: the template engine
    ([mustache.render]), [JSON.stringify] at the two types it is used at, and
    the Unicode case mapping [String.prototype.toLowerCase].  The development
    is parametric in them. *)
Record Externals := {
  mustache_render : jsstr -> TemplateData -> jsstr;
  JSON_stringify_chemicals : list ChemicalRecord -> jsstr;
  JSON_stringify_info : jsstr -> Contact -> Branding -> jsstr;
  toLowerCase : jsstr -> jsstr
}.

(* ===================================================================== *)
(** ** GHSBinderDeployer                                                  *)
(* ===================================================================== *)

Module Deployer.

(** The result of [generateQRCodes]. *)
Record QrCodes := {
  main_site : jsstr;
  mobile_optimized : jsstr;
  emergency_access : jsstr
}.

Record DeploymentInfo := {
  deployed_at : jsstr;
  version : jsstr;
  total_chemicals : nat
}.

(** The object returned by a successful [deployCustomerSite]. *)
Record DeployResult := {
  success : bool;
  repository : Repo;
  url : jsstr;
  qr_codes : QrCodes;
  deployment_info : DeploymentInfo
}.

(** [this.owner] *)
Definition owner : jsstr := js "rascoused".

(** [dir.split('/')[0]] *)
Fixpoint split_head (s : jsstr) : jsstr :=
  match s with
  | [] => []
  | c :: r => if c =? 47 then [] else c :: split_head r
  end.

(** The top-level keys [updateCustomerSite] copies from its [updates]
    argument with [Object.assign]; each may be absent. *)
Record ConfigUpdates := {
  up_customer_info : option CustomerInfo;
  up_chemicals : option (list ChemicalRecord);
  up_site_settings : option SiteSettings;
  up_deployment : option Deployment
}.

(** [Object.assign(customerConfig, updates)]: a key that is present
    replaces the whole value held under it. *)
Definition assign_config (customerConfig : CustomerConfig) (updates : ConfigUpdates)
  : CustomerConfig :=
  {| customer_info := default (customer_info customerConfig) (up_customer_info updates);
     chemicals := default (chemicals customerConfig) (up_chemicals updates);
     site_settings := default (site_settings customerConfig) (up_site_settings updates);
     deployment := default (deployment customerConfig) (up_deployment updates) |}.

(** The object returned by [deleteCustomerSite]. *)
Record DeleteResult := {
  del_success : bool;
  del_message : jsstr
}.

Section Deployer.
Context {R : Type} (hub : Hub R) (ext : Externals).

(** The existence probe shared by the two upload methods: the [sha] of the
    file at [path] on [branch]; only a 404 is ignored, and leaves [sha]
    undefined. *)
Definition probe_sha (owner repo path branch : jsstr) : M R (option jsstr) :=
  try_catch
    (request (GetContent owner repo path branch)
             (fun r => getContent hub r owner repo path branch))
    (fun error =>
       if bool_decide (err_status error = Some 404%Z) then ret None
       else throw error).

Definition safeUploadBinary (owner repo branch filePath : jsstr)
    (fileBuffer : list byte) (commitMessage : jsstr) : M R unit :=
  let content := toString_base64 fileBuffer in
  sha <- probe_sha owner repo filePath branch ;;
  let args := {| put_owner := owner; put_repo := repo; put_path := filePath;
                 put_message := commitMessage; put_content := content;
                 put_branch := branch; put_sha := sha |} in
  request (Put args) (fun r => createOrUpdateFileContents hub r args).

Definition uploadFile (repoName filePath content commitMessage branch : jsstr)
  : M R unit :=
  let contentEncoded := toString_base64 (Buffer_from content) in
  try_catch
    (sha <- probe_sha owner repoName filePath branch ;;
     let args := {| put_owner := owner; put_repo := repoName;
                    put_path := filePath; put_message := commitMessage;
                    put_content := contentEncoded; put_branch := branch;
                    put_sha := sha |} in
     request (Put args) (fun r => createOrUpdateFileContents hub r args))
    (fun error =>
       emit (ConsoleError (js "❌ Failed to upload " ++ filePath ++ js ": "
                             ++ err_message error)) ;;;
       throw error).

Definition uploadCustomerAssets (repoName customerSlug branch : jsstr) : M R unit :=
  l <- get_local ;;
  match assets l customerSlug with
  | None =>
    emit (ConsoleLog (js "📁 No assets folder found for customer "
                        ++ customerSlug ++ js ", skipping asset upload"))
  | Some listing =>
    emit (ConsoleLog (js "🖼️ Uploading assets for customer: " ++ customerSlug
                        ++ js "...")) ;;;
    try_catch
      (files <- lift_result listing ;;
       for_of files (fun entry =>
         let filename := asset_name entry in
         isDirectory <- lift_result (asset_stat entry) ;;
         if isDirectory || startsWith filename (js ".") then ret tt
         else
           emit (ConsoleLog (js "⬆️  Uploading " ++ customerSlug ++ js " asset: "
                               ++ filename)) ;;;
           buffer <- lift_result (asset_read entry) ;;
           safeUploadBinary owner repoName branch (js "assets/" ++ filename)
             buffer (js "Upload " ++ customerSlug ++ js " asset: " ++ filename) ;;;
           emit (ConsoleLog (js "✅ Uploaded " ++ customerSlug ++ js " asset: "
                               ++ filename))) ;;;
       emit (ConsoleLog (js "🎉 Customer " ++ customerSlug
                           ++ js " assets upload complete")))
      (fun error =>
         emit (ConsoleError (js "❌ Customer " ++ customerSlug
                               ++ js " assets upload failed: "
                               ++ err_message error)) ;;;
         throw error)
  end.

(** The checks [verifyPDFsOnPages] makes on one response. *)
Definition contentType_of (res : Response) : jsstr :=
  or_default (res_content_type res) [].

Definition contentLength_of (res : Response) : number :=
  parseInt (or_default (res_content_length res) (js "0")).

Definition check_response (res : Response) : result unit :=
  if negb (res_ok res) then
    Throw (Error (js "HTTP " ++ dec_of_Z (res_status res)))
  else if negb (includes (contentType_of res) (js "pdf"))
          || lt (contentLength_of res) (Num 1024) then
    Throw (Error (js "Unexpected type/size: " ++ contentType_of res ++ js ", "
                    ++ number_to_string (contentLength_of res) ++ js " bytes"))
  else Ok tt.

Definition pages_base (repoName : jsstr) : jsstr :=
  js "https://" ++ owner ++ js ".github.io/" ++ repoName.

Definition pdf_url (repoName filename : jsstr) : jsstr :=
  pages_base repoName ++ js "/pdfs/" ++ filename.

Definition verify_one (repoName filename : jsstr) : M R unit :=
  let url := pdf_url repoName filename in
  emit (ConsoleLog (js "  ➜ Checking " ++ url)) ;;;
  try_catch
    (res <- request (Head url) (fun r => fetch_head hub r url) ;;
     lift_result (check_response res) ;;;
     emit (ConsoleLog (js "  ✅ Verified " ++ filename)))
    (fun err =>
       throw (Error (js "Verification failed for " ++ url ++ js ": "
                       ++ err_message err))).

Definition verifyPDFsOnPages (repoName : jsstr) (chemicals : list ChemicalRecord)
  : M R unit :=
  emit (ConsoleLog (js "🔍 Verifying uploaded PDFs on GitHub Pages...")) ;;;
  for_of chemicals (fun chemical =>
    for_of (slot_files chemical) (verify_one repoName)) ;;;
  emit (ConsoleLog (js "🎉 All PDFs verified successfully.")).

Definition create_args (customerConfig : CustomerConfig) : CreateRepoArgs :=
  {| cr_name := gh_name (cust_github_repo (customer_info customerConfig));
     cr_description :=
       js "GHS Safety Binder for " ++ cust_name (customer_info customerConfig)
       ++ js " - Professional chemical safety documentation portal";
     cr_private := false;
     cr_homepage := gh_url (cust_github_repo (customer_info customerConfig));
     cr_topics := [js "ghs"; js "safety"; js "chemical-safety";
                   js "osha-compliance"; js "sds"];
     cr_has_issues := false;
     cr_has_projects := false;
     cr_has_wiki := false;
     cr_auto_init := true;
     cr_license_template := js "mit" |}.

(** [${repo.default_branch}] inside a template literal. *)
Definition show_branch (b : option jsstr) : jsstr :=
  match b with Some s => s | None => js "undefined" end.

Definition createRepository (customerConfig : CustomerConfig) : M R Repo :=
  let repoName := gh_name (cust_github_repo (customer_info customerConfig)) in
  try_catch
    (repo <- request (CreateRepo (create_args customerConfig))
               (fun r => createForAuthenticatedUser hub r (create_args customerConfig)) ;;
     emit (ConsoleLog (js "📁 Created repository: " ++ repo_name repo
                         ++ js " (default branch: "
                         ++ show_branch (repo_default_branch repo) ++ js ")")) ;;;
     ret repo)
    (fun error =>
       if bool_decide (err_status error = Some 422%Z) then
         repo <- request (GetRepo owner repoName)
                   (fun r => repos_get hub r owner repoName) ;;
         emit (ConsoleLog (js "📁 Using existing repository: " ++ repo_name repo
                             ++ js " (default branch: "
                             ++ show_branch (repo_default_branch repo) ++ js ")")) ;;;
         ret repo
       else throw error).

Definition active_chemicals (customerConfig : CustomerConfig) : list ChemicalRecord :=
  List.filter chem_active (chemicals customerConfig).

Definition templateData (l : Local) (customerConfig : CustomerConfig) : TemplateData :=
  let customerInfo := customer_info customerConfig in
  let chemicals := active_chemicals customerConfig in
  {| CUSTOMER_NAME := cust_name customerInfo;
     CUSTOMER_LOGO := logo_url (cust_branding customerInfo);
     CUSTOMER_CONTACT := contact_phone (cust_contact customerInfo);
     CUSTOMER_EMERGENCY := contact_emergency (cust_contact customerInfo);
     LAST_UPDATED := site_last_updated (site_settings customerConfig);
     GENERATION_DATE := locale_date l;
     TOTAL_PRODUCTS := length chemicals;
     TOTAL_DOCUMENTS := length chemicals * 2;
     COMPLETE_BINDER_URL :=
       match site_complete_binder (site_settings customerConfig) with
       | Some d => doc_url d
       | None => None
       end;
     PRODUCTS_JSON := JSON_stringify_chemicals ext chemicals;
     CUSTOMER_INFO_JSON :=
       JSON_stringify_info ext (cust_name customerInfo)
         (cust_contact customerInfo) (cust_branding customerInfo) |}.

Definition generateHTML (customerConfig : CustomerConfig) : M R jsstr :=
  try_catch
    (l <- get_local ;;
     template <- lift_result (template l) ;;
     let html := mustache_render ext template (templateData l customerConfig) in
     emit (ConsoleLog (js "📄 Generated HTML for "
                         ++ dec_of_nat (length (active_chemicals customerConfig))
                         ++ js " chemicals")) ;;;
     ret html)
    (fun error =>
       emit (ConsoleError (js "❌ HTML generation failed: " ++ err_message error)) ;;;
       throw error).

Definition enablePages (repoName branch : jsstr) : M R unit :=
  try_catch
    (request (CreatePages owner repoName branch (js "/"))
             (fun r => createPagesSite hub r owner repoName branch (js "/")) ;;;
     emit (ConsoleLog (js "🌐 Enabled GitHub Pages for " ++ repoName
                         ++ js " on branch: " ++ branch)))
    (fun error =>
       if bool_decide (err_status error = Some 409%Z) then
         emit (ConsoleLog (js "🌐 GitHub Pages already enabled for " ++ repoName))
       else
         emit (ConsoleError (js "❌ Failed to enable GitHub Pages: "
                               ++ err_message error)) ;;;
         throw error).

(** [generateReadme]: the template literal, line by line. *)
Definition generateReadme (l : Local) (customerConfig : CustomerConfig) : jsstr :=
  let customerName := cust_name (customer_info customerConfig) in
  let totalChemicals := length (List.filter chem_active (chemicals customerConfig)) in
  js "# " ++ customerName ++ js " - GHS Safety Binder

Professional chemical safety documentation portal providing 24/7 access to GHS-compliant Safety Data Sheets and product literature.

## 🧪 Chemical Safety Information

- **Total Products**: " ++ dec_of_nat totalChemicals ++ js "
- **Total Documents**: " ++ dec_of_nat (totalChemicals * 2) ++ js " (Literature + SDS per product)
- **Compliance**: OSHA Hazard Communication Standard (29 CFR 1910.1200)
- **Access**: 24/7 emergency access without barriers

## 🚨 Emergency Access

This safety information is available 24/7 without restrictions for emergency response and compliance purposes. No login or password required.

## 📱 Mobile Access

All documents are optimized for mobile viewing and can be accessed via QR codes posted at chemical storage locations.

## 🛡️ Customer Responsibility

**" ++ customerName ++ js "** is solely responsible for ensuring the accuracy, completeness, and
currency of all chemical safety information displayed on this site.

## 🏢 System Provider

Professional GHS Binder System provided by **RascoWeb, Inc.**

*Generated on " ++ locale_date l ++ js "*
".

Definition createDirectoryStructure (repoName branch : jsstr) : M R unit :=
  uploadFile repoName (js ".nojekyll") []
    (js "Disable Jekyll processing for GitHub Pages") branch ;;;
  let directories := [js "pdfs/.gitkeep"; js "assets/.gitkeep";
                      js "qr-codes/.gitkeep"] in
  for_of directories (fun dir =>
    uploadFile repoName dir []
      (js "Create " ++ split_head dir ++ js " directory") branch).

Definition generateQRCodes (customerConfig : CustomerConfig) : M R QrCodes :=
  let baseUrl :=
    pages_base (gh_name (cust_github_repo (customer_info customerConfig))) in
  let qrCodes := {| main_site := baseUrl;
                    mobile_optimized := baseUrl ++ js "?mobile=1";
                    emergency_access := baseUrl ++ js "?emergency=1" |} in
  emit (ConsoleLog (js "📱 QR codes generated for "
                      ++ cust_name (customer_info customerConfig))) ;;;
  ret qrCodes.

(** [fs.readFileSync] on a path that exists. *)
Definition readFileSync (e : FsEntry) : result (list byte) :=
  match e with
  | File content => Ok content
  | Unreadable err => Throw err
  | Absent => Throw (Error (js "ENOENT: no such file or directory"))
  end.

(** Step 7 of [deployCustomerSite], for one document slot of one chemical:
    the body of the inner [for] loop. *)
Definition upload_slot (repoName branch : jsstr) (chemical : ChemicalRecord)
    (type : jsstr) (data : option DocRef) : M R unit :=
  if negb (truthy (slot_filename data)) then ret tt
  else
    let filename := or_default (slot_filename data) [] in
    l <- get_local ;;
    let pdfPath := pdf_path l filename in
    emit (ConsoleLog (js "🔍 Looking for: " ++ pdfPath)) ;;;
    match pdfs l filename with
    | Absent =>
      emit (ConsoleWarn (js "⚠️  " ++ type ++ js " PDF not found: " ++ pdfPath))
    | entry =>
      buffer <- lift_result (readFileSync entry) ;;
      emit (ConsoleLog (js "⬆️  Uploading " ++ type ++ js ": " ++ filename
                          ++ js " to branch " ++ branch)) ;;;
      safeUploadBinary owner repoName branch (js "pdfs/" ++ filename) buffer
        (js "Upload " ++ type ++ js " PDF for " ++ chem_name chemical) ;;;
      emit (ConsoleLog (js "✅ Uploaded " ++ type ++ js ": " ++ filename))
    end.

(** Step 7 of [deployCustomerSite]: the loop over [chemicals]. *)
Definition uploadPDFs (repoName branch : jsstr) (chemicals : list ChemicalRecord)
  : M R unit :=
  for_of chemicals (fun chemical =>
    upload_slot repoName branch chemical (js "Literature") (chem_literature chemical) ;;;
    upload_slot repoName branch chemical (js "SDS") (chem_sds chemical)).

(** [repo.default_branch || 'main'] *)
Definition branch_of (repo : Repo) : jsstr :=
  or_default (repo_default_branch repo) (js "main").

(** Steps 2 to 12 of [deployCustomerSite]: what follows [createRepository]
    inside the [try] block. *)
Definition deploy_steps (customerConfig : CustomerConfig) (repo : Repo)
  : M R DeployResult :=
  let repoName := repo_name repo in
  let branch := branch_of repo in
  emit (ConsoleLog (js "📂 Using repository branch: " ++ branch)) ;;;
  html <- generateHTML customerConfig ;;
  createDirectoryStructure repoName branch ;;;
  uploadFile repoName (js "index.html") html
    (js "Deploy GHS safety binder website") branch ;;;
  l <- get_local ;;
  let readme := generateReadme l customerConfig in
  uploadFile repoName (js "README.md") readme
    (js "Add repository documentation") branch ;;;
  let customerSlug := cust_slug (customer_info customerConfig) in
  uploadCustomerAssets repoName customerSlug branch ;;;
  let chems := chemicals customerConfig in
  emit (ConsoleLog (js "📄 Uploading PDFs for " ++ dec_of_nat (length chems)
                      ++ js " chemicals...")) ;;;
  uploadPDFs repoName branch chems ;;;
  enablePages repoName branch ;;;
  emit (ConsoleLog (js "⏳ Waiting 10 seconds for GitHub Pages to refresh...")) ;;;
  emit (Sleep 10000) ;;;
  verifyPDFsOnPages repoName chems ;;;
  qrCodes <- generateQRCodes customerConfig ;;
  emit (ConsoleLog (js "✅ Successfully deployed: " ++ repo_html_url repo)) ;;;
  l' <- get_local ;;
  ret {| success := true;
         repository := repo;
         url := pages_base (repo_name repo);
         qr_codes := qrCodes;
         deployment_info :=
           {| deployed_at := now_iso l';
              version := js "1.0.0";
              total_chemicals := length (chemicals customerConfig) |} |}.

Definition deployCustomerSite (customerConfig : CustomerConfig) : M R DeployResult :=
  try_catch
    (emit (ConsoleLog (js "🚀 Deploying GHS binder for "
                         ++ cust_name (customer_info customerConfig) ++ js "...")) ;;;
     repo <- createRepository customerConfig ;;
     deploy_steps customerConfig repo)
    (fun error =>
       emit (ConsoleError (js "❌ Deployment failed: " ++ err_message error)) ;;;
       throw error).


(** [JSON.parse(await fsp.readFile(configPath, 'utf8'))] on the document
    [customer_configs/<slug>.json], as the deployer and the dashboard write
    it in line. *)
Definition readConfig (customerSlug : jsstr) : M R CustomerConfig :=
  fun w => match configs w !! customerSlug with
           | Some cfg => (w, [], Ok cfg)
           | None =>
             (w, [], Throw (Error (js "ENOENT: no such file or directory, open '"
                                     ++ customerSlug ++ js ".json'")))
           end.

(** [fsp.writeFile(configPath, JSON.stringify(customerConfig, null, 2))] *)
Definition writeConfig (customerSlug : jsstr) (customerConfig : CustomerConfig)
  : M R unit :=
  fun w => ({| remote := remote w;
               configs := <[customerSlug := customerConfig]> (configs w);
               local := local w |}, [], Ok tt).

(** [fsp.unlink(configPath)] on a document that was just read. *)
Definition unlinkConfig (customerSlug : jsstr) : M R unit :=
  fun w => ({| remote := remote w;
               configs := delete customerSlug (configs w);
               local := local w |}, [], Ok tt).

Definition updateCustomerSite (customerSlug : jsstr) (updates : ConfigUpdates)
  : M R DeployResult :=
  try_catch
    (customerConfig <- readConfig customerSlug ;;
     l <- get_local ;;
     let customerConfig :=
       set_site_last_updated (assign_config customerConfig updates) (today l) in
     writeConfig customerSlug customerConfig ;;;
     deployCustomerSite customerConfig)
    (fun error =>
       emit (ConsoleError (js "❌ Update failed: " ++ err_message error)) ;;;
       throw error).

Section Delete.

(** [octokit.rest.repos.delete({ owner, repo })], the one request of
    [deleteCustomerSite]: the new state of the service and the outcome.  The
    trace has no event for it; its effect is the state it leaves. *)
Context (repos_delete : R -> jsstr -> jsstr -> R * result unit).

Definition deleteRepository (owner repo : jsstr) : M R unit :=
  fun w => let (r', o) := repos_delete (remote w) owner repo in
           ({| remote := r'; configs := configs w; local := local w |}, [], o).

Definition deleteCustomerSite (customerSlug : jsstr) : M R DeleteResult :=
  try_catch
    (customerConfig <- readConfig customerSlug ;;
     let repoName := gh_name (cust_github_repo (customer_info customerConfig)) in
     deleteRepository owner repoName ;;;
     unlinkConfig customerSlug ;;;
     emit (ConsoleLog (js "🗑️ Deleted customer site: " ++ customerSlug)) ;;;
     ret {| del_success := true;
            del_message := js "Customer site " ++ customerSlug
                           ++ js " deleted successfully" |})
    (fun error =>
       emit (ConsoleError (js "❌ Deletion failed: " ++ err_message error)) ;;;
       throw error).

End Delete.

End Deployer.
End Deployer.

(* ===================================================================== *)
(** ** ChemicalManager                                                    *)
(* ===================================================================== *)

Module ChemicalManager.

Import Deployer.

(** The chemical data handed to [addChemical] and [updateChemical]: a JSON
    object (the body of the dashboard's POST request, or the file given on
    the command line).  The record lists the keys of a chemical record it
    may carry; each is optional, and [Object.assign] copies every key that is
    present.  A text key that is present holds a string, as the form and the
    sample files have it. *)
Record ChemicalInput := {
  in_id : option jsstr;
  in_name : option jsstr;
  in_description : option jsstr;
  in_hazards : option jsstr;
  in_literature : option DocRef;
  in_sds : option DocRef;
  in_supplier : option jsstr;
  in_last_updated : option jsstr;
  in_active : option bool;
  in_deactivated_date : option jsstr
}.

Record UpdateResult := {
  upd_success : bool;
  updated_chemical : ChemicalRecord;
  upd_deployment : DeployResult
}.

(** [addChemical] returns its own result or, for an existing id, the result
    of [updateChemical]. *)
Inductive AddResult :=
| Added (chemical : ChemicalRecord) (deployment : DeployResult) (total_chemicals : nat)
| Existing (r : UpdateResult).

Record RemoveResult := {
  rem_success : bool;
  removed_chemical : ChemicalRecord;
  rem_deployment : DeployResult;
  rem_total_chemicals : nat
}.

Record ListResult := {
  list_customer : jsstr;
  list_total : nat;
  list_active : nat;
  list_inactive : nat;
  list_chemicals : list ChemicalRecord
}.

(** An entry of the [results] array of [bulkUpdateChemicals]; its
    [chemical] key is [chemicalData.name]. *)
Inductive BulkEntry :=
| BulkDone (chemical : option jsstr) (result : AddResult)
| BulkFailed (chemical : option jsstr) (error : jsstr).

(** [r.success] *)
Definition entry_success (r : BulkEntry) : bool :=
  match r with BulkDone _ _ => true | BulkFailed _ _ => false end.

Definition entry_chemical (r : BulkEntry) : option jsstr :=
  match r with BulkDone c _ => c | BulkFailed c _ => c end.

Record BulkSummary := {
  sum_total : nat;
  sum_success : nat;
  sum_failed : nat
}.

Record BulkResult := {
  bulk_success : bool;
  bulk_results : list BulkEntry;
  bulk_summary : BulkSummary
}.

(** The line feed of a template literal. *)
Definition nl : jsstr := [10].

(** [array.findIndex(p)]: [None] stands for [-1]. *)
Fixpoint findIndex {A} (p : A -> bool) (l : list A) : option nat :=
  match l with
  | [] => None
  | x :: r => if p x then Some 0%nat else option_map S (findIndex p r)
  end.

(** [.replace(/[^a-z0-9\s]/g, '')] *)
Definition strip_other (s : jsstr) : jsstr :=
  List.filter (fun c => is_lower c || is_digit c || is_space c) s.

(** [.replace(/\s+/g, '-')]: every maximal run of white space becomes one
    hyphen; [in_run] tells that the previous character was white space. *)
Fixpoint hyphenate (in_run : bool) (s : jsstr) : jsstr :=
  match s with
  | [] => []
  | c :: r =>
    if is_space c then (if in_run then hyphenate true r else 45 :: hyphenate true r)
    else c :: hyphenate false r
  end.

(** [array.join(', ')] *)
Fixpoint join_comma (l : list jsstr) : jsstr :=
  match l with
  | [] => []
  | [x] => x
  | x :: r => x ++ js ", " ++ join_comma r
  end.

(** [Object.assign(chemical, updates)] *)
Definition assign (c : ChemicalRecord) (u : ChemicalInput) : ChemicalRecord :=
  {| chem_id := default (chem_id c) (in_id u);
     chem_name := default (chem_name c) (in_name u);
     chem_description := default (chem_description c) (in_description u);
     chem_hazards := default (chem_hazards c) (in_hazards u);
     chem_literature :=
       match in_literature u with Some d => Some d | None => chem_literature c end;
     chem_sds := match in_sds u with Some d => Some d | None => chem_sds c end;
     chem_supplier := default (chem_supplier c) (in_supplier u);
     chem_last_updated := default (chem_last_updated c) (in_last_updated u);
     chem_active := default (chem_active c) (in_active u);
     chem_deactivated_date :=
       match in_deactivated_date u with
       | Some d => Some d
       | None => chem_deactivated_date c
       end |}.

Definition set_last_updated (c : ChemicalRecord) (d : jsstr) : ChemicalRecord :=
  {| chem_id := chem_id c; chem_name := chem_name c;
     chem_description := chem_description c; chem_hazards := chem_hazards c;
     chem_literature := chem_literature c; chem_sds := chem_sds c;
     chem_supplier := chem_supplier c; chem_last_updated := d;
     chem_active := chem_active c;
     chem_deactivated_date := chem_deactivated_date c |}.

(** [chemical.active = false; chemical.deactivated_date = d] *)
Definition deactivate (c : ChemicalRecord) (d : jsstr) : ChemicalRecord :=
  {| chem_id := chem_id c; chem_name := chem_name c;
     chem_description := chem_description c; chem_hazards := chem_hazards c;
     chem_literature := chem_literature c; chem_sds := chem_sds c;
     chem_supplier := chem_supplier c; chem_last_updated := chem_last_updated c;
     chem_active := false;
     chem_deactivated_date := Some d |}.

(** [new Error(`Chemical "${chemicalId}" not found`)] *)
Definition not_found (chemicalId : jsstr) : JsError :=
  Error (js "Chemical " ++ dquote ++ chemicalId ++ dquote ++ js " not found").

Section ChemicalManager.
Context {R : Type} (hub : Hub R) (ext : Externals).

Definition generateChemicalId (name : jsstr) : jsstr :=
  take 50 (hyphenate false (strip_other (toLowerCase ext name))).

Definition validateChemicalData (chemicalData : ChemicalInput) : result unit :=
  let missing :=
    (if truthy (in_name chemicalData) then [] else [js "name"])
    ++ (if present (in_literature chemicalData) then [] else [js "literature"])
    ++ (if present (in_sds chemicalData) then [] else [js "sds"]) in
  match missing with
  | _ :: _ => Throw (Error (js "Missing required fields: " ++ join_comma missing))
  | [] =>
    let lit := slot_filename (in_literature chemicalData) in
    let sds := slot_filename (in_sds chemicalData) in
    if negb (truthy lit) || negb (truthy sds) then
      Throw (Error (js "Literature and SDS filenames are required"))
    else if negb (endsWith (or_default lit []) (js ".pdf")) then
      Throw (Error (js "Literature file must be a PDF"))
    else if negb (endsWith (or_default sds []) (js ".pdf")) then
      Throw (Error (js "SDS file must be a PDF"))
    else Ok tt
  end.

(** [loadCustomerConfig]: read and parse [<slug>.json]. *)
Definition loadCustomerConfig (customerSlug : jsstr) : M R CustomerConfig :=
  fun w => match configs w !! customerSlug with
           | Some cfg => (w, [], Ok cfg)
           | None =>
             (w, [], Throw (Error (js "ENOENT: no such file or directory, open '"
                                     ++ customerSlug ++ js ".json'")))
           end.

(** [saveCustomerConfig]: write [<slug>.json]. *)
Definition saveCustomerConfig (customerSlug : jsstr) (config : CustomerConfig)
  : M R unit :=
  fun w => ({| remote := remote w;
               configs := <[customerSlug := config]> (configs w);
               local := local w |}, [], Ok tt).

Definition has_id (chemicalId : jsstr) (c : ChemicalRecord) : bool :=
  str_eqb (chem_id c) chemicalId.

Definition updateChemical (customerSlug chemicalId : jsstr) (updates : ChemicalInput)
  : M R UpdateResult :=
  try_catch
    (emit (ConsoleLog (js "📝 Updating chemical " ++ dquote ++ chemicalId
                         ++ dquote ++ js " for " ++ customerSlug ++ js "...")) ;;;
     customerConfig <- loadCustomerConfig customerSlug ;;
     match findIndex (has_id chemicalId) (chemicals customerConfig) with
     | None => throw (not_found chemicalId)
     | Some chemicalIndex =>
       l <- get_local ;;
       match chemicals customerConfig !! chemicalIndex with
       | None => throw (Error (js "Cannot read properties of undefined"))
       | Some c =>
         let chemical := set_last_updated (assign c updates) (today l) in
         let customerConfig :=
           set_site_last_updated
             (set_chemicals customerConfig
                (<[chemicalIndex := chemical]> (chemicals customerConfig)))
             (today l) in
         saveCustomerConfig customerSlug customerConfig ;;;
         deployResult <- deployCustomerSite hub ext customerConfig ;;
         emit (ConsoleLog (js "✅ Chemical " ++ dquote ++ chem_name chemical
                             ++ dquote ++ js " updated successfully")) ;;;
         ret {| upd_success := true; updated_chemical := chemical;
                upd_deployment := deployResult |}
       end
     end)
    (fun error =>
       emit (ConsoleError (js "❌ Failed to update chemical: " ++ err_message error)) ;;;
       throw error).

(** [${chemicalData.name}] inside a template literal. *)
Definition show_name (o : option jsstr) : jsstr :=
  match o with Some s => s | None => js "undefined" end.

Definition new_doc (d : option DocRef) (default_title : jsstr) : DocRef :=
  let filename := or_default (slot_filename d) [] in
  {| doc_filename := Some filename;
     doc_url := Some (js "pdfs/" ++ filename);
     doc_title :=
       Some (or_default (match d with Some r => doc_title r | None => None end)
                        default_title) |}.

(** The record [addChemical] appends for validated chemical data. *)
Definition newChemical (l : Local) (chemicalId : jsstr) (chemicalData : ChemicalInput)
  : ChemicalRecord :=
  let name := or_default (in_name chemicalData) [] in
  {| chem_id := chemicalId;
     chem_name := name;
     chem_description :=
       or_default (in_description chemicalData) (js "Professional chemical product");
     chem_hazards :=
       or_default (in_hazards chemicalData)
         (js "See Safety Data Sheet for complete hazard information");
     chem_literature :=
       Some (new_doc (in_literature chemicalData) (name ++ js " Product Literature"));
     chem_sds :=
       Some (new_doc (in_sds chemicalData) (name ++ js " Safety Data Sheet"));
     chem_supplier := or_default (in_supplier chemicalData) (js "Unknown Supplier");
     chem_last_updated := today l;
     chem_active := true;
     chem_deactivated_date := None |}.

Definition addChemical (customerSlug : jsstr) (chemicalData : ChemicalInput)
  : M R AddResult :=
  try_catch
    (emit (ConsoleLog (js "🧪 Adding chemical " ++ dquote
                         ++ show_name (in_name chemicalData) ++ dquote ++ js " to "
                         ++ customerSlug ++ js "...")) ;;;
     customerConfig <- loadCustomerConfig customerSlug ;;
     lift_result (validateChemicalData chemicalData) ;;;
     let name := or_default (in_name chemicalData) [] in
     let chemicalId := generateChemicalId name in
     match findIndex (has_id chemicalId) (chemicals customerConfig) with
     | Some existingIndex =>
       emit (ConsoleLog (js "⚠️ Chemical " ++ dquote ++ name ++ dquote
                           ++ js " already exists. Updating...")) ;;;
       r <- updateChemical customerSlug chemicalId chemicalData ;;
       ret (Existing r)
     | None =>
       l <- get_local ;;
       let chemical := newChemical l chemicalId chemicalData in
       let customerConfig :=
         set_site_last_updated
           (set_chemicals customerConfig (chemicals customerConfig ++ [chemical]))
           (today l) in
       saveCustomerConfig customerSlug customerConfig ;;;
       deployResult <- deployCustomerSite hub ext customerConfig ;;
       emit (ConsoleLog (js "✅ Chemical " ++ dquote ++ name ++ dquote
                           ++ js " added successfully")) ;;;
       ret (Added chemical deployResult
              (length (List.filter chem_active (chemicals customerConfig))))
     end)
    (fun error =>
       emit (ConsoleError (js "❌ Failed to add chemical: " ++ err_message error)) ;;;
       throw error).

Definition removeChemical (customerSlug chemicalId : jsstr) : M R RemoveResult :=
  try_catch
    (emit (ConsoleLog (js "🗑️ Removing chemical " ++ dquote ++ chemicalId ++ dquote
                         ++ js " from " ++ customerSlug ++ js "...")) ;;;
     customerConfig <- loadCustomerConfig customerSlug ;;
     match findIndex (has_id chemicalId) (chemicals customerConfig) with
     | None => throw (not_found chemicalId)
     | Some chemicalIndex =>
       l <- get_local ;;
       match chemicals customerConfig !! chemicalIndex with
       | None => throw (Error (js "Cannot set properties of undefined"))
       | Some c =>
         (* [chemical] and [chemicals[chemicalIndex]] are one object *)
         let chemical := deactivate c (today l) in
         let customerConfig :=
           set_site_last_updated
             (set_chemicals customerConfig
                (<[chemicalIndex := chemical]> (chemicals customerConfig)))
             (today l) in
         saveCustomerConfig customerSlug customerConfig ;;;
         deployResult <- deployCustomerSite hub ext customerConfig ;;
         emit (ConsoleLog (js "✅ Chemical " ++ dquote ++ chem_name chemical ++ dquote
                             ++ js " removed successfully")) ;;;
         ret {| rem_success := true; removed_chemical := chemical;
                rem_deployment := deployResult;
                rem_total_chemicals :=
                  length (List.filter chem_active (chemicals customerConfig)) |}
       end
     end)
    (fun error =>
       emit (ConsoleError (js "❌ Failed to remove chemical: " ++ err_message error)) ;;;
       throw error).

Definition listChemicals (customerSlug : jsstr) (includeInactive : bool)
  : M R ListResult :=
  try_catch
    (customerConfig <- loadCustomerConfig customerSlug ;;
     let chems :=
       if negb includeInactive then List.filter chem_active (chemicals customerConfig)
       else chemicals customerConfig in
     ret {| list_customer := cust_name (customer_info customerConfig);
            list_total := length chems;
            list_active := length (List.filter chem_active (chemicals customerConfig));
            list_inactive :=
              length (List.filter (fun c => negb (chem_active c))
                                  (chemicals customerConfig));
            list_chemicals := chems |})
    (fun error =>
       emit (ConsoleError (js "❌ Failed to list chemicals: " ++ err_message error)) ;;;
       throw error).


(** The loop of [bulkUpdateChemicals]: every chemical goes through
    [addChemical] inside its own [try]/[catch], and one entry is pushed for
    it either way. *)
Fixpoint bulk_loop (customerSlug : jsstr) (chemicalsData : list ChemicalInput)
    (results : list BulkEntry) : M R (list BulkEntry) :=
  match chemicalsData with
  | [] => ret results
  | chemicalData :: rest =>
    entry <- try_catch
               (result <- addChemical customerSlug chemicalData ;;
                ret (BulkDone (in_name chemicalData) result))
               (fun error =>
                  ret (BulkFailed (in_name chemicalData) (err_message error))) ;;
    bulk_loop customerSlug rest (results ++ [entry])
  end.

Definition bulkUpdateChemicals (customerSlug : jsstr)
    (chemicalsData : list ChemicalInput) : M R BulkResult :=
  try_catch
    (emit (ConsoleLog (js "📦 Bulk updating " ++ dec_of_nat (length chemicalsData)
                         ++ js " chemicals for " ++ customerSlug ++ js "...")) ;;;
     results <- bulk_loop customerSlug chemicalsData [] ;;
     let successCount := length (List.filter entry_success results) in
     let failCount :=
       length (List.filter (fun r => negb (entry_success r)) results) in
     emit (ConsoleLog (js "✅ Bulk update complete: " ++ dec_of_nat successCount
                         ++ js " success, " ++ dec_of_nat failCount
                         ++ js " failed")) ;;;
     ret {| bulk_success := bool_decide (failCount = 0%nat);
            bulk_results := results;
            bulk_summary := {| sum_total := length chemicalsData;
                               sum_success := successCount;
                               sum_failed := failCount |} |})
    (fun error =>
       emit (ConsoleError (js "❌ Bulk update failed: " ++ err_message error)) ;;;
       throw error).

(** The three lines [generateUploadChecklist] appends for the chemical at
    position [index] of the active chemicals.  Reading [filename] of a
    document object that is absent is a [TypeError]. *)
Definition checklist_entry (index : nat) (chemical : ChemicalRecord) : result jsstr :=
  match chem_literature chemical, chem_sds chemical with
  | Some literature, Some sds =>
    Ok (js "### " ++ dec_of_nat (index + 1) ++ js ". " ++ chem_name chemical ++ nl
        ++ js "- [ ] Literature: `" ++ show_name (doc_filename literature)
        ++ js "`" ++ nl
        ++ js "- [ ] SDS: `" ++ show_name (doc_filename sds) ++ js "`" ++ nl ++ nl)
  | _, _ =>
    Throw (Error (js "Cannot read properties of undefined (reading 'filename')"))
  end.

(** [chemicals.forEach((chemical, index) => { checklist += ... })] *)
Fixpoint checklist_entries (index : nat) (chemicals : list ChemicalRecord)
    (checklist : jsstr) : result jsstr :=
  match chemicals with
  | [] => Ok checklist
  | chemical :: rest =>
    match checklist_entry index chemical with
    | Ok lines => checklist_entries (S index) rest (checklist ++ lines)
    | Throw e => Throw e
    end
  end.

Definition generateUploadChecklist (customerSlug : jsstr) : M R jsstr :=
  try_catch
    (customerConfig <- loadCustomerConfig customerSlug ;;
     l <- get_local ;;
     let chems := List.filter chem_active (chemicals customerConfig) in
     let checklist :=
       js "# PDF Upload Checklist for " ++ cust_name (customer_info customerConfig)
       ++ nl ++ nl
       ++ js "Generated on: " ++ locale_date l ++ nl ++ nl
       ++ js "## Required Files (" ++ dec_of_nat (length chems * 2) ++ js " total)"
       ++ nl ++ nl in
     checklist <- lift_result (checklist_entries 0 chems checklist) ;;
     ret (checklist
          ++ js "## Upload Instructions" ++ nl ++ nl
          ++ js "1. Upload all PDF files to the `pdfs/` directory in the GitHub repository"
          ++ nl
          ++ js "2. Ensure filenames match exactly as listed above" ++ nl
          ++ js "3. Verify all PDFs are readable and up-to-date" ++ nl
          ++ js "4. Run deployment script to update the website" ++ nl ++ nl
          ++ js "## Repository Information" ++ nl ++ nl
          ++ js "- **Repository**: "
          ++ gh_name (cust_github_repo (customer_info customerConfig)) ++ nl
          ++ js "- **Website**: "
          ++ gh_url (cust_github_repo (customer_info customerConfig)) ++ nl
          ++ js "- **Last Updated**: "
          ++ site_last_updated (site_settings customerConfig) ++ nl))
    (fun error =>
       emit (ConsoleError (js "❌ Failed to generate checklist: "
                             ++ err_message error)) ;;;
       throw error).

End ChemicalManager.
End ChemicalManager.

(* ===================================================================== *)
(** ** GHSManagementDashboard: the file-status report                     *)
(* ===================================================================== *)

Module Dashboard.

Import Deployer.

(** An entry of [missingFilesList]. *)
Record MissingFile := {
  mf_type : jsstr;
  mf_chemical : jsstr;
  mf_filename : jsstr
}.

(** An entry of the [fileStatus] array of the response. *)
Inductive FileStatus :=
| Status (customer slug : jsstr) (totalFiles totalChemicals : nat)
         (missingFiles orphanedFiles : nat)
         (missingFilesList : list MissingFile) (orphanedFilesList : list jsstr)
         (status : jsstr)
| StatusError (customer slug : jsstr) (error : jsstr) (status : jsstr).

(** An entry of the result of [listCustomerSites]. *)
Record CustomerSite := {
  cs_name : jsstr;
  cs_slug : jsstr;
  cs_url : jsstr;
  cs_chemicals : nat;
  cs_last_updated : jsstr
}.

(** [files.includes(name)] *)
Definition files_include (files : list jsstr) (name : jsstr) : bool :=
  existsb (str_eqb name) files.

(** [index = a.indexOf(name); if (index > -1) a.splice(index, 1)]: remove
    the first occurrence. *)
Fixpoint remove_first (name : jsstr) (a : list jsstr) : list jsstr :=
  match a with
  | [] => []
  | x :: r => if str_eqb x name then r else x :: remove_first name r
  end.

(** The two blocks of the [forEach] body: one document slot. *)
Definition check_slot (files : list jsstr) (type : jsstr) (chemical : ChemicalRecord)
    (data : option DocRef) (acc : list MissingFile * list jsstr)
  : list MissingFile * list jsstr :=
  let (missingFiles, orphanedFiles) := acc in
  if present data && truthy (slot_filename data) then
    let filename := or_default (slot_filename data) [] in
    if negb (files_include files filename) then
      (missingFiles ++ [{| mf_type := type; mf_chemical := chem_name chemical;
                           mf_filename := filename |}], orphanedFiles)
    else (missingFiles, remove_first filename orphanedFiles)
  else acc.

(** [chemicals.forEach(...)], from [missingFiles = []] and
    [orphanedFiles = [...files]]. *)
Definition reconcile (files : list jsstr) (chemicals : list ChemicalRecord)
  : list MissingFile * list jsstr :=
  fold_left
    (fun acc chemical =>
       check_slot files (js "sds") chemical (chem_sds chemical)
         (check_slot files (js "literature") chemical (chem_literature chemical) acc))
    chemicals ([], files).

(** The entry pushed for a customer whose configuration was read. *)
Definition file_status_of (customer : CustomerSite) (customerConfig : CustomerConfig)
    (files : list jsstr) : FileStatus :=
  let chems := chemicals customerConfig in
  let (missingFiles, orphanedFiles) := reconcile files chems in
  Status (cs_name customer) (cs_slug customer) (length files) (length chems)
    (length missingFiles) (length orphanedFiles) missingFiles orphanedFiles
    (if bool_decide (length missingFiles = 0%nat) then js "complete"
     else js "incomplete").

(** [fs.readdir(filesDir)] guarded by its [try]/[catch]: a staging folder
    that cannot be listed counts as empty. *)
Definition staged_files (l : Local) (slug : jsstr) : list jsstr :=
  match uploads l slug with
  | Some dir => elements dir
  | None => []
  end.

Section Dashboard.
Context {R : Type}.

Definition listCustomerSites : M R (list CustomerSite) :=
  fun w =>
    (w, [], Ok (omap (fun '(key, customerConfig) =>
                    if str_eqb key (js "customer_template") then None
                    else Some
                      {| cs_name := cust_name (customer_info customerConfig);
                         cs_slug := cust_slug (customer_info customerConfig);
                         cs_url := pages_base
                           (gh_name (cust_github_repo (customer_info customerConfig)));
                         cs_chemicals :=
                           length (List.filter chem_active (chemicals customerConfig));
                         cs_last_updated :=
                           site_last_updated (site_settings customerConfig) |})
                 (map_to_list (configs w)))).

(** The body of the loop of [handleFileStatus] for one customer. *)
Definition status_for (w : World R) (customer : CustomerSite) : FileStatus :=
  match configs w !! cs_slug customer with
  | Some customerConfig =>
    file_status_of customer customerConfig (staged_files (local w) (cs_slug customer))
  | None =>
    StatusError (cs_name customer) (cs_slug customer)
      (js "Could not load customer configuration") (js "error")
  end.

(** [handleFileStatus]: the body of the JSON response with status 200. *)
Definition handleFileStatus : M R (list FileStatus) :=
  customers <- listCustomerSites ;;
  fun w => (w, [], Ok (map (status_for w) customers)).

End Dashboard.

(** *** The request handlers

    A handler answers through [res]; the answer is the value of the
    computation: the status ([res.json] and [res.send] leave it at 200)
    and the body. *)

(** The body of an answer: [{ success: true, ...payload }],
    [{ success: false, error }], or a text sent with headers. *)
Inductive Body (A : Type) : Type :=
| Success (payload : A)
| Failure (error : jsstr)
| Sent (headers : list (jsstr * jsstr)) (text : jsstr).
Arguments Success {A} payload.
Arguments Failure {A} error.
Arguments Sent {A} headers text.

Record Reply (A : Type) := {
  reply_status : Z;
  reply_body : Body A
}.
Arguments reply_status {A}.
Arguments reply_body {A}.

(** The body of the request of [handleCreateCustomer]: the keys
    [createCustomerConfig] reads, each of which may be absent. *)
Record CustomerData := {
  cd_name : option jsstr;
  cd_slug : option jsstr;
  cd_phone : option jsstr;
  cd_email : option jsstr;
  cd_emergency : option jsstr;
  cd_address : option jsstr;
  cd_logo_url : option jsstr;
  cd_primary_color : option jsstr;
  cd_secondary_color : option jsstr;
  cd_custom_domain : option jsstr
}.

Record Analytics := {
  google_analytics_id : jsstr;
  track_downloads : bool;
  track_views : bool
}.

Record Seo := {
  meta_description : jsstr;
  meta_keywords : jsstr;
  robots : jsstr
}.

(** The document built by [createCustomerConfig]: the keys a
    [CustomerConfig] holds, and the keys that no method reads back
    ([customer_info.contact.company], [site_settings.analytics] and
    [site_settings.seo]). *)
Record NewConfig := {
  new_config : CustomerConfig;
  new_company : jsstr;
  new_analytics : Analytics;
  new_seo : Seo
}.

(** The payload of the answer of [handleCreateCustomer]: [message] and
    [customer], the [customer_info] of the new document. *)
Record Created := {
  created_message : jsstr;
  created_customer : CustomerInfo;
  created_company : jsstr
}.

(** [createCustomerConfig], which [handleCreateCustomer] calls once [name]
    and [slug] are known to be non-empty strings. *)
Definition createCustomerConfig (l : Local) (customerData : CustomerData) : NewConfig :=
  let name := or_default (cd_name customerData) [] in
  let slug := or_default (cd_slug customerData) [] in
  {| new_config :=
       {| customer_info :=
            {| cust_name := name;
               cust_slug := slug;
               cust_contact :=
                 {| contact_phone := or_default (cd_phone customerData) [];
                    contact_email := or_default (cd_email customerData) [];
                    contact_emergency := or_default (cd_emergency customerData) [];
                    contact_address := or_default (cd_address customerData) [] |};
               cust_branding :=
                 {| logo_url :=
                      or_default (cd_logo_url customerData)
                                 (js "assets/customer_logo.png");
                    primary_color :=
                      or_default (cd_primary_color customerData) (js "#3498db");
                    secondary_color :=
                      or_default (cd_secondary_color customerData) (js "#2c3e50") |};
               cust_github_repo :=
                 {| gh_name := slug ++ js "-ghs-binder";
                    gh_url := js "https://rasco-inc.github.io/" ++ slug
                              ++ js "-ghs-binder";
                    gh_custom_domain :=
                      or_default (cd_custom_domain customerData) [] |} |};
          chemicals := [];
          site_settings :=
            {| site_last_updated := today l;
               site_generation_date := now_iso l;
               site_complete_binder :=
                 Some {| doc_filename := Some (js "complete_ghs_binder.pdf");
                         doc_url := Some (js "pdfs/complete_ghs_binder.pdf");
                         doc_title := Some (js "Complete GHS Safety Binder") |} |};
          deployment :=
            {| dep_status := js "created";
               dep_created := now_iso l;
               dep_last_deployed := None;
               dep_version := js "1.0.0";
               dep_auto_update := true |} |};
     new_company := name;
     new_analytics :=
       {| google_analytics_id := [];
          track_downloads := true;
          track_views := true |};
     new_seo :=
       {| meta_description :=
            js "Professional chemical safety documentation portal for " ++ name
            ++ js " providing 24/7 access to GHS-compliant Safety Data Sheets and product literature.";
          meta_keywords :=
            js "GHS, safety data sheet, SDS, chemical safety, OSHA compliance";
          robots := js "index, follow" |} |}.

(** The local machine once the staging folder [uploads/<slug>] was created
    if it was not there: the folder exists, with the files it had. *)
Definition mkdir_uploads (l : Local) (slug : jsstr) : Local :=
  {| pdf_path := pdf_path l;
     pdfs := pdfs l;
     assets := assets l;
     template := template l;
     uploads := fun s =>
       if bool_decide (s = slug) then Some (default ∅ (uploads l slug))
       else uploads l s;
     now_iso := now_iso l;
     today := today l;
     locale_date := locale_date l |}.

Section Handlers.
Import ChemicalManager.
Context {R : Type} (hub : Hub R) (ext : Externals).

(** [res.status(status).json(body)] *)
Definition json {A} (status : Z) (body : Body A) : M R (Reply A) :=
  ret {| reply_status := status; reply_body := body |}.

Definition handleListCustomers : M R (Reply (list CustomerSite)) :=
  try_catch
    (customers <- listCustomerSites ;;
     json 200 (Success customers))
    (fun error => json 500 (Failure (err_message error))).

Section CreateCustomer.

(** The file system under the two writes of [handleCreateCustomer].  The
    handler makes both paths from the slug of the request with [path.join],
    which normalises them, and looks at neither: a slug that is a file name
    names the document and the staging folder of that customer; a slug with
    a separator or with [..] in it names another file, or a folder that is
    not there, and the write may fail.
    - [fs_writeFile store slug document]: the store after
      [fs.writeFile(path.join(__dirname, '../customer_configs',
      `${slug}.json`), ...)], or the error of a write that fails;
    - [fs_mkdir l slug]: the local machine after
      [fs.mkdir(path.join(__dirname, '../uploads', slug),
      { recursive: true })], or its error. *)
Context (fs_writeFile : gmap jsstr CustomerConfig -> jsstr -> CustomerConfig
                        -> result (gmap jsstr CustomerConfig))
        (fs_mkdir : Local -> jsstr -> result Local).

Definition writeFile (slug : jsstr) (customerConfig : CustomerConfig) : M R unit :=
  fun w => match fs_writeFile (configs w) slug customerConfig with
           | Ok store =>
             ({| remote := remote w; configs := store; local := local w |}, [], Ok tt)
           | Throw e => (w, [], Throw e)
           end.

Definition mkdir (slug : jsstr) : M R unit :=
  fun w => match fs_mkdir (local w) slug with
           | Ok l =>
             ({| remote := remote w; configs := configs w; local := l |}, [], Ok tt)
           | Throw e => (w, [], Throw e)
           end.

Definition handleCreateCustomer (customerData : CustomerData) : M R (Reply Created) :=
  try_catch
    (if negb (truthy (cd_name customerData)) || negb (truthy (cd_slug customerData))
     then json 400 (Failure (js "Customer name and slug are required"))
     else
       l <- get_local ;;
       let customerConfig := createCustomerConfig l customerData in
       let slug := or_default (cd_slug customerData) [] in
       writeFile slug (new_config customerConfig) ;;;
       mkdir slug ;;;
       json 200 (Success
         {| created_message := js "Customer created successfully";
            created_customer := customer_info (new_config customerConfig);
            created_company := new_company customerConfig |}))
    (fun error => json 500 (Failure (err_message error))).

End CreateCustomer.

Definition handleListChemicals (slug : jsstr) (include_inactive : option jsstr)
  : M R (Reply ListResult) :=
  try_catch
    (let includeInactive := bool_decide (include_inactive = Some (js "true")) in
     result <- listChemicals slug includeInactive ;;
     json 200 (Success result))
    (fun error => json 500 (Failure (err_message error))).

Definition handleAddChemical (slug : jsstr) (chemicalData : ChemicalInput)
  : M R (Reply AddResult) :=
  try_catch
    (result <- addChemical hub ext slug chemicalData ;;
     json 200 (Success result))
    (fun error => json 500 (Failure (err_message error))).

Definition handleRemoveChemical (slug id : jsstr) : M R (Reply RemoveResult) :=
  try_catch
    (result <- removeChemical hub ext slug id ;;
     json 200 (Success result))
    (fun error => json 500 (Failure (err_message error))).

Definition handleDeployCustomer (slug : jsstr) : M R (Reply DeployResult) :=
  try_catch
    (customerConfig <- readConfig slug ;;
     result <- deployCustomerSite hub ext customerConfig ;;
     json 200 (Success result))
    (fun error => json 500 (Failure (err_message error))).

Definition handleGenerateChecklist (slug : jsstr) : M R (Reply unit) :=
  try_catch
    (checklist <- generateUploadChecklist slug ;;
     json 200 (Sent [(js "Content-Type", js "text/plain");
                     (js "Content-Disposition",
                      js "attachment; filename=" ++ dquote ++ slug
                      ++ js "-checklist.md" ++ dquote)]
                    checklist))
    (fun error => json 500 (Failure (err_message error))).

Section DeleteCustomer.
Context (repos_delete : R -> jsstr -> jsstr -> R * result unit).

Definition handleDeleteCustomer (slug : jsstr) : M R (Reply DeleteResult) :=
  try_catch
    (result <- deleteCustomerSite repos_delete slug ;;
     json 200 (Success result))
    (fun error => json 500 (Failure (err_message error))).

End DeleteCustomer.

End Handlers.

End Dashboard.

(* ===================================================================== *)
(** ** GHSBinderPDFGenerator: the text fallbacks                          *)
(* ===================================================================== *)

Module PDFGenerator.

(** [this.symbols]: the alternatives to emoji. *)
Record Symbols := {
  emergency : jsstr;
  warning : jsstr;
  complete : jsstr;
  bullet : jsstr;
  arrow : jsstr;
  check : jsstr;
  cross : jsstr;
  info : jsstr;
  phone : jsstr;
  email : jsstr;
  address : jsstr;
  important : jsstr;
  section : jsstr
}.

Definition symbols : Symbols :=
  {| emergency := js "EMERGENCY";
     warning := js "⚠";
     complete := js "✓";
     bullet := js "•";
     arrow := js "→";
     check := js "✓";
     cross := js "✗";
     info := js "ℹ";
     phone := js "☎";
     email := js "✉";
     address := js "⚹";
     important := js "!";
     section := js "§" |}.

(** [/[^\x00-\xFF]/.test(text)] *)
Definition containsSpecialChars (text : jsstr) : bool :=
  existsb (fun c => 255 <? c) text.

(** [s.replace(/pattern/g, replacement)] for a pattern that is a literal,
    non-empty sequence of code units: the occurrences are found from left to
    right and do not overlap.  [skip] counts the code units of the current
    occurrence that are still to be passed over. *)
Fixpoint replace_all (pattern replacement : jsstr) (skip : nat) (s : jsstr) : jsstr :=
  match s with
  | [] => []
  | c :: r =>
    match skip with
    | S k => replace_all pattern replacement k r
    | O =>
      if startsWith s pattern
      then replacement ++ replace_all pattern replacement (length pattern - 1) r
      else c :: replace_all pattern replacement 0 r
    end
  end.

(** [s.replace(/[\u{lo}-\u{hi}]/gu, '')]: with the [u] flag the string is
    read code point by code point, a high surrogate followed by a low one
    being one code point, any other code unit a code point of its own. *)
Fixpoint remove_range (lo hi : N) (s : jsstr) : jsstr :=
  match s with
  | [] => []
  | c :: r =>
    let single := if (lo <=? c) && (c <=? hi) then remove_range lo hi r
                  else c :: remove_range lo hi r in
    if is_high_surrogate c then
      match r with
      | d :: r' =>
        if is_low_surrogate d then
          let cp := 65536 + (c - 55296) * 1024 + (d - 56320) in
          if (lo <=? cp) && (cp <=? hi) then remove_range lo hi r'
          else c :: d :: remove_range lo hi r'
        else single
      | [] => single
      end
    else single
  end.

Definition makeSafeText (text : jsstr) : jsstr :=
  let text := replace_all (js "🚨") (emergency symbols) 0 text in
  let text := replace_all (js "⚠️") (warning symbols) 0 text in
  let text := replace_all (js "✅") (complete symbols) 0 text in
  let text := replace_all (js "➤") (arrow symbols) 0 text in
  let text := remove_range 128512 128591 text in
  let text := remove_range 127744 128511 text in
  let text := remove_range 128640 128767 text in
  let text := remove_range 9728 9983 text in
  remove_range 9984 10175 text.

End PDFGenerator.

(* ===================================================================== *)
(** ** A simulated hosting service and sample data                        *)
(* ===================================================================== *)

(** An in-memory hosting service on which the operations can be run: the
    repositories of the account, the files committed to them and the
    repositories with Pages enabled.  It answers as the real service does in
    the cases the sources distinguish: 422 when the repository name is taken,
    404 for a file or repository that does not exist, 409 for a stale [sha]
    and for Pages that are already enabled. *)
Module Sim.

Import Deployer.

Record State := {
  repos : gmap jsstr Repo;
  files : gmap (jsstr * jsstr) jsstr;
  pages : gset jsstr
}.

Definition http_error (status : Z) (msg : jsstr) : JsError :=
  {| err_message := msg; err_status := Some status |}.

Definition sha_of (content : jsstr) : jsstr := take 8 content.

Definition create (s : State) (a : CreateRepoArgs) : State * result Repo :=
  match repos s !! cr_name a with
  | Some _ => (s, Throw (http_error 422 (js "Repository creation failed.")))
  | None =>
    let repo := {| repo_name := cr_name a;
                   repo_default_branch := Some (js "main");
                   repo_html_url := js "https://github.com/rascoused/" ++ cr_name a |} in
    ({| repos := <[cr_name a := repo]> (repos s); files := files s;
        pages := pages s |}, Ok repo)
  end.

Definition get (s : State) (owner name : jsstr) : State * result Repo :=
  match repos s !! name with
  | Some repo => (s, Ok repo)
  | None => (s, Throw (http_error 404 (js "Not Found")))
  end.

Definition get_content (s : State) (owner repo path ref : jsstr)
  : State * result (option jsstr) :=
  match files s !! (repo, path) with
  | Some content => (s, Ok (Some (sha_of content)))
  | None => (s, Throw (http_error 404 (js "Not Found")))
  end.

Definition put (s : State) (a : PutArgs) : State * result unit :=
  let stored := {| repos := repos s;
                   files := <[(put_repo a, put_path a) := put_content a]> (files s);
                   pages := pages s |} in
  match files s !! (put_repo a, put_path a) with
  | Some old =>
    if bool_decide (put_sha a = Some (sha_of old)) then (stored, Ok tt)
    else (s, Throw (http_error 409 (js "sha does not match")))
  | None => (stored, Ok tt)
  end.

Definition create_pages (s : State) (owner repo branch path : jsstr)
  : State * result unit :=
  if bool_decide (repo ∈ pages s) then
    (s, Throw (http_error 409 (js "GitHub Pages is already enabled.")))
  else
    ({| repos := repos s; files := files s; pages := {[repo]} ∪ pages s |}, Ok tt).

(** A HEAD request on the published site: a committed PDF is served as
    such, with the size of the decoded content; anything else is the HTML
    error page. *)
Definition head (s : State) (url : jsstr) : State * result Response :=
  match List.find (fun '((repo, path), _) =>
                     bool_decide (pages_base repo ++ js "/" ++ path = url)
                     && bool_decide (repo ∈ pages s))
                  (map_to_list (files s)) with
  | Some (_, content) =>
    (s, Ok {| res_status := 200;
              res_content_type := Some (js "application/pdf");
              res_content_length :=
                Some (dec_of_nat (length content / 4 * 3)) |})
  | None =>
    (s, Ok {| res_status := 404;
              res_content_type := Some (js "text/html; charset=utf-8");
              res_content_length := Some (js "9115") |})
  end.

Definition hub : Hub State :=
  {| createForAuthenticatedUser := create;
     repos_get := get;
     getContent := get_content;
     createOrUpdateFileContents := put;
     createPagesSite := create_pages;
     fetch_head := head |}.

Definition empty : State := {| repos := ∅; files := ∅; pages := ∅ |}.

(** The service during an outage: every request fails with a 500. *)
Definition outage_error : JsError := http_error 500 (js "Internal Server Error").

Definition outage : Hub State :=
  {| createForAuthenticatedUser := fun s _ => (s, Throw outage_error);
     repos_get := fun s _ _ => (s, Throw outage_error);
     getContent := fun s _ _ _ _ => (s, Throw outage_error);
     createOrUpdateFileContents := fun s _ => (s, Throw outage_error);
     createPagesSite := fun s _ _ _ _ => (s, Throw outage_error);
     fetch_head := fun s _ => (s, Throw outage_error) |}.

(** ASCII case mapping, and simple stand-ins for the template engine and the
    JSON printer. *)
Definition ascii_lower (s : jsstr) : jsstr :=
  map (fun c => if (65 <=? c) && (c <=? 90) then c + 32 else c) s.

Definition ext : Externals :=
  {| mustache_render := fun template data =>
       template ++ CUSTOMER_NAME data ++ dec_of_nat (TOTAL_PRODUCTS data)
       ++ dec_of_nat (TOTAL_DOCUMENTS data) ++ PRODUCTS_JSON data
       ++ CUSTOMER_INFO_JSON data;
     JSON_stringify_chemicals := fun cs =>
       js "[" ++ concat (map (fun c => dquote ++ chem_id c ++ dquote ++ js ",") cs)
       ++ js "]";
     JSON_stringify_info := fun name _ _ => dquote ++ name ++ dquote;
     toLowerCase := ascii_lower |}.


(** [repos.delete]: the repository is removed; 404 when there is none. *)
Definition delete_repo (s : State) (owner name : jsstr) : State * result unit :=
  match repos s !! name with
  | Some _ =>
    ({| repos := delete name (repos s); files := files s; pages := pages s |}, Ok tt)
  | None => (s, Throw (http_error 404 (js "Not Found")))
  end.

End Sim.

(** Sample data, after the demonstration customer of the setup script. *)
Module Sample.

Import Deployer ChemicalManager.

Definition pdf_bytes : list byte := repeat "%"%byte 1500.

Definition doc (f t : jsstr) : DocRef :=
  {| doc_filename := Some f; doc_url := Some (js "pdfs/" ++ f); doc_title := Some t |}.

Definition bowl_cleaner : ChemicalRecord :=
  {| chem_id := js "302-dt-bowl-cleaner";
     chem_name := js "302 D/T Bowl Cleaner";
     chem_description := js "Detergent-thickened 9.5% hydrochloric acid toilet bowl cleaner";
     chem_hazards := js "Severe skin burns, eye damage, corrosive to metals";
     chem_literature :=
       Some (doc (js "302_dt_bowl_cleaner_literature.pdf")
                 (js "HUSKY® 302 D/T BOWL CLEANER Product Literature"));
     chem_sds :=
       Some (doc (js "302_dt_bowl_cleaner_sds.pdf")
                 (js "HUSKY® 302 D/T BOWL CLEANER Safety Data Sheet"));
     chem_supplier := js "Canberra Corporation";
     chem_last_updated := js "2025-07-27";
     chem_active := true;
     chem_deactivated_date := None |}.

(** A chemical that was removed: kept in the list, inactive. *)
Definition glass_cleaner : ChemicalRecord :=
  {| chem_id := js "glass-cleaner";
     chem_name := js "Glass Cleaner";
     chem_description := js "Professional chemical product";
     chem_hazards := js "See Safety Data Sheet for complete hazard information";
     chem_literature := Some (doc (js "glass_lit.pdf") (js "Glass Cleaner Product Literature"));
     chem_sds := Some (doc (js "glass_sds.pdf") (js "Glass Cleaner Safety Data Sheet"));
     chem_supplier := js "Unknown Supplier";
     chem_last_updated := js "2025-07-20";
     chem_active := false;
     chem_deactivated_date := Some (js "2025-07-21") |}.

Definition config (cs : list ChemicalRecord) : CustomerConfig :=
  {| customer_info :=
       {| cust_name := js "SQZR Cleaning Solutions";
          cust_slug := js "sqzr-demo";
          cust_contact :=
            {| contact_phone := js "555-0100"; contact_email := js "info@sqzr1.com";
               contact_emergency := js "911"; contact_address := js "1 Main St" |};
          cust_branding :=
            {| logo_url := js "assets/logo.png"; primary_color := js "#2c5aa0";
               secondary_color := js "#f8f9fa" |};
          cust_github_repo :=
            {| gh_name := js "sqzr-demo-ghs-binder";
               gh_url := js "https://rascoused.github.io/sqzr-demo-ghs-binder";
               gh_custom_domain := [] |} |};
     chemicals := cs;
     site_settings :=
       {| site_last_updated := js "2025-07-27";
          site_generation_date := js "2025-07-27T10:00:00.000Z";
          site_complete_binder :=
            Some (doc (js "complete_ghs_binder.pdf") (js "Complete GHS Safety Binder")) |};
     deployment :=
       {| dep_status := js "created"; dep_created := js "2025-07-27T10:00:00.000Z";
          dep_last_deployed := None; dep_version := js "1.0.0";
          dep_auto_update := true |} |}.

(** The local machine: the PDFs in [present] exist, the customer has no
    asset folder, and the staging folder of the customer holds [staged]. *)
Definition machine (present staged : list jsstr) : Local :=
  {| pdf_path := fun f => js "/opt/ghs/pdfs/" ++ f;
     pdfs := fun f => if bool_decide (f ∈ present) then File pdf_bytes else Absent;
     assets := fun _ => None;
     template := Ok (js "<html><body>{{CUSTOMER_NAME}}</body></html>");
     uploads := fun slug =>
       if bool_decide (slug = js "sqzr-demo") then Some (list_to_set staged) else None;
     now_iso := js "2025-08-01T09:30:00.000Z";
     today := js "2025-08-01";
     locale_date := js "8/1/2025" |}.

Definition world (s : Sim.State) (cs : list ChemicalRecord) (present staged : list jsstr)
  : World Sim.State :=
  {| remote := s;
     configs := {[ js "sqzr-demo" := config cs ]};
     local := machine present staged |}.

(** The service when the repository of the customer exists already, with
    [master] as its default branch. *)
Definition existing_repo : Repo :=
  {| repo_name := js "sqzr-demo-ghs-binder";
     repo_default_branch := Some (js "master");
     repo_html_url := js "https://github.com/rascoused/sqzr-demo-ghs-binder" |}.

Definition existing : Sim.State :=
  {| Sim.repos := {[ js "sqzr-demo-ghs-binder" := existing_repo ]};
     Sim.files := ∅; Sim.pages := ∅ |}.

(** The PDFs of the two sample chemicals. *)
Definition all_pdfs : list jsstr :=
  [js "302_dt_bowl_cleaner_literature.pdf"; js "302_dt_bowl_cleaner_sds.pdf";
   js "glass_lit.pdf"; js "glass_sds.pdf"].

(** A chemical whose documents are [a.pdf] and [b.pdf]. *)
Definition ab_chemical (active : bool) : ChemicalRecord :=
  {| chem_id := js "floor-cleaner";
     chem_name := js "Floor Cleaner";
     chem_description := js "Multi-surface floor cleaning solution";
     chem_hazards := js "Eye irritation, slippery when wet";
     chem_literature := Some (doc (js "a.pdf") (js "Floor Cleaner Product Literature"));
     chem_sds := Some (doc (js "b.pdf") (js "Floor Cleaner Safety Data Sheet"));
     chem_supplier := js "Test Supplier Inc.";
     chem_last_updated := js "2025-07-20";
     chem_active := active;
     chem_deactivated_date := if active then None else Some (js "2025-07-21") |}.

(** Chemical data as the dashboard form sends it, with an optional [id]
    key added. *)
Definition input (name : jsstr) (id : option jsstr) (lit sds : jsstr) : ChemicalInput :=
  {| in_id := id;
     in_name := Some name;
     in_description := Some (js "Multi-surface floor cleaning solution");
     in_hazards := Some (js "Eye irritation, slippery when wet");
     in_literature :=
       Some {| doc_filename := Some lit; doc_url := None;
               doc_title := Some (name ++ js " Product Literature") |};
     in_sds :=
       Some {| doc_filename := Some sds; doc_url := None;
               doc_title := Some (name ++ js " Safety Data Sheet") |};
     in_supplier := Some (js "Test Supplier Inc.");
     in_last_updated := None;
     in_active := None;
     in_deactivated_date := None |}.

(** The customer as [listCustomerSites] reports it. *)
Definition site (cs : list ChemicalRecord) : Dashboard.CustomerSite :=
  {| Dashboard.cs_name := js "SQZR Cleaning Solutions";
     Dashboard.cs_slug := js "sqzr-demo";
     Dashboard.cs_url := js "https://rascoused.github.io/sqzr-demo-ghs-binder";
     Dashboard.cs_chemicals := length (List.filter chem_active cs);
     Dashboard.cs_last_updated := js "2025-07-27" |}.


(** The service once the site of the customer is published. *)
Definition published : Sim.State :=
  {| Sim.repos := {[ js "sqzr-demo-ghs-binder" := existing_repo ]};
     Sim.files := ∅;
     Sim.pages := {[ js "sqzr-demo-ghs-binder" ]} |}.

(** The body of a request to create a customer. *)
Definition customer_data (name slug : option jsstr) : Dashboard.CustomerData :=
  {| Dashboard.cd_name := name;
     Dashboard.cd_slug := slug;
     Dashboard.cd_phone := Some (js "555-0100");
     Dashboard.cd_email := Some (js "info@sqzr1.com");
     Dashboard.cd_emergency := None;
     Dashboard.cd_address := None;
     Dashboard.cd_logo_url := None;
     Dashboard.cd_primary_color := None;
     Dashboard.cd_secondary_color := None;
     Dashboard.cd_custom_domain := None |}.

(** The file system of the sample machine under the two writes of
    [handleCreateCustomer]: the folder [customer_configs] has no folder
    inside, so a slug that is a file name names the document of that
    customer, and a slug with a separator leads to a folder that is not
    there. *)
Definition write_file (store : gmap jsstr CustomerConfig) (slug : jsstr)
    (document : CustomerConfig) : result (gmap jsstr CustomerConfig) :=
  if includes slug (js "/") then
    Throw (Error (js "ENOENT: no such file or directory, open 'customer_configs/"
                    ++ slug ++ js ".json'"))
  else Ok (<[slug := document]> store).

Definition make_folder (l : Local) (slug : jsstr) : result Local :=
  Ok (Dashboard.mkdir_uploads l slug).

(** An asset folder: a logo, a hidden file and a directory. *)
Definition asset_folder : list AssetEntry :=
  [{| asset_name := js "logo.png"; asset_stat := Ok false;
      asset_read := Ok pdf_bytes |};
   {| asset_name := js ".DS_Store"; asset_stat := Ok false;
      asset_read := Ok [] |};
   {| asset_name := js "old"; asset_stat := Ok true;
      asset_read := Throw (Error (js "EISDIR: illegal operation on a directory, read")) |}].

(** The local machine when the customer has that asset folder. *)
Definition machine_with_assets : Local :=
  {| pdf_path := fun f => js "/opt/ghs/pdfs/" ++ f;
     pdfs := fun _ => Absent;
     assets := fun slug =>
       if bool_decide (slug = js "sqzr-demo") then Some (Ok asset_folder) else None;
     template := Ok (js "<html><body>{{CUSTOMER_NAME}}</body></html>");
     uploads := fun _ => None;
     now_iso := js "2025-08-01T09:30:00.000Z";
     today := js "2025-08-01";
     locale_date := js "8/1/2025" |}.

End Sample.

(* ===================================================================== *)
(** ** Vocabulary of the properties                                       *)
(* ===================================================================== *)

(** A character of a chemical id: a lowercase letter, a digit or a hyphen. *)
Definition id_char (c : N) : Prop :=
  (97 <= c <= 122) \/ (48 <= c <= 57) \/ c = 45.

(** [referenced cs f]: some chemical of [cs], active or not, names the file
    [f] in one of its two document slots. *)
Definition referenced (cs : list ChemicalRecord) (f : jsstr) : Prop :=
  exists c, In c cs /\ In f (slot_files c).

(** [referenced_active cs f]: some active chemical of [cs] names [f]. *)
Definition referenced_active (cs : list ChemicalRecord) (f : jsstr) : Prop :=
  exists c, In c cs /\ chem_active c = true /\ In f (slot_files c).

(** A document slot names the file [f]. *)
Definition slot_names (data : option DocRef) (f : jsstr) : Prop :=
  slot_filename data = Some f /\ f <> [].

(** The reconciliation as the specification words it, where only active
    chemicals count: what an entry of the report would have to satisfy. *)
Definition reconciles_active_only (cfg : CustomerConfig) (files : list jsstr)
    (st : Dashboard.FileStatus) : Prop :=
  match st with
  | Dashboard.Status _ _ _ _ _ _ missing orphaned status =>
    (forall f, In f (map Dashboard.mf_filename missing)
               <-> referenced_active (chemicals cfg) f /\ ~ In f files)
    /\ (forall f, In f orphaned
                  <-> In f files /\ ~ referenced_active (chemicals cfg) f)
    /\ (status = js "complete" <-> missing = [])
  | Dashboard.StatusError _ _ _ _ => False
  end.

(** What [uploadFile] prints when the upload of [path] ends with [o]. *)
Definition failure_log (path : jsstr) (o : result unit) : list event :=
  match o with
  | Ok _ => []
  | Throw e => [ConsoleError (js "❌ Failed to upload " ++ path ++ js ": "
                                ++ err_message e)]
  end.

(** The world after a request that left the service in state [r]. *)
Definition with_remote {R} (w : World R) (r : R) : World R :=
  {| remote := r; configs := configs w; local := local w |}.

(** The commit sent for [path] with content [content] and marker [sha]. *)
Definition commit_args (repo path message content branch : jsstr)
    (sha : option jsstr) : PutArgs :=
  {| put_owner := Deployer.owner; put_repo := repo; put_path := path;
     put_message := message; put_content := content; put_branch := branch;
     put_sha := sha |}.

(** Events of the upload steps on branch [b]: console output, and probes
    and commits that name [b]. *)
Definition upload_event (b : jsstr) (e : event) : Prop :=
  match e with
  | ConsoleLog _ | ConsoleWarn _ | ConsoleError _ => True
  | GetContent _ _ _ ref _ => ref = b
  | Put a _ => put_branch a = b
  | _ => False
  end.

(** Events of the verification step: console output and HEAD requests. *)
Definition verify_event (e : event) : Prop :=
  match e with
  | ConsoleLog _ | ConsoleWarn _ | ConsoleError _ | Head _ _ => True
  | _ => False
  end.

(** Events of steps 2 to 12 of a deployment on branch [b]: every request
    that names a branch names [b], and no repository is created or
    fetched. *)
Definition deploy_event (b : jsstr) (e : event) : Prop :=
  match e with
  | ConsoleLog _ | ConsoleWarn _ | ConsoleError _ | Sleep _ | Head _ _ => True
  | GetContent _ _ _ ref _ => ref = b
  | Put a _ => put_branch a = b
  | CreatePages _ _ branch _ _ => branch = b
  | CreateRepo _ _ | GetRepo _ _ _ => False
  end.

(** Events of the publication steps on branch [b]: console output and the
    Pages request for [b]. *)
Definition publish_event (b : jsstr) (e : event) : Prop :=
  match e with
  | ConsoleLog _ | ConsoleWarn _ | ConsoleError _ => True
  | CreatePages _ _ branch _ _ => branch = b
  | _ => False
  end.

Definition any_event (e : event) : Prop := True.

(** The chemical data carries no [id] key of its own, or the id that
    [addChemical] derives from its name. *)
Definition keeps_id (ext : Externals) (chemicalData : ChemicalManager.ChemicalInput)
  : Prop :=
  match ChemicalManager.in_id chemicalData with
  | None => True
  | Some i =>
    i = ChemicalManager.generateChemicalId ext
          (or_default (ChemicalManager.in_name chemicalData) [])
  end.

(** The commits sent and the warnings printed, read off a list of events. *)
Definition puts (evs : list event) : list PutArgs :=
  flat_map (fun e => match e with Put a _ => [a] | _ => [] end) evs.

Definition warnings (evs : list event) : list jsstr :=
  flat_map (fun e => match e with ConsoleWarn s => [s] | _ => [] end) evs.

(** What a commit carries besides its marker: path, content, message. *)
Definition commit_of (a : PutArgs) : jsstr * jsstr * jsstr :=
  (put_path a, put_content a, put_message a).

(** The commit step 7 owes for one document slot: the file the slot names,
    when it is on the local machine, under [pdfs/] with its bytes encoded
    once. *)
Definition slot_commit (l : Local) (c : ChemicalRecord) (type : jsstr)
    (data : option DocRef) : list (jsstr * jsstr * jsstr) :=
  if truthy (slot_filename data) then
    let f := or_default (slot_filename data) [] in
    match pdfs l f with
    | File bytes =>
      [(js "pdfs/" ++ f, toString_base64 bytes,
        js "Upload " ++ type ++ js " PDF for " ++ chem_name c)]
    | _ => []
    end
  else [].

(** The warning step 7 owes for one document slot: the file the slot names
    is not on the local machine. *)
Definition slot_warning (l : Local) (type : jsstr) (data : option DocRef)
  : list jsstr :=
  if truthy (slot_filename data) then
    let f := or_default (slot_filename data) [] in
    match pdfs l f with
    | Absent => [js "⚠️  " ++ type ++ js " PDF not found: " ++ pdf_path l f]
    | _ => []
    end
  else [].

(** Over a chemical list, in the order of the loop: every chemical counts,
    whatever its [active] flag. *)
Definition expected_commits (l : Local) (cs : list ChemicalRecord)
  : list (jsstr * jsstr * jsstr) :=
  flat_map (fun c => slot_commit l c (js "Literature") (chem_literature c)
                     ++ slot_commit l c (js "SDS") (chem_sds c)) cs.

Definition expected_warnings (l : Local) (cs : list ChemicalRecord) : list jsstr :=
  flat_map (fun c => slot_warning l (js "Literature") (chem_literature c)
                     ++ slot_warning l (js "SDS") (chem_sds c)) cs.

(** [done_so_far r expected actual]: [actual] is what was done of
    [expected] when the step ended with [r]: all of it when it ended
    normally, an initial part of it when it threw. *)
Definition done_so_far {A B} (r : result A) (expected actual : list B) : Prop :=
  exists rest, expected = actual ++ rest /\ (forall a, r = Ok a -> rest = []).

(** What the verification step makes of the outcome of a HEAD request. *)
Definition verdict (o : result Response) : result unit :=
  match o with
  | Ok res => Deployer.check_response res
  | Throw e => Throw e
  end.

(** The error thrown for a document that fails verification. *)
Definition verification_error (url : jsstr) (e : JsError) : JsError :=
  Error (js "Verification failed for " ++ url ++ js ": " ++ err_message e).

(** [head_checked m]: whenever a HEAD request of [m] is answered in a way
    the verification rejects, [m] throws the verification error for the URL
    of that request. *)
Definition head_checked {R A} (m : M R A) : Prop :=
  forall w w' evs r, m w = (w', evs, r) ->
    forall url o e, In (Head url o) evs -> verdict o = Throw e ->
      r = Throw (verification_error url e).

(** Events of step 1: console output and the two repository requests. *)
Definition setup_event (e : event) : Prop :=
  match e with
  | ConsoleLog _ | ConsoleWarn _ | ConsoleError _
  | CreateRepo _ _ | GetRepo _ _ _ => True
  | _ => False
  end.

(** Events of every step but the verification: no HEAD request. *)
Definition no_head (e : event) : Prop :=
  match e with Head _ _ => False | _ => True end.

(** The code units of a decimal numeral, most significant digit first. *)
Fixpoint digit_codes (d : Decimal.uint) : jsstr :=
  match d with
  | Decimal.Nil => []
  | Decimal.D0 d => 48 :: digit_codes d
  | Decimal.D1 d => 49 :: digit_codes d
  | Decimal.D2 d => 50 :: digit_codes d
  | Decimal.D3 d => 51 :: digit_codes d
  | Decimal.D4 d => 52 :: digit_codes d
  | Decimal.D5 d => 53 :: digit_codes d
  | Decimal.D6 d => 54 :: digit_codes d
  | Decimal.D7 d => 55 :: digit_codes d
  | Decimal.D8 d => 56 :: digit_codes d
  | Decimal.D9 d => 57 :: digit_codes d
  end.

(** Only documents of active chemicals are committed under [pdfs/] (the
    directory marker aside): the reading of step 7 that restricts it to
    active chemicals. *)
Definition only_active_uploaded (cfg : CustomerConfig) (evs : list event) : Prop :=
  forall f, In (js "pdfs/" ++ f) (map put_path (puts evs)) -> f <> js ".gitkeep" ->
    referenced_active (chemicals cfg) f.

(** *** Vocabulary of the further properties *)

(** A string has no two consecutive hyphens. *)
Fixpoint no_double_hyphen (s : jsstr) : Prop :=
  match s with
  | a :: r =>
    match r with b :: _ => ~ (a = 45 /\ b = 45) | [] => True end
    /\ no_double_hyphen r
  | [] => True
  end.

(** Hyphens removed. *)
Definition without_hyphens (s : jsstr) : jsstr :=
  List.filter (fun c => negb (c =? 45)) s.

(** A code unit of the blocks Miscellaneous Symbols and Dingbats
    (U+2600 to U+27BF), where the warning sign and the check marks are. *)
Definition symbol_or_dingbat (c : N) : Prop := 9728 <= c <= 10175.

(** A document slot names a file with the extension [.pdf]. *)
Definition names_pdf (d : option DocRef) : Prop :=
  exists stem, slot_filename d = Some (stem ++ js ".pdf").

(** A document of a stored chemical names a [.pdf] file and links to it under
    [pdfs/], the directory the deployment commits the file to. *)
Definition linked_pdf (d : DocRef) : Prop :=
  exists stem,
    doc_filename d = Some (stem ++ js ".pdf")
    /\ doc_url d = Some (js "pdfs/" ++ stem ++ js ".pdf").

(** A chemical has its two document objects. *)
Definition has_documents (c : ChemicalRecord) : Prop :=
  chem_literature c <> None /\ chem_sds c <> None.

(** The two check-list lines of a chemical with documents [lit] and [sds]. *)
Definition literature_line (lit : DocRef) : jsstr :=
  js "- [ ] Literature: `" ++ ChemicalManager.show_name (doc_filename lit) ++ js "`".

Definition sds_line (sds : DocRef) : jsstr :=
  js "- [ ] SDS: `" ++ ChemicalManager.show_name (doc_filename sds) ++ js "`".

(** The events of a method that only writes to the console. *)
Definition console_event (e : event) : Prop :=
  match e with
  | ConsoleLog _ | ConsoleWarn _ | ConsoleError _ => True
  | _ => False
  end.

(** The URLs of the HEAD requests sent, read off a list of events. *)
Definition heads (evs : list event) : list jsstr :=
  flat_map (fun e => match e with Head url _ => [url] | _ => [] end) evs.

(** Any event but a commit. *)
Definition no_put (e : event) : Prop :=
  match e with Put _ _ => False | _ => True end.

(** The events of [uploadCustomerAssets] for the folder listing [files]:
    every commit is that of an entry of the listing which is a file, not a
    directory, whose name does not start with a dot; it goes to
    [assets/<name>] with the bytes read, encoded once. *)
Definition asset_event (repo slug b : jsstr) (files : list AssetEntry) (e : event)
  : Prop :=
  match e with
  | Put a _ =>
    exists entry buffer,
      In entry files
      /\ asset_stat entry = Ok false
      /\ startsWith (asset_name entry) (js ".") = false
      /\ asset_read entry = Ok buffer
      /\ put_owner a = Deployer.owner /\ put_repo a = repo /\ put_branch a = b
      /\ put_path a = js "assets/" ++ asset_name entry
      /\ put_content a = toString_base64 buffer
      /\ put_message a = js "Upload " ++ slug ++ js " asset: " ++ asset_name entry
  | _ => True
  end.

(** The paths a successful deployment commits first, in this order. *)
Definition site_skeleton : list jsstr :=
  [js ".nojekyll"; js "pdfs/.gitkeep"; js "assets/.gitkeep"; js "qr-codes/.gitkeep";
   js "index.html"; js "README.md"].

(** The answer of a handler is well formed: a success body or a text comes
    with status 200, a failure body with status 400 or 500. *)
Definition well_formed_reply {A} (reply : Dashboard.Reply A) : Prop :=
  match Dashboard.reply_body reply with
  | Dashboard.Success _ | Dashboard.Sent _ _ => Dashboard.reply_status reply = 200%Z
  | Dashboard.Failure _ =>
    Dashboard.reply_status reply = 400%Z \/ Dashboard.reply_status reply = 500%Z
  end.

(** A handler answers: it returns normally, with a well-formed answer. *)
Definition answers {R A} (handler : M R (Dashboard.Reply A)) (w : World R) : Prop :=
  exists w' evs reply, handler w = (w', evs, Ok reply) /\ well_formed_reply reply.

(** The entry of [listCustomerSites] for a configuration. *)
Definition site_of (customerConfig : CustomerConfig) : Dashboard.CustomerSite :=
  {| Dashboard.cs_name := cust_name (customer_info customerConfig);
     Dashboard.cs_slug := cust_slug (customer_info customerConfig);
     Dashboard.cs_url :=
       Deployer.pages_base (gh_name (cust_github_repo (customer_info customerConfig)));
     Dashboard.cs_chemicals :=
       length (List.filter chem_active (chemicals customerConfig));
     Dashboard.cs_last_updated :=
       site_last_updated (site_settings customerConfig) |}.

(* ===================================================================== *)
(** ** Checks of the built-ins                                            *)
(* ===================================================================== *)

Example js_ascii : js "pdf" = [112; 100; 102].
Proof. reflexivity. Qed.

Example js_emoji : js "⚠️" = [9888; 65039] /\ js "🔍" = [55357; 56589].
Proof. split; reflexivity. Qed.

Example base64_Man : base64_of (utf8_encode (js "Man")) = js "TWFu"
  /\ base64_of (utf8_encode (js "Ma")) = js "TWE="
  /\ base64_of (utf8_encode (js "M")) = js "TQ==".
Proof. repeat split; reflexivity. Qed.

Example utf8_roundtrip : utf8_decode (utf8_encode (js "🧪 é €")) = js "🧪 é €".
Proof. reflexivity. Qed.

Example parseInt_examples :
  parseInt (js "2048") = Num 2048 /\ parseInt (js " -12px") = Num (-12)
  /\ parseInt (js "abc") = NaN /\ parseInt (js "0") = Num 0.
Proof. repeat split; reflexivity. Qed.

Example dec_examples : dec_of_nat 0 = js "0" /\ dec_of_Z 1024 = js "1024".
Proof. split; reflexivity. Qed.

(* ===================================================================== *)
(** ** Reasoning about methods                                            *)
(* ===================================================================== *)

Section MonadLemmas.
Context {R : Type}.

Lemma bind_inv {A B} (m : M R A) (k : A -> M R B) w w' evs r :
  bind m k w = (w', evs, r) ->
  (exists e, m w = (w', evs, Throw e) /\ r = Throw e) \/
  (exists w1 e1 a e2,
      m w = (w1, e1, Ok a) /\ k a w1 = (w', e2, r) /\ evs = e1 ++ e2).
Proof.
  unfold bind. destruct (m w) as [[w1 e1] [a|e]].
  - destruct (k a w1) as [[w2 e2] b] eqn:Hk. intros [= <- <- <-].
    right. exists w1, e1, a, e2. auto.
  - intros [= <- <- <-]. left. exists e. auto.
Qed.

Lemma try_catch_inv {A} (m : M R A) (h : JsError -> M R A) w w' evs r :
  try_catch m h w = (w', evs, r) ->
  (exists a, m w = (w', evs, Ok a) /\ r = Ok a) \/
  (exists w1 e1 e e2,
      m w = (w1, e1, Throw e) /\ h e w1 = (w', e2, r) /\ evs = e1 ++ e2).
Proof.
  unfold try_catch. destruct (m w) as [[w1 e1] [a|e]].
  - intros [= <- <- <-]. left. exists a. auto.
  - destruct (h e w1) as [[w2 e2] b] eqn:Hh. intros [= <- <- <-].
    right. exists w1, e1, e, e2. auto.
Qed.

Lemma sound_ret P {A} (a : A) : sound P (@ret R A a).
Proof. intros w w' evs r [= <- <- <-]. auto. Qed.

Lemma sound_throw P {A} (e : JsError) : sound P (@throw R A e).
Proof. intros w w' evs r [= <- <- <-]. auto. Qed.

Lemma sound_get_local P : sound P (@get_local R).
Proof. intros w w' evs r [= <- <- <-]. auto. Qed.

Lemma sound_lift_result P {A} (x : result A) : sound P (@lift_result R A x).
Proof. intros w w' evs r [= <- <- <-]. auto. Qed.

Lemma sound_emit (P : event -> Prop) e : P e -> sound P (@emit R e).
Proof. intros He w w' evs r [= <- <- <-]. auto. Qed.

Lemma sound_request (P : event -> Prop) {A} (ev : result A -> event) call :
  (forall o, P (ev o)) -> sound P (@request R A ev call).
Proof.
  intros He w w' evs r. unfold request. destruct (call (remote w)) as [r' o].
  intros [= <- <- <-]. simpl. auto.
Qed.

Lemma sound_bind P {A B} (m : M R A) (k : A -> M R B) :
  sound P m -> (forall a, sound P (k a)) -> sound P (bind m k).
Proof.
  intros Hm Hk w w' evs r H. apply bind_inv in H as [(e & H & ->)|(w1 & e1 & a & e2 & H1 & H2 & ->)].
  - eauto.
  - apply Hm in H1 as (Hc1 & Hl1 & He1). apply Hk in H2 as (Hc2 & Hl2 & He2).
    repeat split; try congruence. apply Forall_app; auto.
Qed.

Lemma sound_try_catch P {A} (m : M R A) (h : JsError -> M R A) :
  sound P m -> (forall e, sound P (h e)) -> sound P (try_catch m h).
Proof.
  intros Hm Hh w w' evs r H.
  apply try_catch_inv in H as [(a & H & ->)|(w1 & e1 & e & e2 & H1 & H2 & ->)].
  - eauto.
  - apply Hm in H1 as (Hc1 & Hl1 & He1). apply Hh in H2 as (Hc2 & Hl2 & He2).
    repeat split; try congruence. apply Forall_app; auto.
Qed.

Lemma sound_for_of P {A} (xs : list A) (body : A -> M R unit) :
  (forall x, sound P (body x)) -> sound P (for_of xs body).
Proof.
  intros Hb. induction xs as [|x xs IH]; simpl.
  - apply sound_ret.
  - apply sound_bind; auto.
Qed.

Lemma sound_weaken (P Q : event -> Prop) {A} (m : M R A) :
  (forall e, P e -> Q e) -> sound P m -> sound Q m.
Proof.
  intros HPQ Hm w w' evs r H. apply Hm in H as (? & ? & HP).
  repeat split; auto. eapply Forall_impl; eauto.
Qed.

End MonadLemmas.

(** One step of a proof of [sound]: follow the structure of the method. *)
Ltac sound_step :=
  match goal with
  | |- sound _ (ret _) => apply sound_ret
  | |- sound _ (throw _) => apply sound_throw
  | |- sound _ get_local => apply sound_get_local
  | |- sound _ (lift_result _) => apply sound_lift_result
  | |- sound _ (emit _) => apply sound_emit; simpl; auto
  | |- sound _ (request _ _) => apply sound_request; intros; simpl; auto
  | |- sound _ (bind _ _) => apply sound_bind; [|intros]
  | |- sound _ (try_catch _ _) => apply sound_try_catch; [|intros]
  | |- sound _ (for_of _ _) => apply sound_for_of; intros
  | |- sound _ (if ?b then _ else _) => destruct b
  | |- sound _ (match ?x with _ => _ end) => destruct x
  | |- sound _ (let _ := _ in _) => cbv zeta
  end.

(* ===================================================================== *)
(** ** The derived chemical id                                            *)
(* ===================================================================== *)

Section GenerateChemicalId.
Import ChemicalManager.

Lemma strip_other_chars s :
  Forall (fun c => is_lower c || is_digit c || is_space c = true) (strip_other s).
Proof.
  unfold strip_other. induction s as [|c s IH]; simpl; [constructor|].
  destruct (is_lower c || is_digit c || is_space c) eqn:E; auto.
Qed.

Lemma hyphenate_chars s : forall in_run,
  Forall (fun c => is_lower c || is_digit c || is_space c = true) s ->
  Forall id_char (hyphenate in_run s).
Proof.
  induction s as [|c s IH]; intros in_run Hs; simpl; [constructor|].
  inversion Hs as [|? ? Hc Hs']; subst.
  destruct (is_space c) eqn:Esp.
  - destruct in_run; [auto|]. constructor; auto. unfold id_char; lia.
  - constructor; auto. rewrite orb_false_r in Hc.
    unfold is_lower, is_digit in Hc.
    apply orb_true_iff in Hc as [H|H]; apply andb_true_iff in H as [H1 H2];
      apply N.leb_le in H1, H2; unfold id_char; lia.
Qed.

(** C6. For every chemical name the derived id is a function of the name
    alone (equal names give equal ids, whatever the case mapping of the
    platform is), it consists only of lowercase letters, digits and hyphens,
    and it has at most 50 characters. *)
Theorem generateChemicalId_spec (ext : Externals) (name1 name2 : jsstr) :
  name1 = name2 ->
  generateChemicalId ext name1 = generateChemicalId ext name2
  /\ Forall id_char (generateChemicalId ext name1)
  /\ (length (generateChemicalId ext name1) <= 50)%nat.
Proof.
  intros ->. split; [reflexivity|]. unfold generateChemicalId. split.
  - apply Forall_take, hyphenate_chars, strip_other_chars.
  - rewrite length_take. lia.
Qed.

(** The id of the demonstration chemical, as the setup script writes it. *)
Lemma generateChemicalId_witness :
  js "302 D/T Bowl Cleaner" = js "302 D/T Bowl Cleaner"
  /\ generateChemicalId Sim.ext (js "302 D/T Bowl Cleaner") = js "302-dt-bowl-cleaner"
  /\ (generateChemicalId Sim.ext (js "302 D/T Bowl Cleaner")
      = generateChemicalId Sim.ext (js "302 D/T Bowl Cleaner")
      /\ Forall id_char (generateChemicalId Sim.ext (js "302 D/T Bowl Cleaner"))
      /\ (length (generateChemicalId Sim.ext (js "302 D/T Bowl Cleaner")) <= 50)%nat).
Proof.
  split; [reflexivity|]. split; [reflexivity|].
  apply (generateChemicalId_spec Sim.ext (js "302 D/T Bowl Cleaner")
           (js "302 D/T Bowl Cleaner")).
  reflexivity.
Defined.

(** Punctuation is dropped, a run of white space (here with a no-break
    space) becomes one hyphen, and a long name is cut at 50 characters. *)
Example generateChemicalId_examples :
  generateChemicalId Sim.ext (js "Glass  &  Mirror Cleaner") = js "glass-mirror-cleaner"
  /\ generateChemicalId Sim.ext (js "Floor" ++ [160; 32] ++ js "Wax (3M)") = js "floor-wax-3m"
  /\ generateChemicalId Sim.ext
       (js "Heavy Duty Industrial Strength Degreaser Concentrate Formula 409")
     = js "heavy-duty-industrial-strength-degreaser-concentra".
Proof. vm_compute. repeat split. Qed.

End GenerateChemicalId.

(* ===================================================================== *)
(** ** The template renderer                                              *)
(* ===================================================================== *)

Section GenerateHTML.
Import Deployer.

Lemma filter_active_idem (cs : list ChemicalRecord) :
  List.filter chem_active (List.filter chem_active cs) = List.filter chem_active cs.
Proof.
  induction cs as [|c cs IH]; simpl; [reflexivity|].
  destruct (chem_active c) eqn:E; simpl; rewrite ?E, IH; reflexivity.
Qed.

Lemma active_chemicals_set_chemicals cfg :
  active_chemicals (set_chemicals cfg (active_chemicals cfg)) = active_chemicals cfg.
Proof. unfold active_chemicals. simpl. apply filter_active_idem. Qed.

Lemma templateData_set_chemicals ext l cfg :
  templateData ext l (set_chemicals cfg (active_chemicals cfg)) = templateData ext l cfg.
Proof.
  unfold templateData. rewrite active_chemicals_set_chemicals. reflexivity.
Qed.

(** C8. The renderer filters the chemical list to the active records before
    it counts and embeds.  When the template can be read, [generateHTML]
    returns the page: the rendering of the template on data whose product
    count is the number of active chemicals, whose document count is twice
    that and whose products JSON is the serialisation of exactly the active
    chemicals, in the order of the list; its one console line reports the
    same count.  The inactive chemicals take no part in the page: two
    configurations that differ only in their inactive chemicals give the
    same run. *)
Theorem generateHTML_active_only {R : Type} (ext : Externals) (cfg : CustomerConfig)
    (w : World R) (t : jsstr) :
  template (local w) = Ok t ->
  let active := List.filter chem_active (chemicals cfg) in
  (forall c, In c active <-> In c (chemicals cfg) /\ chem_active c = true)
  /\ (exists data,
        generateHTML ext cfg w
        = (w, [ConsoleLog (js "📄 Generated HTML for " ++ dec_of_nat (length active)
                             ++ js " chemicals")],
           Ok (mustache_render ext t data))
        /\ TOTAL_PRODUCTS data = length active
        /\ TOTAL_DOCUMENTS data = (2 * length active)%nat
        /\ PRODUCTS_JSON data = JSON_stringify_chemicals ext active)
  /\ (forall cs, List.filter chem_active cs = active ->
        generateHTML ext (set_chemicals cfg cs) w = generateHTML ext cfg w).
Proof.
  intros Ht active. split; [|split].
  - intros c. unfold active. rewrite filter_In. tauto.
  - exists (templateData ext (local w) cfg). split.
    + unfold generateHTML, try_catch, bind, get_local, lift_result, emit, ret.
      rewrite Ht. reflexivity.
    + split; [reflexivity|]. split; [|reflexivity].
      cbn [templateData TOTAL_DOCUMENTS]. unfold active_chemicals, active. lia.
  - intros cs Hcs.
    assert (Ha : active_chemicals (set_chemicals cfg cs) = active_chemicals cfg).
    { unfold active_chemicals. cbn [set_chemicals chemicals]. exact Hcs. }
    unfold generateHTML, templateData. rewrite Ha. reflexivity.
Qed.
End GenerateHTML.

(* ===================================================================== *)
(** ** File-status reconciliation                                         *)
(* ===================================================================== *)

Section FileStatus.
Import Dashboard.

Lemma truthy_slot_names data :
  truthy (slot_filename data) = true ->
  slot_names data (or_default (slot_filename data) []).
Proof.
  unfold slot_names. destruct (slot_filename data) as [[|c r]|]; simpl; try discriminate.
  intros _. split; [reflexivity|discriminate].
Qed.

Lemma slot_names_truthy data f :
  slot_names data f ->
  truthy (slot_filename data) = true /\ or_default (slot_filename data) [] = f.
Proof.
  intros [-> Hne]. destruct f; [congruence|]. simpl. auto.
Qed.

Lemma slot_files_names c f :
  In f (slot_files c) <-> slot_names (chem_literature c) f \/ slot_names (chem_sds c) f.
Proof.
  unfold slot_files. rewrite in_app_iff. split.
  - intros [H|H]; [left|right];
      (destruct (truthy _) eqn:E; [|destruct H]);
      destruct H as [<-|[]]; apply truthy_slot_names, E.
  - intros [H|H]; [left|right]; apply slot_names_truthy in H as [-> <-];
      left; reflexivity.
Qed.

Lemma files_include_In files f : files_include files f = true <-> In f files.
Proof.
  unfold files_include. rewrite existsb_exists. split.
  - intros (x & Hx & E). unfold str_eqb in E. apply bool_decide_eq_true in E.
    congruence.
  - intros H. exists f. split; [assumption|]. apply bool_decide_eq_true. reflexivity.
Qed.

Lemma remove_first_NoDup x (a : list jsstr) :
  NoDup a ->
  NoDup (remove_first x a) /\ forall f, In f (remove_first x a) <-> In f a /\ f <> x.
Proof.
  induction a as [|y a IH]; intros Hnd; simpl.
  - split; [constructor|]. tauto.
  - apply NoDup_cons in Hnd as [Hy Hnd]. rewrite list_elem_of_In in Hy.
    unfold str_eqb. destruct (bool_decide (y = x)) eqn:E.
    + apply bool_decide_eq_true in E. subst y. split; [assumption|].
      intros f. split; [intros H; split; [auto|congruence]|]. intros [[->|H] Hne]; tauto.
    + apply bool_decide_eq_false in E. destruct (IH Hnd) as [IHnd IHin].
      split.
      * apply NoDup_cons. split; [|assumption].
        rewrite list_elem_of_In, IHin. tauto.
      * intros f. simpl. rewrite IHin. split.
        -- intros [->|[H Hne]]; [split; [auto|congruence]|tauto].
        -- intros [[->|H] Hne]; tauto.
Qed.

(** One slot: what [check_slot] adds to the missing files and removes from
    the orphaned ones. *)
Lemma check_slot_spec files type c data missing orphaned :
  NoDup orphaned ->
  let (missing', orphaned') := check_slot files type c data (missing, orphaned) in
  NoDup orphaned'
  /\ (forall f, In f (map mf_filename missing')
                <-> In f (map mf_filename missing) \/ (slot_names data f /\ ~ In f files))
  /\ (forall f, In f orphaned'
                <-> In f orphaned /\ ~ (slot_names data f /\ In f files)).
Proof.
  intros Hnd. unfold check_slot.
  destruct (present data && truthy (slot_filename data)) eqn:E.
  - apply andb_true_iff in E as [_ E].
    pose proof (truthy_slot_names data E) as Hname.
    set (g := or_default (slot_filename data) []) in *.
    assert (Huniq : forall f, slot_names data f -> f = g).
    { intros f [Hf _]. destruct Hname as [Hg _]. congruence. }
    destruct (files_include files g) eqn:Ei; simpl.
    + apply files_include_In in Ei.
      destruct (remove_first_NoDup g orphaned Hnd) as [Hnd' Hin].
      split; [assumption|]. split.
      * intros f. split; [auto|]. intros [H|[H1 H2]]; [assumption|].
        apply Huniq in H1. subst f. contradiction.
      * intros f. rewrite Hin. split.
        -- intros [H Hne]. split; [assumption|]. intros [H1 _]. apply Huniq in H1. auto.
        -- intros [H Hn]. split; [assumption|]. intros ->. apply Hn. auto.
    + assert (Hni : ~ In g files).
      { intros H. apply files_include_In in H. congruence. }
      split; [assumption|]. split.
      * intros f. rewrite map_app, in_app_iff. simpl. split.
        -- intros [H|[<-|[]]]; auto.
        -- intros [H|[H1 H2]]; [auto|]. apply Huniq in H1. subst f. auto.
      * intros f. split; [|tauto]. intros H. split; [assumption|].
        intros [H1 H2]. apply Huniq in H1. subst f. contradiction.
  - assert (Hno : forall f, ~ slot_names data f).
    { intros f H. apply slot_names_truthy in H as [Ht _].
      rewrite Ht, andb_true_r in E. destruct data; [discriminate|].
      discriminate Ht. }
    split; [assumption|]. split; intros f; split; try tauto.
    + intros [H|[H _]]; [assumption|]. destruct (Hno f H).
    + intros H. split; [assumption|]. intros [H1 _]. destruct (Hno f H1).
Qed.

Lemma referenced_cons c cs f :
  referenced (c :: cs) f <-> In f (slot_files c) \/ referenced cs f.
Proof.
  unfold referenced. split.
  - intros (x & [<-|Hx] & Hf); [left; assumption|right; eauto].
  - intros [H|(x & Hx & Hf)]; [exists c|exists x]; simpl; auto.
Qed.

(** The whole [forEach]: from any accumulator with distinct orphaned
    names. *)
Lemma reconcile_fold files cs : forall missing orphaned,
  NoDup orphaned ->
  let (missing', orphaned') :=
    fold_left
      (fun acc chemical =>
         check_slot files (js "sds") chemical (chem_sds chemical)
           (check_slot files (js "literature") chemical (chem_literature chemical) acc))
      cs (missing, orphaned) in
  NoDup orphaned'
  /\ (forall f, In f (map mf_filename missing')
                <-> In f (map mf_filename missing) \/ (referenced cs f /\ ~ In f files))
  /\ (forall f, In f orphaned'
                <-> In f orphaned /\ ~ (referenced cs f /\ In f files)).
Proof.
  induction cs as [|c cs IH]; intros missing orphaned Hnd; cbn [fold_left].
  - split; [assumption|]. unfold referenced. split; intros f; split; try tauto.
    + intros [H|[(x & [] & _) _]]. assumption.
    + intros H. split; [assumption|]. intros [(x & [] & _) _].
  - pose proof (check_slot_spec files (js "literature") c (chem_literature c)
                  missing orphaned Hnd) as H1.
    destruct (check_slot files (js "literature") c (chem_literature c)
                (missing, orphaned)) as [m1 o1].
    destruct H1 as (Hnd1 & Hm1 & Ho1).
    pose proof (check_slot_spec files (js "sds") c (chem_sds c) m1 o1 Hnd1) as H2.
    destruct (check_slot files (js "sds") c (chem_sds c) (m1, o1)) as [m2 o2].
    destruct H2 as (Hnd2 & Hm2 & Ho2).
    specialize (IH m2 o2 Hnd2).
    destruct (fold_left _ cs (m2, o2)) as [m3 o3].
    destruct IH as (Hnd3 & Hm3 & Ho3).
    split; [assumption|]. split; intros f.
    + rewrite Hm3, Hm2, Hm1, referenced_cons, slot_files_names. tauto.
    + rewrite Ho3, Ho2, Ho1, referenced_cons, slot_files_names. tauto.
Qed.

Lemma reconcile_spec files cs :
  NoDup files ->
  let (missing, orphaned) := reconcile files cs in
  (forall f, In f (map mf_filename missing) <-> referenced cs f /\ ~ In f files)
  /\ (forall f, In f orphaned <-> In f files /\ ~ referenced cs f).
Proof.
  intros Hnd. unfold reconcile.
  pose proof (reconcile_fold files cs [] files Hnd) as H.
  destruct (fold_left _ cs ([], files)) as [m o].
  destruct H as (_ & Hm & Ho). split; intros f.
  - rewrite Hm. simpl. tauto.
  - rewrite Ho. tauto.
Qed.

Lemma staged_files_NoDup l slug : NoDup (staged_files l slug).
Proof.
  unfold staged_files. destruct (uploads l slug); [apply NoDup_elements|constructor].
Qed.

Lemma complete_incomplete : js "incomplete" <> js "complete".
Proof. intros H. vm_compute in H. discriminate H. Qed.

(** The report as the code computes it.  [handleFileStatus] has one entry
    per customer; for a customer whose configuration is read, the missing
    files are exactly the file names referenced by a chemical of the list,
    removed ones included (the loop has no [active] filter), that are absent
    from the staging directory, the orphaned files
    are exactly the staged files that no chemical of the list references,
    the status is [complete] exactly when no file is missing, and a staging
    directory that does not exist counts as zero files. *)
Lemma handleFileStatus_reconciles {R : Type} (w : World R)
    (customer : CustomerSite) (cfg : CustomerConfig) :
  configs w !! cs_slug customer = Some cfg ->
  let files := staged_files (local w) (cs_slug customer) in
  (exists customers,
      listCustomerSites w = (w, [], Ok customers)
      /\ handleFileStatus w = (w, [], Ok (map (status_for w) customers)))
  /\ exists missing orphaned status,
      status_for w customer =
        Status (cs_name customer) (cs_slug customer) (length files)
          (length (chemicals cfg)) (length missing) (length orphaned)
          missing orphaned status
      /\ (forall f, In f (map mf_filename missing)
                    <-> referenced (chemicals cfg) f /\ ~ In f files)
      /\ (forall f, In f orphaned <-> In f files /\ ~ referenced (chemicals cfg) f)
      /\ (status = js "complete" <-> missing = [])
      /\ (uploads (local w) (cs_slug customer) = None -> files = [] /\ orphaned = []).
Proof.
  intros Hcfg files. split.
  - eexists. split; reflexivity.
  - unfold status_for. rewrite Hcfg. unfold file_status_of. fold files.
    pose proof (reconcile_spec files (chemicals cfg)
                  (staged_files_NoDup _ _)) as H.
    destruct (reconcile files (chemicals cfg)) as [missing orphaned].
    destruct H as [Hm Ho].
    eexists missing, orphaned, _. split; [reflexivity|].
    split; [assumption|]. split; [assumption|]. split.
    + destruct missing as [|m ms]; simpl.
      * split; reflexivity.
      * split; [|discriminate]. intros H. destruct (complete_incomplete H).
    + intros Hn. assert (Hf : files = []).
      { unfold files, staged_files. rewrite Hn. reflexivity. }
      split; [assumption|]. destruct orphaned as [|x o]; [reflexivity|].
      destruct (proj1 (Ho x)) as [Hx _]; [left; reflexivity|].
      rewrite Hf in Hx. destruct Hx.
Qed.

(** The example of the specification: chemicals referencing [a.pdf] and
    [b.pdf], a staging directory holding [b.pdf] and [c.pdf]. *)
Lemma handleFileStatus_reconciles_witness :
  let cs := [Sample.ab_chemical true] in
  let w := Sample.world Sim.empty cs [] [js "b.pdf"; js "c.pdf"] in
  let customer := Sample.site cs in
  let files := staged_files (local w) (cs_slug customer) in
  configs w !! cs_slug customer = Some (Sample.config cs)
  /\ exists missing orphaned status,
      status_for w customer =
        Status (cs_name customer) (cs_slug customer) (length files)
          (length (chemicals (Sample.config cs))) (length missing) (length orphaned)
          missing orphaned status
      /\ (forall f, In f (map mf_filename missing)
                    <-> referenced (chemicals (Sample.config cs)) f /\ ~ In f files)
      /\ (forall f, In f orphaned
                    <-> In f files /\ ~ referenced (chemicals (Sample.config cs)) f)
      /\ (status = js "complete" <-> missing = []).
Proof.
  intros cs w customer files.
  assert (Hcfg : configs w !! cs_slug customer = Some (Sample.config cs))
    by (vm_compute; reflexivity).
  split; [exact Hcfg|].
  destruct (handleFileStatus_reconciles w customer (Sample.config cs) Hcfg)
    as (_ & missing & orphaned & status & H1 & H2 & H3 & H4 & _).
  exists missing, orphaned, status. auto.
Defined.

Example handleFileStatus_example :
  let cs := [Sample.ab_chemical true] in
  let w := Sample.world Sim.empty cs [] [js "b.pdf"; js "c.pdf"] in
  handleFileStatus w =
    (w, [], Ok [Status (js "SQZR Cleaning Solutions") (js "sqzr-demo") 2 1 1 1
                  [{| mf_type := js "literature"; mf_chemical := js "Floor Cleaner";
                      mf_filename := js "a.pdf" |}]
                  [js "c.pdf"] (js "incomplete")]).
Proof. vm_compute. reflexivity. Qed.

(** A staging directory that does not exist counts as empty. *)
Example handleFileStatus_no_directory :
  let w := Sample.world Sim.empty [Sample.ab_chemical true] [] [] in
  uploads (local w) (js "other") = None
  /\ staged_files (local w) (js "other") = [].
Proof. vm_compute. split; reflexivity. Qed.

(** C9. The report at a configuration whose only chemical was removed.
    The chemical is inactive and names [a.pdf] and [b.pdf]; the staging
    directory holds [b.pdf] and [c.pdf].  No active chemical references a
    file, so nothing is missing and both staged files are orphaned; the
    report instead lists [a.pdf] as missing, only [c.pdf] as orphaned, and
    calls the customer incomplete.  [listCustomerSites], which the report
    is built on, counts no chemical for that customer: it filters on
    [active]. *)
Lemma handleFileStatus_counts_inactive :
  let cs := [Sample.ab_chemical false] in
  let w := Sample.world Sim.empty cs [] [js "b.pdf"; js "c.pdf"] in
  let st := Status (js "SQZR Cleaning Solutions") (js "sqzr-demo") 2 1 1 1
              [{| mf_type := js "literature"; mf_chemical := js "Floor Cleaner";
                  mf_filename := js "a.pdf" |}]
              [js "c.pdf"] (js "incomplete") in
  List.filter chem_active cs = []
  /\ handleFileStatus w = (w, [], Ok [st])
  /\ ~ reconciles_active_only (Sample.config cs)
         (staged_files (local w) (js "sqzr-demo")) st
  /\ listCustomerSites w = (w, [], Ok [Sample.site cs])
  /\ cs_chemicals (Sample.site cs) = 0%nat.
Proof.
  intros cs w st. split; [reflexivity|].
  split; [vm_compute; reflexivity|]. split; [|split; [vm_compute; reflexivity|reflexivity]].
  intros (Hm & _). destruct (Hm (js "a.pdf")) as [Hm' _].
  destruct Hm' as [(c & Hc & Hact & _) _]; [left; reflexivity|].
  destruct Hc as [<-|[]]. discriminate Hact.
Qed.

End FileStatus.

(* ===================================================================== *)
(** ** Create-or-update uploads and the existence probe                   *)
(* ===================================================================== *)

Section Uploads.
Import Deployer.
Context {R : Type} (hub : Hub R).

Lemma probe_sha_run (w : World R) repo path branch r1 o :
  getContent hub (remote w) owner repo path branch = (r1, o) ->
  probe_sha hub owner repo path branch w =
    (with_remote w r1, [GetContent owner repo path branch o],
     match o with
     | Ok sha => Ok sha
     | Throw e => if bool_decide (err_status e = Some 404%Z) then Ok None else Throw e
     end).
Proof.
  intros H. unfold probe_sha, try_catch, request. rewrite H.
  destruct o as [sha|e]; [reflexivity|].
  destruct (bool_decide (err_status e = Some 404%Z)); reflexivity.
Qed.

(** The two upload methods, once the probe has yielded the marker [sha]. *)
Lemma safeUploadBinary_commit (w : World R) repo path branch buf message r1 o sha r2 o2 :
  getContent hub (remote w) owner repo path branch = (r1, o) ->
  match o with
  | Ok s => Ok s
  | Throw e => if bool_decide (err_status e = Some 404%Z) then Ok None else Throw e
  end = Ok sha ->
  createOrUpdateFileContents hub r1
    (commit_args repo path message (toString_base64 buf) branch sha) = (r2, o2) ->
  safeUploadBinary hub owner repo branch path buf message w =
    (with_remote w r2,
     [GetContent owner repo path branch o;
      Put (commit_args repo path message (toString_base64 buf) branch sha) o2], o2).
Proof.
  intros Hg Hs Hp. unfold safeUploadBinary, bind.
  rewrite (probe_sha_run w repo path branch r1 o Hg), Hs.
  unfold request. cbn [remote with_remote]. unfold commit_args in Hp. rewrite Hp.
  reflexivity.
Qed.

Lemma uploadFile_commit (w : World R) repo path branch content message r1 o sha r2 o2 :
  getContent hub (remote w) owner repo path branch = (r1, o) ->
  match o with
  | Ok s => Ok s
  | Throw e => if bool_decide (err_status e = Some 404%Z) then Ok None else Throw e
  end = Ok sha ->
  createOrUpdateFileContents hub r1
    (commit_args repo path message (toString_base64 (Buffer_from content)) branch sha)
    = (r2, o2) ->
  uploadFile hub repo path content message branch w =
    (with_remote w r2,
     [GetContent owner repo path branch o;
      Put (commit_args repo path message (toString_base64 (Buffer_from content))
             branch sha) o2] ++ failure_log path o2, o2).
Proof.
  intros Hg Hs Hp. unfold uploadFile, try_catch, bind.
  rewrite (probe_sha_run w repo path branch r1 o Hg), Hs.
  unfold request. cbn [remote with_remote]. unfold commit_args in Hp. rewrite Hp.
  destruct o2 as [[]|e2]; reflexivity.
Qed.

(** C3. Both upload methods first probe for the file at the target path.
    A file that exists yields its revision marker, which the commit carries;
    a 404 from the probe means the file is absent, and the commit is sent
    without a marker; a probe that fails with any other status (or with no
    status at all) is thrown to the caller and no commit is sent. *)
Theorem upload_probe_spec (w : World R) (repo path branch message content : jsstr)
    (buf : list byte) (r1 : R) (o : result (option jsstr)) :
  getContent hub (remote w) owner repo path branch = (r1, o) ->
  let probe := GetContent owner repo path branch o in
  let bin := commit_args repo path message (toString_base64 buf) branch in
  let txt :=
    commit_args repo path message (toString_base64 (Buffer_from content)) branch in
  let committed sha :=
    (exists r2 o2,
        createOrUpdateFileContents hub r1 (bin sha) = (r2, o2)
        /\ safeUploadBinary hub owner repo branch path buf message w
           = (with_remote w r2, [probe; Put (bin sha) o2], o2))
    /\ (exists r2 o2,
        createOrUpdateFileContents hub r1 (txt sha) = (r2, o2)
        /\ uploadFile hub repo path content message branch w
           = (with_remote w r2, [probe; Put (txt sha) o2] ++ failure_log path o2, o2)) in
  (forall sha, o = Ok sha -> committed sha)
  /\ (forall e, o = Throw e -> err_status e = Some 404%Z -> committed None)
  /\ (forall e, o = Throw e -> err_status e <> Some 404%Z ->
        safeUploadBinary hub owner repo branch path buf message w
        = (with_remote w r1, [probe], Throw e)
        /\ uploadFile hub repo path content message branch w
           = (with_remote w r1,
              [probe; ConsoleError (js "❌ Failed to upload " ++ path ++ js ": "
                                      ++ err_message e)], Throw e)).
Proof.
  intros Hg probe bin txt committed.
  assert (Hc : forall sha,
             match o with
             | Ok s => Ok s
             | Throw e =>
               if bool_decide (err_status e = Some 404%Z) then Ok None else Throw e
             end = Ok sha -> committed sha).
  { intros sha Hs. split.
    - destruct (createOrUpdateFileContents hub r1 (bin sha)) as [r2 o2] eqn:Hp.
      exists r2, o2. split; [reflexivity|].
      exact (safeUploadBinary_commit w repo path branch buf message r1 o sha r2 o2
               Hg Hs Hp).
    - destruct (createOrUpdateFileContents hub r1 (txt sha)) as [r2 o2] eqn:Hp.
      exists r2, o2. split; [reflexivity|].
      exact (uploadFile_commit w repo path branch content message r1 o sha r2 o2
               Hg Hs Hp). }
  split; [|split].
  - intros sha ->. apply Hc. reflexivity.
  - intros e -> He. apply Hc. rewrite bool_decide_eq_true_2 by assumption. reflexivity.
  - intros e -> He. subst probe.
    unfold safeUploadBinary, uploadFile, try_catch, bind.
    rewrite (probe_sha_run w repo path branch r1 (Throw e) Hg).
    rewrite bool_decide_eq_false_2 by assumption. split; reflexivity.
Qed.

End Uploads.

(** On the simulated service: the file is not there yet, the probe answers
    404, and the commit goes out without a marker. *)
Lemma upload_probe_spec_witness :
  let w := Sample.world Sim.empty [] [] [] in
  let repo := js "sqzr-demo-ghs-binder" in
  let not_found := Throw (Sim.http_error 404 (js "Not Found")) in
  getContent Sim.hub (remote w) Deployer.owner repo (js "pdfs/a.pdf") (js "main")
  = (Sim.empty, not_found)
  /\ exists r2 o2,
      Deployer.safeUploadBinary Sim.hub Deployer.owner repo (js "main") (js "pdfs/a.pdf")
        Sample.pdf_bytes (js "Upload SDS PDF for Floor Cleaner") w
      = (with_remote w r2,
         [GetContent Deployer.owner repo (js "pdfs/a.pdf") (js "main") not_found;
          Put (commit_args repo (js "pdfs/a.pdf") (js "Upload SDS PDF for Floor Cleaner")
                 (toString_base64 Sample.pdf_bytes) (js "main") None) o2], o2).
Proof.
  intros w repo not_found.
  assert (Hg : getContent Sim.hub (remote w) Deployer.owner repo (js "pdfs/a.pdf")
                 (js "main") = (Sim.empty, not_found)) by (vm_compute; reflexivity).
  split; [exact Hg|].
  destruct (upload_probe_spec Sim.hub w repo (js "pdfs/a.pdf") (js "main")
              (js "Upload SDS PDF for Floor Cleaner") [] Sample.pdf_bytes
              Sim.empty not_found Hg) as (_ & H404 & _).
  destruct (H404 _ eq_refl eq_refl) as [(r2 & o2 & _ & Hrun) _].
  exists r2, o2. exact Hrun.
Defined.

(** During an outage the probe answers 500: the error reaches the caller
    and nothing is committed. *)
Example upload_probe_outage :
  let w := Sample.world Sim.empty [] [] [] in
  Deployer.safeUploadBinary Sim.outage Deployer.owner (js "sqzr-demo-ghs-binder")
    (js "main") (js "pdfs/a.pdf") Sample.pdf_bytes
    (js "Upload SDS PDF for Floor Cleaner") w
  = (w, [GetContent Deployer.owner (js "sqzr-demo-ghs-binder") (js "pdfs/a.pdf")
           (js "main") (Throw Sim.outage_error)], Throw Sim.outage_error).
Proof. vm_compute. reflexivity. Qed.

(* ===================================================================== *)
(** ** What each method of the deployer may do                            *)
(* ===================================================================== *)

Section DeployerSound.
Import Deployer.
Context {R : Type} (hub : Hub R) (ext : Externals).

Lemma upload_event_deploy b e : upload_event b e -> deploy_event b e.
Proof. destruct e; simpl; tauto. Qed.

Lemma verify_event_deploy b e : verify_event e -> deploy_event b e.
Proof. destruct e; simpl; tauto. Qed.

Lemma sound_probe_sha b own repo path :
  sound (upload_event b) (probe_sha hub own repo path b).
Proof. unfold probe_sha. repeat sound_step. Qed.

Lemma sound_safeUploadBinary b own repo path buf message :
  sound (upload_event b) (safeUploadBinary hub own repo b path buf message).
Proof.
  unfold safeUploadBinary. cbv zeta.
  apply sound_bind; [apply sound_probe_sha|intros]. repeat sound_step.
Qed.

Lemma sound_uploadFile b repo path content message :
  sound (upload_event b) (uploadFile hub repo path content message b).
Proof.
  unfold uploadFile. cbv zeta. apply sound_try_catch.
  - apply sound_bind; [apply sound_probe_sha|intros]. repeat sound_step.
  - intros. repeat sound_step.
Qed.

Lemma sound_uploadCustomerAssets b repo slug :
  sound (upload_event b) (uploadCustomerAssets hub repo slug b).
Proof.
  unfold uploadCustomerAssets. apply sound_bind; [apply sound_get_local|intros l].
  destruct (assets l slug) as [listing|]; [|repeat sound_step].
  apply sound_bind; [repeat sound_step|intros _].
  apply sound_try_catch; [|intros; repeat sound_step].
  apply sound_bind; [repeat sound_step|intros files].
  apply sound_bind; [|intros; repeat sound_step].
  apply sound_for_of. intros entry. cbv zeta.
  apply sound_bind; [repeat sound_step|intros isDirectory].
  destruct (isDirectory || startsWith (asset_name entry) (js ".")); [repeat sound_step|].
  apply sound_bind; [repeat sound_step|intros _].
  apply sound_bind; [repeat sound_step|intros buffer].
  apply sound_bind; [apply sound_safeUploadBinary|intros _]. repeat sound_step.
Qed.

Lemma sound_createDirectoryStructure b repo :
  sound (upload_event b) (createDirectoryStructure hub repo b).
Proof.
  unfold createDirectoryStructure.
  apply sound_bind; [apply sound_uploadFile|intros _]. cbv zeta.
  apply sound_for_of. intros dir. apply sound_uploadFile.
Qed.

Lemma sound_upload_slot b repo chemical type data :
  sound (upload_event b) (upload_slot hub repo b chemical type data).
Proof.
  unfold upload_slot. destruct (negb (truthy (slot_filename data))); [apply sound_ret|].
  cbv zeta. apply sound_bind; [apply sound_get_local|intros l].
  apply sound_bind; [repeat sound_step|intros _].
  destruct (pdfs l _); [repeat sound_step| |];
    (apply sound_bind; [repeat sound_step|intros buffer];
     apply sound_bind; [repeat sound_step|intros _];
     apply sound_bind; [apply sound_safeUploadBinary|intros _]; repeat sound_step).
Qed.

Lemma sound_uploadPDFs b repo cs :
  sound (upload_event b) (uploadPDFs hub repo b cs).
Proof.
  unfold uploadPDFs. apply sound_for_of. intros c.
  apply sound_bind; [apply sound_upload_slot|intros _]. apply sound_upload_slot.
Qed.

Lemma sound_generateHTML b cfg : sound (upload_event b) (@generateHTML R ext cfg).
Proof. unfold generateHTML. repeat sound_step. Qed.

Lemma publish_event_deploy b e : publish_event b e -> deploy_event b e.
Proof. destruct e; simpl; tauto. Qed.

Lemma sound_enablePages b repo : sound (publish_event b) (enablePages hub repo b).
Proof. unfold enablePages. repeat sound_step. Qed.

Lemma sound_verify_one repo f : sound verify_event (verify_one hub repo f).
Proof. unfold verify_one. cbv zeta. repeat sound_step. Qed.

Lemma sound_verifyPDFsOnPages repo cs : sound verify_event (verifyPDFsOnPages hub repo cs).
Proof.
  unfold verifyPDFsOnPages. apply sound_bind; [repeat sound_step|intros _].
  apply sound_bind; [|intros; repeat sound_step].
  apply sound_for_of. intros c. apply sound_for_of. intros f. apply sound_verify_one.
Qed.

Lemma sound_generateQRCodes b cfg : sound (publish_event b) (@generateQRCodes R cfg).
Proof. unfold generateQRCodes. cbv zeta. repeat sound_step. Qed.

Lemma sound_createRepository cfg : sound setup_event (createRepository hub cfg).
Proof. unfold createRepository. cbv zeta. repeat sound_step. Qed.

(** Steps 2 to 12 touch neither the store nor the local machine, and every
    request they send that names a branch names the branch chosen in
    step 2. *)
Lemma sound_deploy_steps cfg repo :
  sound (deploy_event (branch_of repo)) (deploy_steps hub ext cfg repo).
Proof.
  unfold deploy_steps. cbv zeta. set (b := branch_of repo).
  pose proof (upload_event_deploy b) as Hup.
  apply sound_bind; [repeat sound_step|intros _].
  apply sound_bind; [eapply sound_weaken, sound_generateHTML; exact Hup|intros html].
  apply sound_bind;
    [eapply sound_weaken, sound_createDirectoryStructure; exact Hup|intros _].
  apply sound_bind; [eapply sound_weaken, sound_uploadFile; exact Hup|intros _].
  apply sound_bind; [apply sound_get_local|intros l].
  apply sound_bind; [eapply sound_weaken, sound_uploadFile; exact Hup|intros _].
  apply sound_bind; [eapply sound_weaken, sound_uploadCustomerAssets; exact Hup|intros _].
  apply sound_bind; [repeat sound_step|intros _].
  apply sound_bind; [eapply sound_weaken, sound_uploadPDFs; exact Hup|intros _].
  apply sound_bind;
    [eapply sound_weaken, sound_enablePages; apply publish_event_deploy|intros _].
  apply sound_bind; [repeat sound_step|intros _].
  apply sound_bind; [repeat sound_step|intros _].
  apply sound_bind;
    [eapply sound_weaken, sound_verifyPDFsOnPages; apply verify_event_deploy|intros _].
  apply sound_bind;
    [eapply sound_weaken, sound_generateQRCodes; apply publish_event_deploy|intros qr].
  repeat sound_step.
Qed.

Lemma sound_deployCustomerSite cfg :
  sound any_event (deployCustomerSite hub ext cfg).
Proof.
  unfold deployCustomerSite. apply sound_try_catch.
  - apply sound_bind; [unfold any_event; repeat sound_step|intros _].
    apply sound_bind;
      [eapply sound_weaken, sound_createRepository; unfold any_event; auto|intros repo].
    eapply sound_weaken, sound_deploy_steps. unfold any_event. auto.
  - intros e. unfold any_event. repeat sound_step.
Qed.

(** A deployment reads the configuration it is given and nothing else: the
    store and the local machine are as before, whatever the outcome. *)
Lemma deployCustomerSite_frame cfg (w w' : World R) evs r :
  deployCustomerSite hub ext cfg w = (w', evs, r) ->
  configs w' = configs w /\ local w' = local w.
Proof.
  intros H. apply sound_deployCustomerSite in H as (? & ? & _). auto.
Qed.

End DeployerSound.

(* ===================================================================== *)
(** ** The chemical registry                                              *)
(* ===================================================================== *)

Section Registry.
Import Deployer ChemicalManager.
Context {R : Type} (hub : Hub R) (ext : Externals).

Lemma has_id_true id c : has_id id c = true <-> chem_id c = id.
Proof. unfold has_id, str_eqb. apply bool_decide_eq_true. Qed.

Lemma findIndex_Some {A} (p : A -> bool) (l : list A) i :
  findIndex p l = Some i ->
  exists x, l !! i = Some x /\ p x = true
            /\ forall j y, (j < i)%nat -> l !! j = Some y -> p y = false.
Proof.
  revert i. induction l as [|a l IH]; intros i; simpl; [discriminate|].
  destruct (p a) eqn:E.
  - intros [= <-]. exists a. repeat split; auto. intros j y Hj. lia.
  - destruct (findIndex p l) as [k|]; simpl; [|discriminate].
    intros [= <-]. destruct (IH k eq_refl) as (x & Hx & Hp & Hlt).
    exists x. repeat split; auto. intros [|j] y Hj; simpl.
    + intros [= <-]. assumption.
    + apply Hlt. lia.
Qed.

Lemma findIndex_None {A} (p : A -> bool) (l : list A) :
  findIndex p l = None -> forall x, In x l -> p x = false.
Proof.
  induction l as [|a l IH]; simpl; [intros _ x []|].
  destruct (p a) eqn:E; [discriminate|].
  destruct (findIndex p l); simpl; [discriminate|].
  intros _ x [<-|H]; auto.
Qed.

Lemma findIndex_In id (cs : list ChemicalRecord) :
  In id (map chem_id cs) ->
  exists i c, findIndex (has_id id) cs = Some i /\ cs !! i = Some c /\ chem_id c = id.
Proof.
  intros Hin. destruct (findIndex (has_id id) cs) as [i|] eqn:E.
  - destruct (findIndex_Some _ _ _ E) as (c & Hc & Hp & _).
    exists i, c. rewrite has_id_true in Hp. auto.
  - apply in_map_iff in Hin as (c & Hid & Hc).
    pose proof (findIndex_None _ _ E c Hc) as Hf.
    apply has_id_true in Hid. congruence.
Qed.

(** The document [removeChemical] writes for the record at index [i]. *)
Lemma removeChemical_run (w : World R) slug id cfg i c :
  configs w !! slug = Some cfg ->
  findIndex (has_id id) (chemicals cfg) = Some i ->
  chemicals cfg !! i = Some c ->
  let c' := deactivate c (today (local w)) in
  let cfg' :=
    set_site_last_updated
      (set_chemicals cfg (<[i := c']> (chemicals cfg))) (today (local w)) in
  exists w' evs r,
    removeChemical hub ext slug id w = (w', evs, r)
    /\ configs w' = <[slug := cfg']> (configs w)
    /\ local w' = local w
    /\ forall res, r = Ok res -> removed_chemical res = c'.
Proof.
  intros Hcfg Hfind Hc c' cfg'.
  unfold removeChemical, try_catch, bind, emit, loadCustomerConfig, get_local.
  rewrite Hcfg, Hfind, Hc. fold c'. fold cfg'.
  unfold saveCustomerConfig.
  destruct (deployCustomerSite hub ext cfg' _) as [[w2 e2] rd] eqn:Hd.
  apply deployCustomerSite_frame in Hd as [Hc2 Hl2].
  cbn [configs local] in Hc2, Hl2.
  destruct rd as [res|e].
  - do 3 eexists. split; [reflexivity|].
    split; [exact Hc2|]. split; [exact Hl2|].
    intros res' [= <-]. reflexivity.
  - do 3 eexists. split; [reflexivity|].
    split; [exact Hc2|]. split; [exact Hl2|]. discriminate.
Qed.

Lemma listChemicals_run (w : World R) slug cfg includeInactive :
  configs w !! slug = Some cfg ->
  exists listed,
    listChemicals slug includeInactive w = (w, [], Ok listed)
    /\ list_chemicals listed =
       if includeInactive then chemicals cfg
       else List.filter chem_active (chemicals cfg).
Proof.
  intros Hcfg. unfold listChemicals, try_catch, bind, loadCustomerConfig, ret.
  rewrite Hcfg. eexists. split; [reflexivity|].
  destruct includeInactive; reflexivity.
Qed.

(** In a list with distinct ids, after the record at index [i] is replaced
    by one with the same id, that record is the only one with the id. *)
Lemma insert_unique_id (cs : list ChemicalRecord) : forall i c c',
  NoDup (map chem_id cs) ->
  cs !! i = Some c ->
  chem_id c' = chem_id c ->
  forall x, In x (<[i := c']> cs) -> chem_id x = chem_id c -> x = c'.
Proof.
  induction cs as [|a l IH]; intros i c c' Hnd Hi Hid x Hx Hxid; [discriminate|].
  simpl in Hnd. apply NoDup_cons in Hnd as [Ha Hnd]. rewrite list_elem_of_In in Ha.
  destruct i as [|k]; simpl in Hi, Hx.
  - injection Hi as ->. destruct Hx as [<-|Hx]; [reflexivity|].
    exfalso. apply Ha. rewrite <- Hxid. apply in_map. assumption.
  - destruct Hx as [<-|Hx].
    + exfalso. apply Ha. rewrite Hxid. apply in_map.
      apply list_elem_of_In. eapply list_elem_of_lookup_2. eassumption.
    + eapply IH; eassumption.
Qed.

Lemma map_id_insert (cs : list ChemicalRecord) : forall i c c',
  cs !! i = Some c -> chem_id c' = chem_id c ->
  map chem_id (<[i := c']> cs) = map chem_id cs.
Proof.
  induction cs as [|a l IH]; intros i c c' Hi Hid; [reflexivity|].
  destruct i as [|k]; simpl in *.
  - injection Hi as ->. congruence.
  - f_equal. eapply IH; eassumption.
Qed.

(** C5. Removing a chemical whose id is in the list never deletes the
    record.  Whatever the outcome of the redeployment, the stored list has
    the same length, the record found for the id is still at its index with
    the same id, [active = false] and [deactivated_date] stamped with the
    current date, the other records are untouched; the full listing still
    contains the record, and the default listing (active only) does not. *)
Theorem removeChemical_soft_delete (w : World R) (slug id : jsstr) (cfg : CustomerConfig) :
  configs w !! slug = Some cfg ->
  In id (map chem_id (chemicals cfg)) ->
  exists w' evs r i c c' cfg',
    removeChemical hub ext slug id w = (w', evs, r)
    /\ chemicals cfg !! i = Some c /\ chem_id c = id
    /\ configs w' !! slug = Some cfg'
    /\ length (chemicals cfg') = length (chemicals cfg)
    /\ chemicals cfg' !! i = Some c'
    /\ c' = deactivate c (today (local w))
    /\ chem_id c' = id /\ chem_active c' = false
    /\ chem_deactivated_date c' = Some (today (local w))
    /\ (forall j, j <> i -> chemicals cfg' !! j = chemicals cfg !! j)
    /\ (exists full,
          listChemicals slug true w' = (w', [], Ok full)
          /\ list_chemicals full = chemicals cfg'
          /\ In c' (list_chemicals full))
    /\ (exists listed,
          listChemicals slug false w' = (w', [], Ok listed)
          /\ list_chemicals listed = List.filter chem_active (chemicals cfg')
          /\ ~ In c' (list_chemicals listed)
          /\ (NoDup (map chem_id (chemicals cfg)) ->
              forall x, In x (list_chemicals listed) -> chem_id x <> id)).
Proof.
  intros Hcfg Hin.
  destruct (findIndex_In id (chemicals cfg) Hin) as (i & c & Hfind & Hc & Hid).
  destruct (removeChemical_run w slug id cfg i c Hcfg Hfind Hc)
    as (w' & evs & r & Hrun & Hconf & Hloc & _).
  set (c' := deactivate c (today (local w))) in *.
  set (cfg' := set_site_last_updated _ _) in Hconf.
  assert (Hlook : configs w' !! slug = Some cfg').
  { rewrite Hconf. apply lookup_insert_eq. }
  assert (Hi : (i < length (chemicals cfg))%nat) by (eapply lookup_lt_Some; eassumption).
  assert (Hc' : chemicals cfg' !! i = Some c').
  { unfold cfg'. cbn [chemicals set_site_last_updated set_chemicals].
    apply list_lookup_insert_eq. assumption. }
  exists w', evs, r, i, c, c', cfg'.
  split; [exact Hrun|]. split; [exact Hc|]. split; [exact Hid|].
  split; [exact Hlook|]. split.
  { unfold cfg'. cbn [chemicals set_site_last_updated set_chemicals].
    apply length_insert. }
  split; [exact Hc'|]. split; [reflexivity|]. split; [exact Hid|].
  split; [reflexivity|]. split; [reflexivity|]. split.
  { intros j Hj. unfold cfg'. cbn [chemicals set_site_last_updated set_chemicals].
    apply list_lookup_insert_ne. congruence. }
  split.
  - destruct (listChemicals_run w' slug cfg' true Hlook) as (full & Hl & Hf).
    exists full. split; [exact Hl|]. split; [exact Hf|]. rewrite Hf.
    apply list_elem_of_In. eapply list_elem_of_lookup_2. exact Hc'.
  - destruct (listChemicals_run w' slug cfg' false Hlook) as (listed & Hl & Hf).
    exists listed. split; [exact Hl|]. split; [exact Hf|]. rewrite Hf. split.
    + intros H. apply filter_In in H as [_ H]. discriminate H.
    + intros Hnd x Hx Hxid. apply filter_In in Hx as [Hx Hact].
      assert (x = c') as ->.
      { apply (insert_unique_id (chemicals cfg) i c c' Hnd Hc eq_refl x); [exact Hx|].
        congruence. }
      discriminate Hact.
Qed.

(** The document [updateChemical] writes for the record at index [i]. *)
Lemma updateChemical_run (w : World R) slug id updates cfg i c :
  configs w !! slug = Some cfg ->
  findIndex (has_id id) (chemicals cfg) = Some i ->
  chemicals cfg !! i = Some c ->
  let c' := set_last_updated (assign c updates) (today (local w)) in
  let cfg' :=
    set_site_last_updated
      (set_chemicals cfg (<[i := c']> (chemicals cfg))) (today (local w)) in
  exists w' evs r,
    updateChemical hub ext slug id updates w = (w', evs, r)
    /\ configs w' = <[slug := cfg']> (configs w)
    /\ local w' = local w.
Proof.
  intros Hcfg Hfind Hc c' cfg'.
  unfold updateChemical, try_catch, bind, emit, loadCustomerConfig, get_local.
  rewrite Hcfg, Hfind, Hc. fold c'. fold cfg'.
  unfold saveCustomerConfig.
  destruct (deployCustomerSite hub ext cfg' _) as [[w2 e2] rd] eqn:Hd.
  apply deployCustomerSite_frame in Hd as [Hc2 Hl2].
  cbn [configs local] in Hc2, Hl2.
  destruct rd as [res|e]; do 3 eexists; (split; [reflexivity|]); auto.
Qed.

(** The three ways [addChemical] ends: the data is rejected and nothing is
    written; the derived id exists and the record is updated in place; the
    id is new and a record is appended. *)
Lemma addChemical_run (w : World R) slug chemicalData cfg :
  configs w !! slug = Some cfg ->
  let chemicalId := generateChemicalId ext (or_default (in_name chemicalData) []) in
  exists w' evs r,
    addChemical hub ext slug chemicalData w = (w', evs, r)
    /\ local w' = local w
    /\ match validateChemicalData chemicalData with
       | Throw e => configs w' = configs w /\ r = Throw e
       | Ok _ =>
         match findIndex (has_id chemicalId) (chemicals cfg) with
         | Some i =>
           exists c, chemicals cfg !! i = Some c /\ chem_id c = chemicalId
             /\ configs w' =
                <[slug := set_site_last_updated
                            (set_chemicals cfg
                               (<[i := set_last_updated (assign c chemicalData)
                                         (today (local w))]> (chemicals cfg)))
                            (today (local w))]> (configs w)
         | None =>
           configs w' =
             <[slug := set_site_last_updated
                         (set_chemicals cfg
                            (chemicals cfg
                               ++ [newChemical (local w) chemicalId chemicalData]))
                         (today (local w))]> (configs w)
         end
       end.
Proof.
  intros Hcfg chemicalId.
  unfold addChemical, try_catch, bind, emit, loadCustomerConfig, lift_result, get_local.
  rewrite Hcfg. destruct (validateChemicalData chemicalData) as [[]|e].
  - fold chemicalId.
    destruct (findIndex (has_id chemicalId) (chemicals cfg)) as [i|] eqn:Hfind.
    + destruct (findIndex_Some _ _ _ Hfind) as (c & Hc & Hp & _).
      apply has_id_true in Hp.
      destruct (updateChemical_run w slug chemicalId chemicalData cfg i c Hcfg Hfind Hc)
        as (w' & evs & r & Hrun & Hconf & Hloc).
      rewrite Hrun.
      destruct r as [res|e]; do 3 eexists; (split; [reflexivity|]);
        (split; [exact Hloc|]); exists c; auto.
    + unfold saveCustomerConfig.
      destruct (deployCustomerSite hub ext _ _) as [[w2 e2] rd] eqn:Hd.
      apply deployCustomerSite_frame in Hd as [Hc2 Hl2].
      cbn [configs local] in Hc2, Hl2.
      destruct rd as [res|e]; do 3 eexists; (split; [reflexivity|]); auto.
  - do 3 eexists. split; [reflexivity|]. auto.
Qed.

Lemma assign_keeps_id (input : ChemicalInput) c d :
  keeps_id ext input ->
  chem_id c = generateChemicalId ext (or_default (in_name input) []) ->
  chem_id (set_last_updated (assign c input) d) = chem_id c.
Proof.
  unfold keeps_id. intros Hk Hid. cbn [chem_id set_last_updated assign].
  destruct (in_id input) as [i|]; cbn [from_option]; [|reflexivity].
  unfold id. congruence.
Qed.

(** C7, as amended.  For a configuration whose chemical ids are pairwise
    distinct and chemical data that carries no [id] key of its own (or the
    derived id), [addChemical] leaves the ids of the stored list pairwise
    distinct, whatever the outcome of validation and redeployment: when a
    record, active or not, has the derived id, it is updated in place and
    the list of ids is unchanged; otherwise one record with the derived id
    is appended. *)
Theorem addChemical_preserves_unique_ids (w : World R) (slug : jsstr)
    (chemicalData : ChemicalInput) (cfg : CustomerConfig) :
  configs w !! slug = Some cfg ->
  NoDup (map chem_id (chemicals cfg)) ->
  keeps_id ext chemicalData ->
  let chemicalId := generateChemicalId ext (or_default (in_name chemicalData) []) in
  exists w' evs r cfg',
    addChemical hub ext slug chemicalData w = (w', evs, r)
    /\ configs w' !! slug = Some cfg'
    /\ NoDup (map chem_id (chemicals cfg'))
    /\ (In chemicalId (map chem_id (chemicals cfg)) ->
        map chem_id (chemicals cfg') = map chem_id (chemicals cfg))
    /\ (~ In chemicalId (map chem_id (chemicals cfg)) ->
        map chem_id (chemicals cfg') = map chem_id (chemicals cfg)
        \/ map chem_id (chemicals cfg') = map chem_id (chemicals cfg) ++ [chemicalId]).
Proof.
  intros Hcfg Hnd Hk chemicalId.
  destruct (addChemical_run w slug chemicalData cfg Hcfg)
    as (w' & evs & r & Hrun & Hloc & Hcase).
  fold chemicalId in Hcase.
  destruct (validateChemicalData chemicalData) as [[]|e].
  - destruct (findIndex (has_id chemicalId) (chemicals cfg)) as [i|] eqn:Hfind.
    + destruct Hcase as (c & Hc & Hid & Hconf).
      eexists w', evs, r, _. split; [exact Hrun|].
      split; [rewrite Hconf; apply lookup_insert_eq|].
      cbn [chemicals set_site_last_updated set_chemicals].
      assert (Hids : map chem_id
                       (<[i := set_last_updated (assign c chemicalData)
                                 (today (local w))]> (chemicals cfg))
                     = map chem_id (chemicals cfg)).
      { eapply map_id_insert; [exact Hc|]. apply assign_keeps_id; assumption. }
      rewrite Hids. auto.
    + eexists w', evs, r, _. split; [exact Hrun|].
      split; [rewrite Hcase; apply lookup_insert_eq|].
      cbn [chemicals set_site_last_updated set_chemicals].
      rewrite map_app. cbn [map chem_id newChemical].
      assert (Hfresh : ~ In chemicalId (map chem_id (chemicals cfg))).
      { intros Hin. apply in_map_iff in Hin as (c & Hid & Hin).
        pose proof (findIndex_None _ _ Hfind c Hin) as Hf.
        apply has_id_true in Hid. congruence. }
      split; [|split; [contradiction|auto]].
      apply NoDup_app. split; [assumption|]. split.
      * intros x Hx Hx'. apply list_elem_of_In in Hx.
        apply list_elem_of_In in Hx'. destruct Hx' as [<-|[]]. contradiction.
      * apply NoDup_singleton.
  - destruct Hcase as [Hconf _].
    exists w', evs, r, cfg. split; [exact Hrun|].
    split; [rewrite Hconf; exact Hcfg|]. auto.
Qed.

End Registry.

Section RegistryExamples.
Import Deployer ChemicalManager.

(** The demonstration chemical is removed; its two PDFs are on the local
    machine and the simulated service starts empty. *)
Lemma removeChemical_soft_delete_witness :
  let cfg := Sample.config [Sample.bowl_cleaner] in
  let w := Sample.world Sim.empty [Sample.bowl_cleaner]
             [js "302_dt_bowl_cleaner_literature.pdf"; js "302_dt_bowl_cleaner_sds.pdf"] [] in
  configs w !! js "sqzr-demo" = Some cfg
  /\ In (js "302-dt-bowl-cleaner") (map chem_id (chemicals cfg))
  /\ exists w' evs r c' cfg',
      removeChemical Sim.hub Sim.ext (js "sqzr-demo") (js "302-dt-bowl-cleaner") w
      = (w', evs, r)
      /\ configs w' !! js "sqzr-demo" = Some cfg'
      /\ length (chemicals cfg') = length (chemicals cfg)
      /\ chemicals cfg' !! 0%nat = Some c'
      /\ chem_id c' = js "302-dt-bowl-cleaner" /\ chem_active c' = false
      /\ chem_deactivated_date c' = Some (today (local w)).
Proof.
  intros cfg w.
  assert (H1 : configs w !! js "sqzr-demo" = Some cfg) by (vm_compute; reflexivity).
  assert (H2 : In (js "302-dt-bowl-cleaner") (map chem_id (chemicals cfg)))
    by (left; reflexivity).
  split; [exact H1|]. split; [exact H2|].
  destruct (removeChemical_soft_delete Sim.hub Sim.ext w (js "sqzr-demo")
              (js "302-dt-bowl-cleaner") cfg H1 H2)
    as (w' & evs & r & i & c & c' & cfg' & Hrun & Hc & _ & Hl & Hlen & Hc' & _ & Hid
        & Hact & Hd & _).
  assert (i = 0%nat) as ->.
  { apply lookup_lt_Some in Hc. cbn in Hc. lia. }
  exists w', evs, r, c', cfg'. auto 10.
Defined.

(** The redeployment after the removal succeeds on the simulated service;
    the full listing still has the record and the default listing is
    empty. *)
Example removeChemical_example :
  let w := Sample.world Sim.empty [Sample.bowl_cleaner]
             [js "302_dt_bowl_cleaner_literature.pdf"; js "302_dt_bowl_cleaner_sds.pdf"] [] in
  let run := removeChemical Sim.hub Sim.ext (js "sqzr-demo") (js "302-dt-bowl-cleaner") w in
  let w' := fst (fst run) in
  match snd run with
  | Ok res => chem_active (removed_chemical res) = false
  | Throw _ => False
  end
  /\ match snd (listChemicals (js "sqzr-demo") true w') with
     | Ok full => map chem_id (list_chemicals full) = [js "302-dt-bowl-cleaner"]
     | Throw _ => False
     end
  /\ match snd (listChemicals (js "sqzr-demo") false w') with
     | Ok listed => list_chemicals listed = []
     | Throw _ => False
     end.
Proof. vm_compute. split; [reflexivity|]. split; reflexivity. Qed.

(** The chemical of the deployment guide is added to the demonstration
    customer: chemical data without an [id] key. *)
Lemma addChemical_preserves_unique_ids_witness :
  let cfg := Sample.config [Sample.bowl_cleaner] in
  let w := Sample.world Sim.empty [Sample.bowl_cleaner] [] [] in
  let chemicalData :=
    Sample.input (js "Test Floor Cleaner") None (js "test_floor_cleaner_lit.pdf")
      (js "test_floor_cleaner_sds.pdf") in
  configs w !! js "sqzr-demo" = Some cfg
  /\ NoDup (map chem_id (chemicals cfg))
  /\ keeps_id Sim.ext chemicalData
  /\ exists w' evs r cfg',
      addChemical Sim.hub Sim.ext (js "sqzr-demo") chemicalData w = (w', evs, r)
      /\ configs w' !! js "sqzr-demo" = Some cfg'
      /\ NoDup (map chem_id (chemicals cfg')).
Proof.
  intros cfg w chemicalData.
  assert (H1 : configs w !! js "sqzr-demo" = Some cfg) by (vm_compute; reflexivity).
  assert (H2 : NoDup (map chem_id (chemicals cfg))).
  { apply NoDup_cons. split; [apply not_elem_of_nil|apply NoDup_nil_2]. }
  assert (H3 : keeps_id Sim.ext chemicalData) by exact I.
  split; [exact H1|]. split; [exact H2|]. split; [exact H3|].
  destruct (addChemical_preserves_unique_ids Sim.hub Sim.ext w (js "sqzr-demo")
              chemicalData cfg H1 H2 H3)
    as (w' & evs & r & cfg' & Hrun & Hlook & Hnd & _).
  exists w', evs, r, cfg'. auto.
Defined.

Example addChemical_example :
  let w := Sample.world Sim.empty [Sample.bowl_cleaner] [] [] in
  let chemicalData :=
    Sample.input (js "Test Floor Cleaner") None (js "test_floor_cleaner_lit.pdf")
      (js "test_floor_cleaner_sds.pdf") in
  let '(w', _, _) := addChemical Sim.hub Sim.ext (js "sqzr-demo") chemicalData w in
  exists cfg', configs w' !! js "sqzr-demo" = Some cfg'
    /\ map chem_id (chemicals cfg') = [js "302-dt-bowl-cleaner"; js "test-floor-cleaner"].
Proof. vm_compute. eexists. split; reflexivity. Qed.

(** C7 as stated fails for chemical data that carries an [id] key.  The
    list holds the records [floor-cleaner] and [302-dt-bowl-cleaner]; the
    data is named [Floor Cleaner], so the derived id [floor-cleaner] exists
    and the record is updated in place, and [Object.assign] copies the [id]
    key [302-dt-bowl-cleaner] of the data onto it: two records share an id. *)
Lemma addChemical_duplicates_id :
  let cfg := Sample.config [Sample.ab_chemical true; Sample.bowl_cleaner] in
  let w := Sample.world Sim.empty (chemicals cfg) [] [] in
  let chemicalData :=
    Sample.input (js "Floor Cleaner") (Some (js "302-dt-bowl-cleaner"))
      (js "a.pdf") (js "b.pdf") in
  configs w !! js "sqzr-demo" = Some cfg
  /\ NoDup (map chem_id (chemicals cfg))
  /\ validateChemicalData chemicalData = Ok tt
  /\ exists cfg',
      configs (fst (fst (addChemical Sim.hub Sim.ext (js "sqzr-demo") chemicalData w)))
        !! js "sqzr-demo" = Some cfg'
      /\ map chem_id (chemicals cfg')
         = [js "302-dt-bowl-cleaner"; js "302-dt-bowl-cleaner"]
      /\ ~ NoDup (map chem_id (chemicals cfg')).
Proof.
  intros cfg w chemicalData.
  split; [vm_compute; reflexivity|]. split.
  { apply (bool_decide_unpack _). vm_compute. exact I. }
  split; [vm_compute; reflexivity|].
  eexists. split; [vm_compute; reflexivity|]. split; [vm_compute; reflexivity|].
  apply (bool_decide_unpack _). vm_compute. exact I.
Qed.

End RegistryExamples.

(* ===================================================================== *)
(** ** Step 7: the upload of the documents                                *)
(* ===================================================================== *)

Section UploadPDFs.
Import Deployer.
Context {R : Type} (hub : Hub R).

Lemma done_so_far_nil {A B} (r : result A) : done_so_far r (@nil B) [].
Proof. exists []. auto. Qed.

Lemma done_so_far_all {A B} (r : result A) (l : list B) : done_so_far r l l.
Proof. exists []. split; [symmetry; apply app_nil_r|auto]. Qed.

Lemma done_so_far_none {A B} e (l : list B) : done_so_far (@Throw A e) l [].
Proof. exists l. split; [reflexivity|discriminate]. Qed.

(** Sequencing: the second part runs only if the first ended normally. *)
Lemma done_so_far_app {A A' B} (r1 : result A) (r2 : result A')
    (x1 x2 a1 a2 : list B) :
  done_so_far r1 x1 a1 -> (forall v, r1 = Ok v -> done_so_far r2 x2 a2) ->
  (forall e, r1 = Throw e -> a2 = [] /\ r2 = Throw e) ->
  done_so_far r2 (x1 ++ x2) (a1 ++ a2).
Proof.
  intros (rest1 & -> & H1) Hok Hth. destruct r1 as [v|e].
  - rewrite (H1 v eq_refl), app_nil_r.
    destruct (Hok v eq_refl) as (rest2 & -> & H2).
    exists rest2. split; [apply app_assoc|assumption].
  - destruct (Hth e eq_refl) as [-> ->]. exists (rest1 ++ x2).
    split; [rewrite app_nil_r, app_assoc; reflexivity|discriminate].
Qed.

(** What [safeUploadBinary] does: the probe, and unless the probe fails
    with something else than a 404, one commit of the encoded buffer. *)
Lemma safeUploadBinary_inv (w w' : World R) repo path b buf message evs r :
  safeUploadBinary hub owner repo b path buf message w = (w', evs, r) ->
  local w' = local w
  /\ exists o,
      (exists e, r = Throw e /\ evs = [GetContent owner repo path b o])
      \/ (exists sha,
            evs = [GetContent owner repo path b o;
                   Put (commit_args repo path message (toString_base64 buf) b sha) r]).
Proof.
  intros H.
  destruct (getContent hub (remote w) owner repo path b) as [r1 o] eqn:Hg.
  assert (Hcommit : forall sha,
             match o with
             | Ok s => Ok s
             | Throw e =>
               if bool_decide (err_status e = Some 404%Z) then Ok None else Throw e
             end = Ok sha ->
             local w' = local w
             /\ evs = [GetContent owner repo path b o;
                       Put (commit_args repo path message (toString_base64 buf) b sha) r]).
  { intros sha Hs.
    destruct (createOrUpdateFileContents hub r1
                (commit_args repo path message (toString_base64 buf) b sha))
      as [r2 o2] eqn:Hp.
    rewrite (safeUploadBinary_commit hub w repo path b buf message r1 o sha r2 o2
               Hg Hs Hp) in H.
    injection H as <- <- <-. split; reflexivity. }
  destruct o as [sha|e].
  - destruct (Hcommit sha eq_refl) as [Hl ->]. split; [exact Hl|].
    exists (Ok sha). right. exists sha. reflexivity.
  - destruct (decide (err_status e = Some 404%Z)) as [He|He].
    + rewrite bool_decide_eq_true_2 in Hcommit by exact He.
      destruct (Hcommit None eq_refl) as [Hl ->]. split; [exact Hl|].
      exists (Throw e). right. exists None. reflexivity.
    + unfold safeUploadBinary, bind in H.
      rewrite (probe_sha_run hub w repo path b r1 (Throw e) Hg) in H.
      rewrite bool_decide_eq_false_2 in H by exact He.
      injection H as <- <- <-. split; [reflexivity|].
      exists (Throw e). left. exists e. auto.
Qed.

(** One document slot: the commit and the warning it owes. *)
Lemma upload_slot_spec (w w' : World R) repo b c type data evs r :
  upload_slot hub repo b c type data w = (w', evs, r) ->
  local w' = local w
  /\ done_so_far r (slot_commit (local w) c type data) (map commit_of (puts evs))
  /\ done_so_far r (slot_warning (local w) type data) (warnings evs)
  /\ Forall (fun a => put_owner a = owner /\ put_repo a = repo /\ put_branch a = b)
            (puts evs).
Proof.
  unfold upload_slot, slot_commit, slot_warning.
  destruct (truthy (slot_filename data)); cbn [negb].
  - cbv zeta. set (f := or_default (slot_filename data) []).
    unfold bind at 1. unfold get_local at 1. unfold bind at 1. unfold emit at 1.
    destruct (pdfs (local w) f) as [|bytes|e].
    + unfold emit. intros [= <- <- <-].
      split; [reflexivity|]. split; [apply done_so_far_nil|].
      split; [apply done_so_far_all|constructor].
    + unfold bind at 1. unfold lift_result, readFileSync.
      unfold bind at 1. unfold emit at 1. unfold bind at 1.
      destruct (safeUploadBinary hub owner repo b (js "pdfs/" ++ f) bytes _ w)
        as [[w1 e1] r1] eqn:Hs.
      apply safeUploadBinary_inv in Hs as (Hl & o & [(e & -> & ->)|(sha & ->)]).
      * intros [= <- <- <-]. split; [assumption|].
        split; [apply done_so_far_none|]. split; [apply done_so_far_nil|constructor].
      * destruct r1 as [[]|e]; unfold emit; intros [= <- <- <-];
          (split; [assumption|]);
          (split; [apply done_so_far_all|]);
          (split; [apply done_so_far_nil|]);
          repeat constructor.
    + unfold bind at 1. unfold lift_result, readFileSync.
      intros [= <- <- <-]. split; [reflexivity|].
      split; [apply done_so_far_nil|]. split; [apply done_so_far_nil|constructor].
  - intros [= <- <- <-]. split; [reflexivity|].
    split; [apply done_so_far_nil|]. split; [apply done_so_far_nil|constructor].
Qed.

Lemma puts_app e1 e2 : puts (e1 ++ e2) = puts e1 ++ puts e2.
Proof. unfold puts. apply flat_map_app. Qed.

Lemma warnings_app e1 e2 : warnings (e1 ++ e2) = warnings e1 ++ warnings e2.
Proof. unfold warnings. apply flat_map_app. Qed.

(** The two slots of one chemical, literature first. *)
Lemma upload_chemical_spec (w w' : World R) repo b c evs r :
  (upload_slot hub repo b c (js "Literature") (chem_literature c) ;;;
   upload_slot hub repo b c (js "SDS") (chem_sds c)) w = (w', evs, r) ->
  local w' = local w
  /\ done_so_far r
       (slot_commit (local w) c (js "Literature") (chem_literature c)
        ++ slot_commit (local w) c (js "SDS") (chem_sds c))
       (map commit_of (puts evs))
  /\ done_so_far r
       (slot_warning (local w) (js "Literature") (chem_literature c)
        ++ slot_warning (local w) (js "SDS") (chem_sds c))
       (warnings evs)
  /\ Forall (fun a => put_owner a = owner /\ put_repo a = repo /\ put_branch a = b)
            (puts evs).
Proof.
  intros H. apply bind_inv in H as [(e & H & ->)|(w1 & e1 & [] & e2 & H1 & H2 & ->)].
  - apply upload_slot_spec in H as (Hl & Hc & Hw & Hp).
    split; [assumption|].
    rewrite <- (app_nil_r (map commit_of (puts evs))), <- (app_nil_r (warnings evs)).
    split; [|split; [|assumption]].
    + eapply done_so_far_app; [exact Hc|discriminate|]. intros e' [= ->]. auto.
    + eapply done_so_far_app; [exact Hw|discriminate|]. intros e' [= ->]. auto.
  - apply upload_slot_spec in H1 as (Hl1 & Hc1 & Hw1 & Hp1).
    apply upload_slot_spec in H2 as (Hl2 & Hc2 & Hw2 & Hp2). rewrite Hl1 in *.
    split; [congruence|]. rewrite puts_app, warnings_app, map_app.
    split; [|split; [|apply Forall_app; auto]].
    + eapply done_so_far_app; [exact Hc1|intros; exact Hc2|discriminate].
    + eapply done_so_far_app; [exact Hw1|intros; exact Hw2|discriminate].
Qed.

(** The whole loop. *)
Lemma uploadPDFs_spec repo b cs : forall (w w' : World R) evs r,
  uploadPDFs hub repo b cs w = (w', evs, r) ->
  local w' = local w
  /\ done_so_far r (expected_commits (local w) cs) (map commit_of (puts evs))
  /\ done_so_far r (expected_warnings (local w) cs) (warnings evs)
  /\ Forall (fun a => put_owner a = owner /\ put_repo a = repo /\ put_branch a = b)
            (puts evs).
Proof.
  unfold uploadPDFs. induction cs as [|c cs IH]; intros w w' evs r H.
  - injection H as <- <- <-. split; [reflexivity|].
    split; [apply done_so_far_nil|]. split; [apply done_so_far_nil|constructor].
  - cbn [for_of] in H.
    apply bind_inv in H as [(e & H & ->)|(w1 & e1 & [] & e2 & H1 & H2 & ->)].
    + apply upload_chemical_spec in H as (Hl & Hc & Hw & Hp).
      split; [assumption|]. unfold expected_commits, expected_warnings.
      cbn [flat_map].
      rewrite <- (app_nil_r (map commit_of (puts evs))), <- (app_nil_r (warnings evs)).
      split; [|split; [|assumption]].
      * eapply done_so_far_app; [exact Hc|discriminate|]. intros e' [= ->]. auto.
      * eapply done_so_far_app; [exact Hw|discriminate|]. intros e' [= ->]. auto.
    + apply upload_chemical_spec in H1 as (Hl1 & Hc1 & Hw1 & Hp1).
      apply IH in H2 as (Hl2 & Hc2 & Hw2 & Hp2). rewrite Hl1 in *.
      split; [congruence|]. rewrite puts_app, warnings_app, map_app.
      unfold expected_commits, expected_warnings. cbn [flat_map].
      split; [|split; [|apply Forall_app; auto]].
      * eapply done_so_far_app; [exact Hc1|intros; exact Hc2|discriminate].
      * eapply done_so_far_app; [exact Hw1|intros; exact Hw2|discriminate].
Qed.

End UploadPDFs.

(* ===================================================================== *)
(** ** Verification of the published documents                            *)
(* ===================================================================== *)

Section Verification.
Import Deployer.

(** A response is accepted exactly when its status is a success status,
    its content type contains [pdf] and its length is not below 1024. *)
Lemma check_response_Ok (res : Response) :
  check_response res = Ok tt
  <-> (200 <= res_status res <= 299)%Z
      /\ includes (contentType_of res) (js "pdf") = true
      /\ lt (contentLength_of res) (Num 1024) = false.
Proof.
  unfold check_response, res_ok.
  destruct (200 <=? res_status res)%Z eqn:E1; destruct (res_status res <=? 299)%Z eqn:E2;
    cbn [andb negb];
    try (split; [discriminate|]; intros [[H1 H2] _];
         apply Z.leb_le in H1; apply Z.leb_le in H2; congruence).
  apply Z.leb_le in E1. apply Z.leb_le in E2.
  destruct (includes (contentType_of res) (js "pdf")); cbn [negb orb].
  - destruct (lt (contentLength_of res) (Num 1024)).
    + split; [discriminate|]. intros (_ & _ & H). discriminate H.
    + split; auto.
  - split; [discriminate|]. intros (_ & H & _). discriminate H.
Qed.

Lemma is_digit_not_space c : is_digit c = true -> is_space c = false.
Proof.
  unfold is_digit, is_space. intros H. apply andb_true_iff in H as [H1 H2].
  apply N.leb_le in H1. apply N.leb_le in H2.
  repeat (rewrite (proj2 (N.eqb_neq c _)) by lia).
  rewrite (proj2 (N.leb_gt c 13)) by lia.
  rewrite (proj2 (N.leb_gt 8192 c)) by lia.
  rewrite andb_false_r. reflexivity.
Qed.

(** The sign dispatch of [parseInt] on a character that is no sign. *)
Lemma no_sign {T} (c : N) (s : jsstr) (minus plus other : jsstr -> T) :
  c <> 45 -> c <> 43 ->
  match c :: s with
  | 45 :: r => minus r
  | 43 :: r => plus r
  | r => other r
  end = other (c :: s).
Proof.
  intros H45 H43. destruct c as [|p]; [reflexivity|].
  do 6 (destruct p as [p|p|]; try reflexivity); congruence.
Qed.

Lemma read_digits_nonneg s : forall acc, (0 <= acc)%Z -> (0 <= read_digits acc s)%Z.
Proof.
  induction s as [|c s IH]; intros acc Hacc; simpl; [assumption|].
  destruct (is_digit c); [|assumption]. apply IH. lia.
Qed.

(** [parseInt] on a sequence of decimal digits is its value. *)
Lemma parseInt_digits c s :
  Forall (fun c => is_digit c = true) (c :: s) ->
  parseInt (c :: s) = Num (read_digits 0 (c :: s)) /\ (0 <= read_digits 0 (c :: s))%Z.
Proof.
  intros H. inversion H as [|? ? Hc Hs]; subst.
  split; [|apply read_digits_nonneg; lia].
  unfold parseInt. cbn [skip_spaces]. rewrite (is_digit_not_space c Hc).
  assert (Hne : c <> 45 /\ c <> 43).
  { unfold is_digit in Hc. apply andb_true_iff in Hc as [H1 H2].
    apply N.leb_le in H1. apply N.leb_le in H2. lia. }
  destruct Hne as [H45 H43].
  assert (Hp : parse_digits (c :: s) = Some (read_digits 0 (c :: s))).
  { unfold parse_digits. rewrite Hc. reflexivity. }
  rewrite (no_sign c s
             (fun r => match parse_digits r with Some z => Num (- z) | None => NaN end)
             (fun r => match parse_digits r with Some z => Num z | None => NaN end)
             (fun r => match parse_digits r with Some z => Num z | None => NaN end)
             H45 H43).
  rewrite Hp. reflexivity.
Qed.

(** The decimal numeral of a natural number, as [dec_of_N] prints it, is
    read back by [parseInt]. *)
Lemma js_string_of_uint d : js (NilEmpty.string_of_uint d) = digit_codes d.
Proof.
  unfold js. induction d; [reflexivity| ..];
    cbn [NilEmpty.string_of_uint list_ascii_of_string map digit_codes];
    rewrite <- IHd; reflexivity.
Qed.

Lemma digit_codes_digits d : Forall (fun c => is_digit c = true) (digit_codes d).
Proof. induction d; constructor; auto. Qed.

Lemma read_digits_acc d : forall acc : positive,
  read_digits (Z.pos acc) (digit_codes d) = Z.pos (Pos.of_uint_acc d acc).
Proof.
  induction d; intros acc; cbn [digit_codes Pos.of_uint_acc]; [reflexivity| ..];
    cbn [read_digits];
    match goal with |- context [is_digit ?c] => change (is_digit c) with true end;
    cbv iota; rewrite <- IHd; f_equal; lia.
Qed.

Lemma read_digits_of_uint d :
  read_digits 0 (digit_codes d) = Z.of_N (N.of_uint d).
Proof.
  unfold N.of_uint.
  induction d; cbn [digit_codes Pos.of_uint]; [reflexivity| ..];
    cbn [read_digits];
    match goal with |- context [is_digit ?c] => change (is_digit c) with true end;
    cbv iota;
    first [ exact IHd | apply (read_digits_acc d) ].
Qed.

Lemma parseInt_dec_of_N (n : N) : parseInt (dec_of_N n) = Num (Z.of_N n).
Proof.
  unfold dec_of_N. rewrite js_string_of_uint.
  pose proof (DecimalN.Unsigned.of_to n) as Hn.
  pose proof (digit_codes_digits (N.to_uint n)) as Hd.
  pose proof (read_digits_of_uint (N.to_uint n)) as Hr.
  destruct (digit_codes (N.to_uint n)) as [|c s] eqn:E.
  - exfalso. destruct n as [|p]; [discriminate E|].
    destruct (N.to_uint (N.pos p)) eqn:E'; try discriminate E.
    cbn in Hn. discriminate Hn.
  - destruct (parseInt_digits c s Hd) as [-> _]. rewrite Hr, Hn. reflexivity.
Qed.

(** Acceptance, read off the headers of the response: both headers are
    there, and [parseInt] of the length is not below 1024. *)
Lemma check_response_headers (res : Response) :
  check_response res = Ok tt
  <-> (200 <= res_status res <= 299)%Z
      /\ (exists ctype, res_content_type res = Some ctype
                        /\ includes ctype (js "pdf") = true)
      /\ (exists len, res_content_length res = Some len /\ len <> []
                      /\ lt (parseInt len) (Num 1024) = false).
Proof.
  rewrite check_response_Ok. unfold contentType_of, contentLength_of.
  split; intros (Hst & Hct & Hlen); (split; [exact Hst|]); split.
  - destruct (res_content_type res) as [[|c s]|]; try discriminate Hct. eauto.
  - destruct (res_content_length res) as [[|c s]|]; try discriminate Hlen.
    exists (c :: s). split; [reflexivity|]. split; [discriminate|exact Hlen].
  - destruct Hct as (ctype & -> & H). destruct ctype; [discriminate H|exact H].
  - destruct Hlen as (len & -> & Hne & H). destruct len; [contradiction|exact H].
Qed.

(** A decimal [Content-Length] is compared as the number it denotes. *)
Lemma decimal_length (len : jsstr) (n : N) :
  len = dec_of_N n ->
  len <> [] /\ (lt (parseInt len) (Num 1024) = false <-> 1024 <= n).
Proof.
  intros ->. pose proof (parseInt_dec_of_N n) as Hp. split.
  - intros E. rewrite E in Hp. discriminate Hp.
  - rewrite Hp. cbn [lt]. rewrite Z.ltb_ge. lia.
Qed.

Section Steps.
Context {R : Type} (hub : Hub R).

(** One document: the request, and what follows from its outcome. *)
Lemma verify_one_inv (w w' : World R) repo f evs r :
  verify_one hub repo f w = (w', evs, r) ->
  local w' = local w
  /\ exists o,
      match verdict o with
      | Ok _ =>
        r = Ok tt
        /\ evs = [ConsoleLog (js "  ➜ Checking " ++ pdf_url repo f);
                  Head (pdf_url repo f) o;
                  ConsoleLog (js "  ✅ Verified " ++ f)]
      | Throw e =>
        r = Throw (verification_error (pdf_url repo f) e)
        /\ evs = [ConsoleLog (js "  ➜ Checking " ++ pdf_url repo f);
                  Head (pdf_url repo f) o]
      end.
Proof.
  unfold verify_one. cbv zeta.
  unfold bind at 1. unfold emit at 1. unfold try_catch, bind at 1. unfold request.
  destruct (fetch_head hub (remote w) (pdf_url repo f)) as [r1 o].
  destruct o as [res|e].
  - unfold bind, lift_result. destruct (check_response res) as [[]|e] eqn:E.
    + unfold emit. intros [= <- <- <-]. split; [reflexivity|].
      exists (Ok res). cbn [verdict]. rewrite E. auto.
    + unfold throw. intros [= <- <- <-]. split; [reflexivity|].
      exists (Ok res). cbn [verdict]. rewrite E. auto.
  - unfold throw. intros [= <- <- <-]. split; [reflexivity|].
    exists (Throw e). cbn [verdict]. auto.
Qed.

Lemma head_checked_bind {A B} (m : M R A) (k : A -> M R B) :
  head_checked m -> (forall a, head_checked (k a)) -> head_checked (bind m k).
Proof.
  intros Hm Hk w w' evs r H url o e Hin Hv.
  apply bind_inv in H as [(e0 & H & ->)|(w1 & e1 & a & e2 & H1 & H2 & ->)].
  - pose proof (Hm _ _ _ _ H _ _ _ Hin Hv) as Heq. injection Heq as ->. reflexivity.
  - apply in_app_iff in Hin as [Hin|Hin].
    + pose proof (Hm _ _ _ _ H1 _ _ _ Hin Hv). discriminate.
    + eapply Hk; eassumption.
Qed.

Lemma head_checked_for_of {A} (xs : list A) (body : A -> M R unit) :
  (forall x, head_checked (body x)) -> head_checked (for_of xs body).
Proof.
  intros Hb. induction xs as [|x xs IH]; cbn [for_of].
  - intros w w' evs r [= <- <- <-] url o e [].
  - apply head_checked_bind; auto.
Qed.

(** A step that sends no HEAD request has nothing to check. *)
Lemma head_checked_sound (P : event -> Prop) {A} (m : M R A) :
  (forall e, P e -> no_head e) -> sound P m -> head_checked m.
Proof.
  intros HP Hm w w' evs r H url o e Hin Hv.
  apply Hm in H as (_ & _ & Hall). rewrite List.Forall_forall in Hall.
  destruct (HP _ (Hall _ Hin)).
Qed.

(** Logging and rethrowing keeps the error. *)
Lemma head_checked_rethrow {A} (m : M R A) (log : JsError -> event) :
  head_checked m -> (forall e, no_head (log e)) ->
  head_checked (try_catch m (fun error => emit (log error) ;;; throw error)).
Proof.
  intros Hm Hlog w w' evs r H url o e Hin Hv.
  apply try_catch_inv in H as [(a & H & ->)|(w1 & e1 & e0 & e2 & H1 & H2 & ->)].
  - eapply Hm; eassumption.
  - unfold bind, emit, throw in H2. injection H2 as <- <- <-.
    apply in_app_iff in Hin as [Hin|Hin].
    + eapply Hm; eassumption.
    + destruct Hin as [Hin|[]]. pose proof (Hlog e0) as Hn. rewrite Hin in Hn.
      destruct Hn.
Qed.

Lemma head_checked_verify_one repo f : head_checked (verify_one hub repo f).
Proof.
  intros w w' evs r H url o e Hin Hv.
  apply verify_one_inv in H as (_ & o' & H).
  destruct (verdict o') as [[]|e'] eqn:E; destruct H as [-> ->];
    destruct Hin as [Hin|[Hin|Hin]]; try discriminate Hin;
    try (injection Hin as <- <-; congruence).
  - destruct Hin as [Hin|[]]. discriminate Hin.
  - destruct Hin.
Qed.

Lemma head_checked_verifyPDFsOnPages repo cs :
  head_checked (verifyPDFsOnPages hub repo cs).
Proof.
  unfold verifyPDFsOnPages.
  apply head_checked_bind; [|intros _; apply head_checked_bind; [|intros _]].
  - intros w w' evs r [= <- <- <-] url o e [Hin|[]]. discriminate Hin.
  - apply head_checked_for_of. intros c. apply head_checked_for_of. intros f.
    apply head_checked_verify_one.
  - intros w w' evs r [= <- <- <-] url o e [Hin|[]]. discriminate Hin.
Qed.

(** A loop that ends normally ran its body normally on every element; a
    loop that throws ran its body on some element, which threw. *)
Lemma for_of_Ok_inv {A} (xs : list A) (body : A -> M R unit) :
  forall (w w' : World R) evs,
  for_of xs body w = (w', evs, Ok tt) ->
  forall x, In x xs ->
    exists w1 w2 e, body x w1 = (w2, e, Ok tt) /\ incl e evs.
Proof.
  induction xs as [|a xs IH]; intros w w' evs H x Hx; [destruct Hx|].
  cbn [for_of] in H.
  apply bind_inv in H as [(e & _ & [=])|(w1 & e1 & [] & e2 & H1 & H2 & ->)].
  destruct Hx as [<-|Hx].
  - exists w, w1, e1. split; [assumption|]. apply incl_appl, incl_refl.
  - destruct (IH _ _ _ H2 x Hx) as (wa & wb & e & Hb & Hi).
    exists wa, wb, e. split; [assumption|]. apply incl_appr. assumption.
Qed.

Lemma for_of_Throw_inv {A} (xs : list A) (body : A -> M R unit) :
  forall (w w' : World R) evs err,
  for_of xs body w = (w', evs, Throw err) ->
  exists x w1 w2 e, In x xs /\ body x w1 = (w2, e, Throw err) /\ incl e evs.
Proof.
  induction xs as [|a xs IH]; intros w w' evs err H; [discriminate H|].
  cbn [for_of] in H.
  apply bind_inv in H as [(e & H & [= <-])|(w1 & e1 & [] & e2 & H1 & H2 & ->)].
  - exists a, w, w', evs. split; [left; reflexivity|]. split; [assumption|apply incl_refl].
  - destruct (IH _ _ _ _ H2) as (x & wa & wb & e & Hx & Hb & Hi).
    exists x, wa, wb, e. split; [right; assumption|]. split; [assumption|].
    apply incl_appr. assumption.
Qed.

(** A verification that ends normally has requested every document of
    every chemical of the list, and each answer was accepted. *)
Lemma verifyPDFsOnPages_Ok (w w' : World R) repo cs evs :
  verifyPDFsOnPages hub repo cs w = (w', evs, Ok tt) ->
  forall c f, In c cs -> In f (slot_files c) ->
    exists res, In (Head (pdf_url repo f) (Ok res)) evs /\ check_response res = Ok tt.
Proof.
  unfold verifyPDFsOnPages. intros H c f Hc Hf.
  apply bind_inv in H as [(e & _ & [=])|(w1 & e1 & [] & e2 & _ & H & ->)].
  apply bind_inv in H as [(e & _ & [=])|(w2 & e3 & [] & e4 & H & _ & ->)].
  destruct (for_of_Ok_inv _ _ _ _ _ H c Hc) as (wa & wb & ec & Hbody & Hic).
  destruct (for_of_Ok_inv _ _ _ _ _ Hbody f Hf) as (wc & wd & ef & Hone & Hif).
  apply verify_one_inv in Hone as (_ & o & Hone).
  destruct o as [res|e]; cbn [verdict] in Hone.
  - destruct (check_response res) as [[]|e] eqn:E; destruct Hone as [Hr ->];
      [|discriminate Hr].
    exists res. split; [|exact E].
    apply in_or_app. right. apply in_or_app. left. apply Hic, Hif.
    right. left. reflexivity.
  - destruct Hone as [Hr _]. discriminate Hr.
Qed.

(** A verification that throws names the URL of a document of the list. *)
Lemma verifyPDFsOnPages_Throw (w w' : World R) repo cs evs err :
  verifyPDFsOnPages hub repo cs w = (w', evs, Throw err) ->
  exists c f o e, In c cs /\ In f (slot_files c)
    /\ In (Head (pdf_url repo f) o) evs /\ verdict o = Throw e
    /\ err = verification_error (pdf_url repo f) e.
Proof.
  unfold verifyPDFsOnPages. intros H.
  apply bind_inv in H as [(e & [=] & _)|(w1 & e1 & [] & e2 & _ & H & ->)].
  apply bind_inv in H as [(e & H & [= <-])|(w2 & e3 & [] & e4 & _ & [=] & _)].
  destruct (for_of_Throw_inv _ _ _ _ _ _ H) as (c & wa & wb & ec & Hc & Hbody & Hic).
  destruct (for_of_Throw_inv _ _ _ _ _ _ Hbody) as (f & wc & wd & ef & Hf & Hone & Hif).
  apply verify_one_inv in Hone as (_ & o & Hone).
  destruct (verdict o) as [[]|e] eqn:E; destruct Hone as [Hr ->]; [discriminate Hr|].
  injection Hr as ->. exists c, f, o, e. repeat split; try assumption.
  apply in_or_app. right. apply Hic, Hif. right. left. reflexivity.
Qed.

End Steps.
End Verification.

(* ===================================================================== *)
(** ** The deployment as a whole                                          *)
(* ===================================================================== *)

Section Deployment.
Import Deployer.
Context {R : Type} (hub : Hub R) (ext : Externals).

Lemma emit_inv (w w' : World R) e evs (r : result unit) :
  emit e w = (w', evs, r) -> w' = w /\ evs = [e] /\ r = Ok tt.
Proof. intros [= <- <- <-]. auto. Qed.

Lemma get_local_inv (w w' : World R) evs (r : result Local) :
  get_local w = (w', evs, r) -> w' = w /\ evs = [] /\ r = Ok (local w).
Proof. intros [= <- <- <-]. auto. Qed.

Lemma ret_inv {A} (a : A) (w w' : World R) evs (r : result A) :
  ret a w = (w', evs, r) -> w' = w /\ evs = [] /\ r = Ok a.
Proof. intros [= <- <- <-]. auto. Qed.

Lemma upload_event_no_head b e : upload_event b e -> no_head e.
Proof. destruct e; simpl; tauto. Qed.

Lemma publish_event_no_head b e : publish_event b e -> no_head e.
Proof. destruct e; simpl; tauto. Qed.

Lemma setup_event_no_head e : setup_event e -> no_head e.
Proof. destruct e; simpl; tauto. Qed.

Lemma head_checked_emit e : no_head e -> head_checked (@emit R e).
Proof.
  intros He w w' evs r [= <- <- <-] url o err [Hin|[]]. rewrite Hin in He. destruct He.
Qed.

Lemma head_checked_deploy_steps cfg repo : head_checked (deploy_steps hub ext cfg repo).
Proof.
  unfold deploy_steps. cbv zeta. set (b := branch_of repo).
  pose proof (upload_event_no_head b) as Hup.
  pose proof (publish_event_no_head b) as Hpub.
  apply head_checked_bind; [apply head_checked_emit; exact I|intros _].
  apply head_checked_bind;
    [exact (head_checked_sound _ _ Hup (sound_generateHTML ext b cfg))|intros html].
  apply head_checked_bind;
    [exact (head_checked_sound _ _ Hup (sound_createDirectoryStructure hub b _))|intros _].
  apply head_checked_bind;
    [exact (head_checked_sound _ _ Hup (sound_uploadFile hub b _ _ _ _))|intros _].
  apply head_checked_bind;
    [exact (head_checked_sound _ _ Hup (sound_get_local _))|intros l].
  apply head_checked_bind;
    [exact (head_checked_sound _ _ Hup (sound_uploadFile hub b _ _ _ _))|intros _].
  apply head_checked_bind;
    [exact (head_checked_sound _ _ Hup (sound_uploadCustomerAssets hub b _ _))|intros _].
  apply head_checked_bind; [apply head_checked_emit; exact I|intros _].
  apply head_checked_bind;
    [exact (head_checked_sound _ _ Hup (sound_uploadPDFs hub b _ _))|intros _].
  apply head_checked_bind;
    [exact (head_checked_sound _ _ Hpub (sound_enablePages hub b _))|intros _].
  apply head_checked_bind; [apply head_checked_emit; exact I|intros _].
  apply head_checked_bind; [apply head_checked_emit; exact I|intros _].
  apply head_checked_bind; [apply head_checked_verifyPDFsOnPages|intros _].
  apply head_checked_bind;
    [exact (head_checked_sound _ _ Hpub (sound_generateQRCodes b cfg))|intros qr].
  apply head_checked_bind; [apply head_checked_emit; exact I|intros _].
  apply head_checked_bind;
    [exact (head_checked_sound _ _ Hup (sound_get_local _))|intros l'].
  exact (head_checked_sound _ _ Hup (sound_ret _ _)).
Qed.

(** Any single verification failure aborts the deployment with the error
    that names the failing URL. *)
Lemma head_checked_deployCustomerSite cfg :
  head_checked (deployCustomerSite hub ext cfg).
Proof.
  unfold deployCustomerSite.
  apply (head_checked_rethrow _
           (fun error => ConsoleError (js "❌ Deployment failed: " ++ err_message error))).
  - apply head_checked_bind; [apply head_checked_emit; exact I|intros _].
    apply head_checked_bind;
      [exact (head_checked_sound _ _ setup_event_no_head (sound_createRepository hub cfg))
      |intros repo].
    apply head_checked_deploy_steps.
  - intros e. exact I.
Qed.

(** A text upload that ends normally sent the probe and one commit of the
    encoded content, which succeeded. *)
Lemma uploadFile_Ok (w w' : World R) repo path content message b evs :
  uploadFile hub repo path content message b w = (w', evs, Ok tt) ->
  exists o sha,
    evs = [GetContent owner repo path b o;
           Put (commit_args repo path message (toString_base64 (Buffer_from content))
                  b sha) (Ok tt)].
Proof.
  intros H.
  destruct (getContent hub (remote w) owner repo path b) as [r1 o] eqn:Hg.
  assert (Hcommit : forall sha,
             match o with
             | Ok s => Ok s
             | Throw e =>
               if bool_decide (err_status e = Some 404%Z) then Ok None else Throw e
             end = Ok sha ->
             evs = [GetContent owner repo path b o;
                    Put (commit_args repo path message
                           (toString_base64 (Buffer_from content)) b sha) (Ok tt)]).
  { intros sha Hs.
    destruct (createOrUpdateFileContents hub r1
                (commit_args repo path message (toString_base64 (Buffer_from content))
                   b sha)) as [r2 o2] eqn:Hp.
    rewrite (uploadFile_commit hub w repo path b content message r1 o sha r2 o2
               Hg Hs Hp) in H.
    injection H as <- <- ->. reflexivity. }
  destruct o as [sha|e].
  - exists (Ok sha), sha. apply Hcommit. reflexivity.
  - destruct (decide (err_status e = Some 404%Z)) as [He|He].
    + rewrite bool_decide_eq_true_2 in Hcommit by exact He.
      exists (Throw e), None. apply Hcommit. reflexivity.
    + unfold uploadFile, try_catch, bind in H.
      rewrite (probe_sha_run hub w repo path b r1 (Throw e) Hg) in H.
      rewrite bool_decide_eq_false_2 in H by exact He. discriminate H.
Qed.

(** The run of steps 2 to 12 that ends normally: its events are those of
    the preparation (among them the commit of the README), of the upload of
    the documents, of the publication, of the verification, and the closing
    messages; the result counts the whole chemical list. *)
Lemma deploy_steps_Ok (w w' : World R) cfg repo evs res :
  deploy_steps hub ext cfg repo w = (w', evs, Ok res) ->
  exists w1 w2 w3 w4 e_pre e_pdf e_mid e_ver e_post sha,
    evs = e_pre ++ e_pdf ++ e_mid ++ e_ver ++ e_post
    /\ local w1 = local w
    /\ In (Put (commit_args (repo_name repo) (js "README.md")
                  (js "Add repository documentation")
                  (toString_base64 (Buffer_from (generateReadme (local w) cfg)))
                  (branch_of repo) sha) (Ok tt)) e_pre
    /\ uploadPDFs hub (repo_name repo) (branch_of repo) (chemicals cfg) w1
       = (w2, e_pdf, Ok tt)
    /\ verifyPDFsOnPages hub (repo_name repo) (chemicals cfg) w3 = (w4, e_ver, Ok tt)
    /\ repository res = repo
    /\ url res = pages_base (repo_name repo)
    /\ total_chemicals (deployment_info res) = length (chemicals cfg).
Proof.
  unfold deploy_steps. cbv zeta. set (b := branch_of repo). intros H.
  apply bind_inv in H as [(? & _ & [=])|(w01 & e01 & [] & ? & H01 & H & ->)].
  apply emit_inv in H01 as (-> & _).
  apply bind_inv in H as [(? & _ & [=])|(w02 & e02 & html & ? & H02 & H & ->)].
  pose proof (sound_generateHTML ext b cfg _ _ _ _ H02) as (_ & L02 & _).
  apply bind_inv in H as [(? & _ & [=])|(w03 & e03 & [] & ? & H03 & H & ->)].
  pose proof (sound_createDirectoryStructure hub b _ _ _ _ _ H03) as (_ & L03 & _).
  apply bind_inv in H as [(? & _ & [=])|(w04 & e04 & [] & ? & H04 & H & ->)].
  pose proof (sound_uploadFile hub b _ _ _ _ _ _ _ _ H04) as (_ & L04 & _).
  apply bind_inv in H as [(? & _ & [=])|(w05 & e05 & l & ? & H05 & H & ->)].
  apply get_local_inv in H05 as (-> & -> & [= ->]).
  apply bind_inv in H as [(? & _ & [=])|(w06 & e06 & [] & ? & H06 & H & ->)].
  pose proof (sound_uploadFile hub b _ _ _ _ _ _ _ _ H06) as (_ & L06 & _).
  apply uploadFile_Ok in H06 as (o & sha & He06).
  apply bind_inv in H as [(? & _ & [=])|(w07 & e07 & [] & ? & H07 & H & ->)].
  pose proof (sound_uploadCustomerAssets hub b _ _ _ _ _ _ H07) as (_ & L07 & _).
  apply bind_inv in H as [(? & _ & [=])|(w08 & e08 & [] & ? & H08 & H & ->)].
  apply emit_inv in H08 as (-> & _).
  apply bind_inv in H as [(? & _ & [=])|(w09 & e09 & [] & ? & H09 & H & ->)].
  apply bind_inv in H as [(? & _ & [=])|(w10 & e10 & [] & ? & H10 & H & ->)].
  apply bind_inv in H as [(? & _ & [=])|(w11 & e11 & [] & ? & H11 & H & ->)].
  apply bind_inv in H as [(? & _ & [=])|(w12 & e12 & [] & ? & H12 & H & ->)].
  apply bind_inv in H as [(? & _ & [=])|(w13 & e13 & [] & ? & H13 & H & ->)].
  apply bind_inv in H as [(? & _ & [=])|(w14 & e14 & qr & ? & H14 & H & ->)].
  apply bind_inv in H as [(? & _ & [=])|(w15 & e15 & [] & ? & H15 & H & ->)].
  apply bind_inv in H as [(? & _ & [=])|(w16 & e16 & l' & ? & H16 & H & ->)].
  apply get_local_inv in H16 as (-> & -> & _).
  apply ret_inv in H as (_ & -> & [= ->]).
  assert (Hl4 : local w04 = local w) by (rewrite L04, L03, L02; reflexivity).
  assert (Hl7 : local w07 = local w) by (rewrite L07, L06; exact Hl4).
  exists w07, w09, w12, w13.
  exists (e01 ++ e02 ++ e03 ++ e04 ++ [] ++ e06 ++ e07 ++ e08).
  exists e09, (e10 ++ e11 ++ e12), e13, (e14 ++ e15 ++ [] ++ []), sha.
  split; [repeat rewrite <- app_assoc; reflexivity|].
  split; [exact Hl7|]. split.
  { rewrite <- Hl4, He06, !in_app_iff. do 5 right. left. right. left. reflexivity. }
  split; [exact H09|]. split; [exact H13|].
  split; [reflexivity|]. split; reflexivity.
Qed.


(** A deployment that ends normally created or fetched the repository and
    then ran steps 2 to 12 normally on it. *)
Lemma deployCustomerSite_Ok (w w' : World R) cfg evs res :
  deployCustomerSite hub ext cfg w = (w', evs, Ok res) ->
  exists w1 e0 e1 e2 repo,
    createRepository hub cfg w = (w1, e1, Ok repo)
    /\ deploy_steps hub ext cfg repo w1 = (w', e2, Ok res)
    /\ evs = e0 ++ e1 ++ e2
    /\ local w1 = local w.
Proof.
  unfold deployCustomerSite. intros H.
  apply try_catch_inv in H as [(a & H & [= <-])|(w1 & e1 & e & e2 & _ & H & _)].
  - apply bind_inv in H as [(? & _ & [=])|(w0 & e0 & [] & ? & H0 & H & ->)].
    apply emit_inv in H0 as (-> & _).
    apply bind_inv in H as [(? & _ & [=])|(w1 & e1 & repo & e2 & H1 & H & ->)].
    pose proof (sound_createRepository hub cfg _ _ _ _ H1) as (_ & L1 & _).
    exists w1, e0, e1, e2, repo. auto.
  - apply bind_inv in H as [(? & _ & [=])|(w0 & e0 & [] & ? & H0 & H & ->)].
    discriminate H.
Qed.

Lemma filter_active_length (cs : list ChemicalRecord) :
  (exists c, In c cs /\ chem_active c = false) ->
  (length (List.filter chem_active cs) < length cs)%nat.
Proof.
  intros (c & Hc & Ha). induction cs as [|x cs IH]; [destruct Hc|].
  pose proof (List.filter_length_le chem_active cs) as Hle.
  cbn [List.filter]. destruct Hc as [->|Hc].
  - rewrite Ha. cbn [length]. lia.
  - specialize (IH Hc). destruct (chem_active x); cbn [length]; lia.
Qed.

(** The line of the README that reports the number of products. *)
Lemma generateReadme_total (l : Local) cfg :
  exists pre post,
    generateReadme l cfg =
      pre ++ js "- **Total Products**: "
          ++ dec_of_nat (length (List.filter chem_active (chemicals cfg))) ++ post.
Proof.
  unfold generateReadme. cbv zeta.
  match goal with
  | |- exists pre post, ?a ++ ?n ++ js ?s ++ ?d ++ ?rest = _ =>
    exists (a ++ n ++ js " - GHS Safety Binder

Professional chemical safety documentation portal providing 24/7 access to GHS-compliant Safety Data Sheets and product literature.

## 🧪 Chemical Safety Information

"), rest;
    assert (Hs : js s = js " - GHS Safety Binder

Professional chemical safety documentation portal providing 24/7 access to GHS-compliant Safety Data Sheets and product literature.

## 🧪 Chemical Safety Information

" ++ js "- **Total Products**: ") by (vm_compute; reflexivity);
    rewrite Hs
  end.
  rewrite <- !app_assoc. reflexivity.
Qed.

(** C10. The result of a successful deployment reports [total_chemicals] as
    the length of the whole chemical list, inactive chemicals included; the
    README committed by the same deployment reports its [Total Products] as
    the number of active chemicals; as soon as one chemical of the list is
    inactive the second number is smaller than the first. *)
Theorem deployment_counts_differ (w w' : World R) (cfg : CustomerConfig)
    (evs : list event) (res : DeployResult) :
  deployCustomerSite hub ext cfg w = (w', evs, Ok res) ->
  let active := length (List.filter chem_active (chemicals cfg)) in
  total_chemicals (deployment_info res) = length (chemicals cfg)
  /\ (exists sha,
        In (Put (commit_args (repo_name (repository res)) (js "README.md")
                   (js "Add repository documentation")
                   (toString_base64 (Buffer_from (generateReadme (local w) cfg)))
                   (branch_of (repository res)) sha) (Ok tt)) evs)
  /\ (exists pre post,
        generateReadme (local w) cfg =
          pre ++ js "- **Total Products**: " ++ dec_of_nat active ++ post)
  /\ ((exists c, In c (chemicals cfg) /\ chem_active c = false) ->
      (active < total_chemicals (deployment_info res))%nat).
Proof.
  intros H active.
  apply deployCustomerSite_Ok in H as (w1 & e0 & e1 & e2 & repo & _ & H & -> & L1).
  apply deploy_steps_Ok in H
    as (wa & wb & wc & wd & e_pre & e_pdf & e_mid & e_ver & e_post & sha
        & -> & _ & Hreadme & _ & _ & Hrepo & _ & Htotal).
  split; [exact Htotal|]. split.
  - exists sha. rewrite Hrepo, <- L1. rewrite !in_app_iff. do 2 right. left. exact Hreadme.
  - split; [apply generateReadme_total|].
    intros Hin. rewrite Htotal. apply filter_active_length. exact Hin.
Qed.

(** C2. In a deployment, every HEAD request whose answer the verification
    rejects (a failed request, a status outside 200..299, a content type
    without [pdf], a length below 1024) makes the whole deployment throw the
    error that names the URL of that request.  A deployment that ends
    normally has sent a HEAD request to
    [https://rascoused.github.io/<repository>/pdfs/<filename>] for the
    literature and the SDS file name of every chemical of the list, and each
    was answered with a success status, a [Content-Type] header containing
    [pdf] and a [Content-Length] header that is there, is not empty and
    does not read as a number below 1024: a header that is the decimal
    numeral of [n] has [n] at least 1024.  A response whose content type is
    [text/html] is rejected even with status 200.  Acceptance of a response
    is exactly these three conditions on its status and its two headers;
    for a response with a decimal [Content-Length] it is exactly: a success
    status, a content type containing [pdf], a length of at least 1024. *)
Theorem verification_gate (w w' : World R) (cfg : CustomerConfig)
    (evs : list event) (r : result DeployResult) :
  deployCustomerSite hub ext cfg w = (w', evs, r) ->
  (forall url o e, In (Head url o) evs -> verdict o = Throw e ->
     r = Throw (verification_error url e))
  /\ (forall res, r = Ok res ->
      forall c d f, In c (chemicals cfg) ->
        chem_literature c = Some d \/ chem_sds c = Some d ->
        doc_filename d = Some f -> f <> [] ->
        exists resp ctype len,
          In (Head (js "https://rascoused.github.io/" ++ repo_name (repository res)
                    ++ js "/pdfs/" ++ f) (Ok resp)) evs
          /\ (200 <= res_status resp <= 299)%Z
          /\ res_content_type resp = Some ctype
          /\ includes ctype (js "pdf") = true
          /\ res_content_length resp = Some len
          /\ len <> []
          /\ lt (parseInt len) (Num 1024) = false
          /\ (forall n, len = dec_of_N n -> 1024 <= n))
  /\ (forall resp, res_content_type resp = Some (js "text/html") ->
        exists e, verdict (Ok resp) = Throw e)
  /\ (forall resp,
        verdict (Ok resp) = Ok tt
        <-> (200 <= res_status resp <= 299)%Z
            /\ (exists ctype, res_content_type resp = Some ctype
                              /\ includes ctype (js "pdf") = true)
            /\ (exists len, res_content_length resp = Some len /\ len <> []
                            /\ lt (parseInt len) (Num 1024) = false))
  /\ (forall resp n, res_content_length resp = Some (dec_of_N n) ->
        (verdict (Ok resp) = Ok tt
         <-> (200 <= res_status resp <= 299)%Z
             /\ (exists ctype, res_content_type resp = Some ctype
                               /\ includes ctype (js "pdf") = true)
             /\ 1024 <= n)).
Proof.
  intros H. split; [|split; [|split; [|split]]].
  - exact (head_checked_deployCustomerSite cfg w w' evs r H).
  - intros res -> c d f Hc Hd Hf Hne.
    assert (Hin : In f (slot_files c)).
    { apply slot_files_names. unfold slot_names, slot_filename.
      destruct Hd as [-> | ->]; [left|right]; auto. }
    apply deployCustomerSite_Ok in H as (w1 & e0 & e1 & e2 & repo & _ & H & -> & _).
    apply deploy_steps_Ok in H
      as (wa & wb & wc & wd & e_pre & e_pdf & e_mid & e_ver & e_post & sha
          & -> & _ & _ & _ & Hver & Hrepo & _ & _).
    destruct (verifyPDFsOnPages_Ok hub _ _ _ _ _ Hver c f Hc Hin) as (resp & Hev & Hacc).
    apply check_response_headers
      in Hacc as (Hst & (ctype & Hct & Hpdf) & (len & Hlen & Hlne & Hlt)).
    exists resp, ctype, len. rewrite Hrepo. split.
    { rewrite !in_app_iff. do 5 right. left.
      unfold pdf_url, pages_base, owner in Hev.
      rewrite <- !app_assoc in Hev. exact Hev. }
    repeat (split; [assumption|]).
    intros n Hn. apply (decimal_length len n Hn). exact Hlt.
  - intros resp Hct. cbn [verdict].
    destruct (check_response resp) as [[]|e] eqn:E; [|eauto].
    apply check_response_headers in E as (_ & (ctype & Hc & Hinc) & _).
    rewrite Hct in Hc. injection Hc as <-. vm_compute in Hinc. discriminate Hinc.
  - intros resp. cbn [verdict]. apply check_response_headers.
  - intros resp n Hlen. cbn [verdict]. rewrite check_response_headers.
    destruct (decimal_length _ n eq_refl) as [Hne Hiff].
    split.
    + intros (Hst & Hct & (len & Hl & _ & Hlt)). rewrite Hlen in Hl.
      injection Hl as <-. split; [exact Hst|]. split; [exact Hct|].
      apply Hiff, Hlt.
    + intros (Hst & Hct & Hn). split; [exact Hst|]. split; [exact Hct|].
      exists (dec_of_N n). split; [exact Hlen|]. split; [exact Hne|].
      apply Hiff, Hn.
Qed.
End Deployment.
(* ===================================================================== *)
(** ** Step 7 within a deployment                                         *)
(* ===================================================================== *)

Section UploadStep.
Import Deployer.
Context {R : Type} (hub : Hub R) (ext : Externals).

Lemma slot_commit_present l c type data f bytes :
  slot_names data f -> pdfs l f = File bytes ->
  slot_commit l c type data =
    [(js "pdfs/" ++ f, toString_base64 bytes,
      js "Upload " ++ type ++ js " PDF for " ++ chem_name c)].
Proof.
  intros Hn Hf. apply slot_names_truthy in Hn as [Ht Hd].
  unfold slot_commit. rewrite Ht. cbv zeta. rewrite Hd, Hf. reflexivity.
Qed.

Lemma slot_warning_absent l type data f :
  slot_names data f -> pdfs l f = Absent ->
  slot_warning l type data = [js "⚠️  " ++ type ++ js " PDF not found: " ++ pdf_path l f].
Proof.
  intros Hn Hf. apply slot_names_truthy in Hn as [Ht Hd].
  unfold slot_warning. rewrite Ht. cbv zeta. rewrite Hd, Hf. reflexivity.
Qed.

(** Every chemical of the list, whatever its [active] flag, has the commit
    of each of its documents that is on the local machine among the
    expected ones, and the warning for each that is not. *)
Lemma expected_commits_In l cs c f bytes :
  In c cs -> In f (slot_files c) -> pdfs l f = File bytes ->
  exists type,
    In (js "pdfs/" ++ f, toString_base64 bytes,
        js "Upload " ++ type ++ js " PDF for " ++ chem_name c)
       (expected_commits l cs).
Proof.
  intros Hc Hf Hp. unfold expected_commits.
  apply slot_files_names in Hf as [Hn|Hn]; [exists (js "Literature")|exists (js "SDS")];
    apply in_flat_map; exists c; (split; [exact Hc|]); apply in_or_app; [left|right];
    rewrite (slot_commit_present l c _ _ f bytes Hn Hp); left; reflexivity.
Qed.

Lemma expected_warnings_In l cs c f :
  In c cs -> In f (slot_files c) -> pdfs l f = Absent ->
  exists type,
    In (js "⚠️  " ++ type ++ js " PDF not found: " ++ pdf_path l f)
       (expected_warnings l cs).
Proof.
  intros Hc Hf Hp. unfold expected_warnings.
  apply slot_files_names in Hf as [Hn|Hn]; [exists (js "Literature")|exists (js "SDS")];
    apply in_flat_map; exists c; (split; [exact Hc|]); apply in_or_app; [left|right];
    rewrite (slot_warning_absent l _ _ f Hn Hp); left; reflexivity.
Qed.

(** A missing file is skipped with a warning: the slot ends normally and
    the service is not contacted. *)
Lemma upload_slot_absent (w : World R) repo b c type data f :
  slot_names data f -> pdfs (local w) f = Absent ->
  upload_slot hub repo b c type data w =
    (w, [ConsoleLog (js "🔍 Looking for: " ++ pdf_path (local w) f);
         ConsoleWarn (js "⚠️  " ++ type ++ js " PDF not found: "
                        ++ pdf_path (local w) f)], Ok tt).
Proof.
  intros Hn Hf. apply slot_names_truthy in Hn as [Ht Hd].
  unfold upload_slot. rewrite Ht. cbn [negb]. cbv zeta. rewrite Hd.
  unfold bind at 1. unfold get_local at 1. unfold bind at 1. unfold emit at 1.
  rewrite Hf. reflexivity.
Qed.

(** A file that is there is read as it is and sent through
    [safeUploadBinary]. *)
Lemma upload_slot_present (w : World R) repo b c type data f bytes :
  slot_names data f -> pdfs (local w) f = File bytes ->
  upload_slot hub repo b c type data w =
    (emit (ConsoleLog (js "🔍 Looking for: " ++ pdf_path (local w) f)) ;;;
     emit (ConsoleLog (js "⬆️  Uploading " ++ type ++ js ": " ++ f
                         ++ js " to branch " ++ b)) ;;;
     safeUploadBinary hub owner repo b (js "pdfs/" ++ f) bytes
       (js "Upload " ++ type ++ js " PDF for " ++ chem_name c) ;;;
     emit (ConsoleLog (js "✅ Uploaded " ++ type ++ js ": " ++ f))) w.
Proof.
  intros Hn Hf. apply slot_names_truthy in Hn as [Ht Hd].
  unfold upload_slot. rewrite Ht. cbn [negb]. cbv zeta. rewrite Hd.
  unfold bind, get_local, emit, lift_result. cbv beta iota zeta.
  rewrite Hf. unfold readFileSync. cbv beta iota zeta.
  destruct (safeUploadBinary hub owner repo b (js "pdfs/" ++ f) bytes _ w)
    as [[w1 e1] [[]|e]]; reflexivity.
Qed.

Lemma done_so_far_Ok {A B} (a : A) (expected actual : list B) :
  done_so_far (Ok a) expected actual -> actual = expected.
Proof.
  intros (rest & -> & H). rewrite (H a eq_refl). symmetry. apply app_nil_r.
Qed.

(** Step 7 as the code has it.  In a deployment that ends normally, step 7
    runs over every chemical of the configuration, removed ones included
    (the loop has no [active] filter), and over its two document slots,
    literature first.  A slot whose file is missing on the
    local machine is skipped with a warning, the step goes on normally and
    the service is not contacted for it; a file that is there is read as it
    is and sent through [safeUploadBinary] to [pdfs/<filename>] on the
    branch of the deployment, its bytes encoded once.  The commits of the
    step are exactly those owed for the files that are there, in order, and
    its warnings exactly those owed for the files that are missing. *)
Lemma upload_documents_spec (w w' : World R) (cfg : CustomerConfig)
    (evs : list event) (res : DeployResult) :
  deployCustomerSite hub ext cfg w = (w', evs, Ok res) ->
  let repo := repo_name (repository res) in
  let b := branch_of (repository res) in
  exists w1 w2 e_pre e_pdf e_post,
    evs = e_pre ++ e_pdf ++ e_post
    /\ local w1 = local w
    /\ uploadPDFs hub repo b (chemicals cfg) w1 = (w2, e_pdf, Ok tt)
    /\ map commit_of (puts e_pdf) = expected_commits (local w) (chemicals cfg)
    /\ warnings e_pdf = expected_warnings (local w) (chemicals cfg)
    /\ Forall (fun a => put_owner a = owner /\ put_repo a = repo /\ put_branch a = b)
              (puts e_pdf)
    /\ (forall c f, In c (chemicals cfg) -> In f (slot_files c) ->
          (pdfs (local w) f = Absent ->
           exists type,
             In (js "⚠️  " ++ type ++ js " PDF not found: " ++ pdf_path (local w) f)
                (warnings e_pdf))
          /\ (forall bytes, pdfs (local w) f = File bytes ->
              exists a, In a (puts e_pdf) /\ put_path a = js "pdfs/" ++ f
                        /\ put_content a = toString_base64 bytes))
    /\ (forall (w0 : World R) c type data f,
          slot_names data f -> pdfs (local w0) f = Absent ->
          upload_slot hub repo b c type data w0 =
            (w0, [ConsoleLog (js "🔍 Looking for: " ++ pdf_path (local w0) f);
                  ConsoleWarn (js "⚠️  " ++ type ++ js " PDF not found: "
                                 ++ pdf_path (local w0) f)], Ok tt))
    /\ (forall (w0 : World R) c type data f bytes,
          slot_names data f -> pdfs (local w0) f = File bytes ->
          upload_slot hub repo b c type data w0 =
            (emit (ConsoleLog (js "🔍 Looking for: " ++ pdf_path (local w0) f)) ;;;
             emit (ConsoleLog (js "⬆️  Uploading " ++ type ++ js ": " ++ f
                                 ++ js " to branch " ++ b)) ;;;
             safeUploadBinary hub owner repo b (js "pdfs/" ++ f) bytes
               (js "Upload " ++ type ++ js " PDF for " ++ chem_name c) ;;;
             emit (ConsoleLog (js "✅ Uploaded " ++ type ++ js ": " ++ f))) w0).
Proof.
  intros H repo b.
  apply deployCustomerSite_Ok in H as (w1 & e0 & e1 & e2 & repo' & _ & H & -> & L1).
  apply deploy_steps_Ok in H
    as (wa & wb & wc & wd & e_pre & e_pdf & e_mid & e_ver & e_post & sha
        & -> & La & _ & Hpdf & _ & Hrepo & _ & _).
  subst repo b. rewrite Hrepo.
  pose proof (uploadPDFs_spec hub _ _ _ _ _ _ _ Hpdf) as (_ & Hc & Hw & Hp).
  apply done_so_far_Ok in Hc. apply done_so_far_Ok in Hw.
  assert (Hl : local wa = local w) by congruence. rewrite Hl in Hc, Hw.
  exists wa, wb, (e0 ++ e1 ++ e_pre), e_pdf, (e_mid ++ e_ver ++ e_post).
  split; [rewrite <- !app_assoc; reflexivity|].
  split; [exact Hl|]. split; [exact Hpdf|]. split; [exact Hc|]. split; [exact Hw|].
  split; [exact Hp|]. split; [|split].
  - intros c f Hin Hf. split.
    + intros Habs. rewrite Hw. eapply expected_warnings_In; eassumption.
    + intros bytes Hfile.
      destruct (expected_commits_In (local w) _ c f bytes Hin Hf Hfile) as (type & Hexp).
      rewrite <- Hc in Hexp. apply in_map_iff in Hexp as (a & Ha & Hina).
      exists a. split; [exact Hina|]. unfold commit_of in Ha.
      injection Ha as Hpath Hcontent _. auto.
  - intros w0 c type data f. apply upload_slot_absent.
  - intros w0 c type data f bytes. apply upload_slot_present.
Qed.

End UploadStep.
(* ===================================================================== *)
(** ** Creating or reusing the repository                                 *)
(* ===================================================================== *)

Section CreateRepository.
Import Deployer.
Context {R : Type} (hub : Hub R) (ext : Externals).




End CreateRepository.
(* ===================================================================== *)
(** ** The deployment on the simulated service                            *)
(* ===================================================================== *)

Section DeploymentExamples.
Import Deployer.

(** The demonstration customer with one active and one removed chemical,
    all four PDFs on the local machine, deployed to an empty account. *)
Lemma deployment_counts_differ_witness :
  let cfg := Sample.config [Sample.bowl_cleaner; Sample.glass_cleaner] in
  let w := Sample.world Sim.empty (chemicals cfg) Sample.all_pdfs [] in
  exists w' evs res,
    deployCustomerSite Sim.hub Sim.ext cfg w = (w', evs, Ok res)
    /\ total_chemicals (deployment_info res) = length (chemicals cfg)
    /\ (length (List.filter chem_active (chemicals cfg))
        < total_chemicals (deployment_info res))%nat.
Proof.
  intros cfg w.
  assert (Hok : match snd (deployCustomerSite Sim.hub Sim.ext cfg w) with
                | Ok _ => True
                | Throw _ => False
                end) by (vm_compute; exact I).
  destruct (deployCustomerSite Sim.hub Sim.ext cfg w) as [[w' evs] [res|e]] eqn:Hrun;
    [|destruct Hok].
  exists w', evs, res. split; [reflexivity|].
  destruct (deployment_counts_differ Sim.hub Sim.ext w w' cfg evs res Hrun)
    as (Htotal & _ & _ & Hlt).
  split; [exact Htotal|]. apply Hlt.
  exists Sample.glass_cleaner. split; [right; left; reflexivity|reflexivity].
Defined.

(** The numbers of that deployment: the result counts 2 chemicals, the
    README reports 1 product. *)
Example deployment_counts_example :
  let cfg := Sample.config [Sample.bowl_cleaner; Sample.glass_cleaner] in
  let w := Sample.world Sim.empty (chemicals cfg) Sample.all_pdfs [] in
  match snd (deployCustomerSite Sim.hub Sim.ext cfg w) with
  | Ok res => total_chemicals (deployment_info res) = 2%nat
  | Throw _ => False
  end
  /\ includes (generateReadme (local w) cfg) (js "- **Total Products**: 1
- **Total Documents**: 2 (Literature + SDS per product)") = true.
Proof. vm_compute. split; reflexivity. Qed.

(** The same deployment: the literature of the bowl cleaner was requested
    at its address and accepted.  Without the PDFs on the local machine
    nothing is uploaded, the site answers 404 and the deployment throws the
    error that names the address. *)
Lemma verification_gate_witness :
  let cfg := Sample.config [Sample.bowl_cleaner; Sample.glass_cleaner] in
  let w := Sample.world Sim.empty (chemicals cfg) Sample.all_pdfs [] in
  let w0 := Sample.world Sim.empty (chemicals cfg) [] [] in
  (exists w' evs res resp ctype len,
     Deployer.deployCustomerSite Sim.hub Sim.ext cfg w = (w', evs, Ok res)
     /\ In (Head (js "https://rascoused.github.io/"
                  ++ repo_name (Deployer.repository res)
                  ++ js "/pdfs/" ++ js "302_dt_bowl_cleaner_literature.pdf")
                 (Ok resp)) evs
     /\ (200 <= res_status resp <= 299)%Z
     /\ res_content_type resp = Some ctype
     /\ includes ctype (js "pdf") = true
     /\ res_content_length resp = Some len
     /\ lt (parseInt len) (Num 1024) = false)
  /\ snd (Deployer.deployCustomerSite Sim.hub Sim.ext cfg w0)
     = Throw (Error (js "Verification failed for https://rascoused.github.io/sqzr-demo-ghs-binder/pdfs/302_dt_bowl_cleaner_literature.pdf: HTTP 404")).
Proof.
  intros cfg w w0. split.
  - assert (Hok : match snd (Deployer.deployCustomerSite Sim.hub Sim.ext cfg w) with
                  | Ok _ => True
                  | Throw _ => False
                  end) by (vm_compute; exact I).
    destruct (Deployer.deployCustomerSite Sim.hub Sim.ext cfg w)
      as [[w' evs] [res|e]] eqn:Hrun; [|destruct Hok].
    destruct (verification_gate Sim.hub Sim.ext w w' cfg evs (Ok res) Hrun)
      as (_ & Hall & _).
    destruct (Hall res eq_refl Sample.bowl_cleaner
                (Sample.doc (js "302_dt_bowl_cleaner_literature.pdf")
                   (js "HUSKY® 302 D/T BOWL CLEANER Product Literature"))
                (js "302_dt_bowl_cleaner_literature.pdf"))
      as (resp & ctype & len & H1 & H2 & H3 & H4 & H5 & _ & H6 & _).
    + left. reflexivity.
    + left. reflexivity.
    + reflexivity.
    + discriminate.
    + exists w', evs, res, resp, ctype, len.
      split; [reflexivity|]. split; [exact H1|]. split; [exact H2|].
      split; [exact H3|]. split; [exact H4|]. split; [exact H5|exact H6].
  - pose (resp := {| res_status := 404;
                     res_content_type := Some (js "text/html; charset=utf-8");
                     res_content_length := Some (js "9115") |}).
    pose (url := js "https://rascoused.github.io/sqzr-demo-ghs-binder/pdfs/302_dt_bowl_cleaner_literature.pdf").
    assert (Hin : In (Head url (Ok resp))
                     (snd (fst (Deployer.deployCustomerSite Sim.hub Sim.ext cfg w0))))
      by (vm_compute; repeat (first [left; reflexivity | right])).
    destruct (Deployer.deployCustomerSite Sim.hub Sim.ext cfg w0)
      as [[w' evs] r] eqn:Hrun.
    destruct (verification_gate Sim.hub Sim.ext w0 w' cfg evs r Hrun) as (Hfail & _).
    assert (Hv : verdict (Ok resp) = Throw (Error (js "HTTP 404")))
      by (vm_compute; reflexivity).
    cbn [snd]. rewrite (Hfail url (Ok resp) _ Hin Hv).
    vm_compute. reflexivity.
Defined.

(** A page served as HTML is rejected whatever its status and size. *)
Example verification_rejects_html :
  check_response {| res_status := 200; res_content_type := Some (js "text/html");
                    res_content_length := Some (js "50000") |}
  = Throw (Error (js "Unexpected type/size: text/html, 50000 bytes")).
Proof. vm_compute. reflexivity. Qed.

(** A length of exactly 1024 passes, 1023 does not. *)
Example verification_size_threshold :
  check_response {| res_status := 200; res_content_type := Some (js "application/pdf");
                    res_content_length := Some (js "1024") |} = Ok tt
  /\ check_response {| res_status := 200; res_content_type := Some (js "application/pdf");
                       res_content_length := Some (js "1023") |}
     = Throw (Error (js "Unexpected type/size: application/pdf, 1023 bytes"))
  /\ check_response {| res_status := 200; res_content_type := Some (js "application/pdf");
                       res_content_length := None |}
     = Throw (Error (js "Unexpected type/size: application/pdf, 0 bytes")).
Proof. vm_compute. repeat split. Qed.

(** A Content-Length that is not a number passes the size check: [parseInt]
    yields [NaN], and [NaN < 1024] is false. *)
Example verification_length_not_a_number :
  check_response {| res_status := 200; res_content_type := Some (js "application/pdf");
                    res_content_length := Some (js "abc") |} = Ok tt.
Proof. vm_compute. reflexivity. Qed.

(** When the PDFs are not on the local machine nothing is uploaded, the
    site answers 404 for the first document and the deployment fails with
    the error that names its URL. *)
Example verification_failure_aborts :
  let cfg := Sample.config [Sample.bowl_cleaner] in
  let w := Sample.world Sim.empty (chemicals cfg) [] [] in
  snd (deployCustomerSite Sim.hub Sim.ext cfg w)
  = Throw (Error (js "Verification failed for https://rascoused.github.io/sqzr-demo-ghs-binder/pdfs/302_dt_bowl_cleaner_literature.pdf: HTTP 404"))
  /\ warnings (snd (fst (deployCustomerSite Sim.hub Sim.ext cfg w)))
     = [js "⚠️  Literature PDF not found: /opt/ghs/pdfs/302_dt_bowl_cleaner_literature.pdf";
        js "⚠️  SDS PDF not found: /opt/ghs/pdfs/302_dt_bowl_cleaner_sds.pdf"].
Proof. vm_compute. split; reflexivity. Qed.


(** The same deployment: the documents of both chemicals are committed, the
    removed one included. *)
Lemma upload_documents_spec_witness :
  let cfg := Sample.config [Sample.bowl_cleaner; Sample.glass_cleaner] in
  let w := Sample.world Sim.empty (chemicals cfg) Sample.all_pdfs [] in
  exists w' evs res e_pdf,
    deployCustomerSite Sim.hub Sim.ext cfg w = (w', evs, Ok res)
    /\ map commit_of (puts e_pdf) = expected_commits (local w) (chemicals cfg)
    /\ warnings e_pdf = expected_warnings (local w) (chemicals cfg)
    /\ incl e_pdf evs.
Proof.
  intros cfg w.
  assert (Hok : match snd (deployCustomerSite Sim.hub Sim.ext cfg w) with
                | Ok _ => True
                | Throw _ => False
                end) by (vm_compute; exact I).
  destruct (deployCustomerSite Sim.hub Sim.ext cfg w) as [[w' evs] [res|e]] eqn:Hrun;
    [|destruct Hok].
  destruct (upload_documents_spec Sim.hub Sim.ext w w' cfg evs res Hrun)
    as (w1 & w2 & e_pre & e_pdf & e_post & Hevs & _ & _ & Hc & Hw & _).
  exists w', evs, res, e_pdf. split; [reflexivity|].
  split; [exact Hc|]. split; [exact Hw|].
  rewrite Hevs. apply incl_appr, incl_appl, incl_refl.
Defined.

(** What step 7 commits in that deployment, and what it warns about when
    the PDFs of the removed chemical are not on the local machine. *)
Example upload_documents_example :
  let cfg := Sample.config [Sample.bowl_cleaner; Sample.glass_cleaner] in
  map fst (map fst (expected_commits (Sample.machine Sample.all_pdfs []) (chemicals cfg)))
  = [js "pdfs/302_dt_bowl_cleaner_literature.pdf"; js "pdfs/302_dt_bowl_cleaner_sds.pdf";
     js "pdfs/glass_lit.pdf"; js "pdfs/glass_sds.pdf"]
  /\ expected_warnings
       (Sample.machine [js "302_dt_bowl_cleaner_literature.pdf";
                        js "302_dt_bowl_cleaner_sds.pdf"] []) (chemicals cfg)
     = [js "⚠️  Literature PDF not found: /opt/ghs/pdfs/glass_lit.pdf";
        js "⚠️  SDS PDF not found: /opt/ghs/pdfs/glass_sds.pdf"].
Proof. vm_compute. split; reflexivity. Qed.

(** C1. The deployment at a configuration with a removed chemical.  The
    demonstration customer has one active chemical and one that was removed
    (inactive, with its deactivation date).  With all four PDFs on the local
    machine the deployment ends normally and has committed, under [pdfs/],
    the two documents of the removed chemical after those of the active one:
    documents that no active chemical references are uploaded.  With only
    the PDFs of the active chemical on the local machine, the two slots of
    the removed chemical are skipped with a warning, but the verification
    asks for them all the same and the deployment fails on the first; the
    same machine deploys the configuration without the removed record. *)
Lemma deploy_uploads_inactive_documents :
  let cfg := Sample.config [Sample.bowl_cleaner; Sample.glass_cleaner] in
  let bowl_pdfs := [js "302_dt_bowl_cleaner_literature.pdf";
                    js "302_dt_bowl_cleaner_sds.pdf"] in
  let all_there :=
    deployCustomerSite Sim.hub Sim.ext cfg
      (Sample.world Sim.empty (chemicals cfg) Sample.all_pdfs []) in
  let removed_gone :=
    deployCustomerSite Sim.hub Sim.ext cfg
      (Sample.world Sim.empty (chemicals cfg) bowl_pdfs []) in
  let without_record :=
    deployCustomerSite Sim.hub Sim.ext (Sample.config [Sample.bowl_cleaner])
      (Sample.world Sim.empty [Sample.bowl_cleaner] bowl_pdfs []) in
  List.filter chem_active (chemicals cfg) = [Sample.bowl_cleaner]
  /\ (exists res, snd all_there = Ok res)
  /\ map put_path (List.filter (fun a => startsWith (put_path a) (js "pdfs/"))
                     (puts (snd (fst all_there))))
     = [js "pdfs/.gitkeep";
        js "pdfs/302_dt_bowl_cleaner_literature.pdf"; js "pdfs/302_dt_bowl_cleaner_sds.pdf";
        js "pdfs/glass_lit.pdf"; js "pdfs/glass_sds.pdf"]
  /\ ~ only_active_uploaded cfg (snd (fst all_there))
  /\ snd removed_gone
     = Throw (Error (js "Verification failed for https://rascoused.github.io/sqzr-demo-ghs-binder/pdfs/glass_lit.pdf: HTTP 404"))
  /\ (exists res, snd without_record = Ok res).
Proof.
  intros cfg bowl_pdfs all_there removed_gone without_record.
  assert (Hpaths :
    map put_path (List.filter (fun a => startsWith (put_path a) (js "pdfs/"))
                     (puts (snd (fst all_there))))
     = [js "pdfs/.gitkeep";
        js "pdfs/302_dt_bowl_cleaner_literature.pdf"; js "pdfs/302_dt_bowl_cleaner_sds.pdf";
        js "pdfs/glass_lit.pdf"; js "pdfs/glass_sds.pdf"]) by (vm_compute; reflexivity).
  split; [reflexivity|]. split; [vm_compute; eexists; reflexivity|].
  split; [exact Hpaths|]. split; [|split].
  - intros H. destruct (H (js "glass_lit.pdf")) as (c & Hc & Hact & Hf).
    + vm_compute. repeat (first [left; reflexivity | right]).
    + intros E. vm_compute in E. discriminate E.
    + destruct Hc as [<-|[<-|[]]]; [|discriminate Hact].
      vm_compute in Hf. destruct Hf as [E|[E|[]]]; discriminate E.
  - vm_compute. reflexivity.
  - vm_compute. eexists. reflexivity.
Qed.


(** That deployment ends normally, reports the existing repository, and
    every commit and the Pages request name [master]. *)
Example createRepository_conflict_example :
  let cfg := Sample.config [Sample.bowl_cleaner] in
  let w := Sample.world Sample.existing (chemicals cfg) Sample.all_pdfs [] in
  let run := deployCustomerSite Sim.hub Sim.ext cfg w in
  match snd run with
  | Ok res => repository res = Sample.existing_repo
  | Throw _ => False
  end
  /\ forallb (fun a => str_eqb (put_branch a) (js "master")) (puts (snd (fst run))) = true
  /\ existsb (fun e => match e with
                       | CreatePages _ _ b _ (Ok _) => str_eqb b (js "master")
                       | _ => false
                       end) (snd (fst run)) = true.
Proof. vm_compute. repeat split. Qed.

(** During an outage the creation request answers 500 and the deployment
    fails with that error. *)
Example createRepository_outage :
  let cfg := Sample.config [Sample.bowl_cleaner] in
  let w := Sample.world Sim.empty (chemicals cfg) Sample.all_pdfs [] in
  snd (deployCustomerSite Sim.outage Sim.ext cfg w) = Throw Sim.outage_error.
Proof. vm_compute. reflexivity. Qed.

(** The page of a configuration with a removed chemical is the page of the
    configuration without it. *)
Example generateHTML_example :
  let cfg := Sample.config [Sample.bowl_cleaner; Sample.glass_cleaner] in
  let w := Sample.world Sim.empty (chemicals cfg) [] [] in
  TOTAL_PRODUCTS (templateData Sim.ext (local w) cfg) = 1%nat
  /\ TOTAL_DOCUMENTS (templateData Sim.ext (local w) cfg) = 2%nat
  /\ snd (generateHTML Sim.ext cfg w)
     = snd (generateHTML Sim.ext (Sample.config [Sample.bowl_cleaner]) w).
Proof. vm_compute. repeat split. Qed.

(** The page of the demonstration customer with its removed chemical:
    one product, two documents, and the page of the configuration without
    the removed chemical. *)
Lemma generateHTML_active_only_witness :
  let cfg := Sample.config [Sample.bowl_cleaner; Sample.glass_cleaner] in
  let w := Sample.world Sim.empty (chemicals cfg) [] [] in
  (exists data,
     snd (Deployer.generateHTML Sim.ext cfg w)
     = Ok (mustache_render Sim.ext (js "<html><body>{{CUSTOMER_NAME}}</body></html>") data)
     /\ TOTAL_PRODUCTS data = 1%nat
     /\ TOTAL_DOCUMENTS data = 2%nat
     /\ PRODUCTS_JSON data = JSON_stringify_chemicals Sim.ext [Sample.bowl_cleaner])
  /\ Deployer.generateHTML Sim.ext (Sample.config [Sample.bowl_cleaner]) w
     = Deployer.generateHTML Sim.ext cfg w.
Proof.
  intros cfg w.
  destruct (generateHTML_active_only Sim.ext cfg w
              (js "<html><body>{{CUSTOMER_NAME}}</body></html>") eq_refl)
    as (_ & (data & Hrun & Hp & Hd & Hj) & Hsame).
  split.
  - exists data. rewrite Hrun. split; [reflexivity|].
    split; [exact Hp|]. split; [exact Hd|exact Hj].
  - exact (Hsame [Sample.bowl_cleaner] eq_refl).
Defined.

End DeploymentExamples.

(* ===================================================================== *)
(** ** Further properties: strings                                       *)
(* ===================================================================== *)

Section StringLemmas.

Lemma startsWith_spec s : forall p,
  startsWith s p = true <-> exists r, s = p ++ r.
Proof.
  induction s as [|d s IH]; intros [|c p]; cbn [startsWith].
  - split; [exists []; reflexivity|reflexivity].
  - split; [discriminate|intros [r H]; discriminate H].
  - split; [exists (d :: s); reflexivity|reflexivity].
  - rewrite andb_true_iff, N.eqb_eq, IH. split.
    + intros [-> [r ->]]. exists r. reflexivity.
    + intros [r [= -> ->]]. split; [reflexivity|exists r; reflexivity].
Qed.

Lemma endsWith_spec s p :
  endsWith s p = true <-> exists stem, s = stem ++ p.
Proof.
  unfold endsWith. rewrite startsWith_spec. split.
  - intros [r H]. exists (rev r).
    rewrite <- (rev_involutive s), H, rev_app_distr, rev_involutive. reflexivity.
  - intros [stem ->]. exists (rev stem). apply rev_app_distr.
Qed.

Lemma includes_app a p b : includes (a ++ p ++ b) p = true.
Proof.
  induction a as [|c a IH].
  - destruct (p ++ b) eqn:E; cbn [app includes]; rewrite <- ?E;
      apply orb_true_iff; left; apply startsWith_spec; exists b; auto.
  - cbn [app includes]. apply orb_true_iff. right. exact IH.
Qed.

Lemma includes_spec s p :
  includes s p = true <-> exists a b, s = a ++ p ++ b.
Proof.
  split.
  - induction s as [|c s IH]; cbn [includes]; intros H;
      apply orb_true_iff in H as [H|H].
    + apply startsWith_spec in H as [r ->]. exists [], r. reflexivity.
    + discriminate H.
    + apply startsWith_spec in H as [r ->]. exists [], r. reflexivity.
    + destruct (IH H) as (a & b & ->). exists (c :: a), b. reflexivity.
  - intros (a & b & ->). apply includes_app.
Qed.

Lemma includes_within a s b p :
  includes s p = true -> includes (a ++ s ++ b) p = true.
Proof.
  rewrite !includes_spec. intros (a' & b' & ->).
  exists (a ++ a'), (b' ++ b). rewrite <- !app_assoc. reflexivity.
Qed.

End StringLemmas.

(* ===================================================================== *)
(** ** Further properties of the chemical ids                            *)
(* ===================================================================== *)

Section Identifiers.
Import ChemicalManager.

Lemma strip_other_no_hyphen s : Forall (fun c => c <> 45) (strip_other s).
Proof.
  eapply Forall_impl; [apply strip_other_chars|].
  intros c Hc ->. vm_compute in Hc. discriminate Hc.
Qed.

Lemma hyphenate_no_double s : forall in_run,
  Forall (fun c => c <> 45) s ->
  no_double_hyphen (hyphenate in_run s)
  /\ (in_run = true -> forall r, hyphenate in_run s <> 45 :: r).
Proof.
  induction s as [|c s IH]; intros in_run Hs; simpl.
  - split; [exact I|]. intros _ r H. discriminate H.
  - inversion Hs as [|? ? Hc Hs']; subst.
    destruct (is_space c) eqn:Esp.
    + destruct in_run.
      * apply IH; assumption.
      * destruct (IH true Hs') as [H1 H2]. split; [|intros H; discriminate H].
        simpl. split; [|exact H1].
        destruct (hyphenate true s) as [|b r] eqn:E; [exact I|].
        intros [_ ->]. exact (H2 eq_refl r eq_refl).
    + destruct (IH false Hs') as [H1 _]. split.
      * simpl. split; [|exact H1].
        destruct (hyphenate false s); [exact I|]. intros [-> _]. exact (Hc eq_refl).
      * intros _ r H. injection H as -> _. exact (Hc eq_refl).
Qed.

Lemma no_double_hyphen_take s : forall n,
  no_double_hyphen s -> no_double_hyphen (take n s).
Proof.
  induction s as [|a s IH]; intros [|n] H; simpl; try exact I.
  destruct H as [H1 H2]. split; [|apply IH; exact H2].
  destruct s as [|b s']; [destruct n; exact I|].
  destruct n; [exact I|exact H1].
Qed.

Lemma no_double_hyphen_includes s :
  no_double_hyphen s -> includes s (js "--") = false.
Proof.
  change (js "--") with [45; 45].
  induction s as [|a s IH]; intros H; [reflexivity|].
  destruct H as [H1 H2].
  cbn [includes]. rewrite (IH H2), orb_false_r.
  destruct s as [|b s']; cbn [startsWith].
  - apply andb_false_r.
  - destruct (45 =? a) eqn:Ea; [|reflexivity].
    destruct (45 =? b) eqn:Eb; [|reflexivity].
    apply N.eqb_eq in Ea, Eb. exfalso. apply H1. split; congruence.
Qed.

(** X1. The id derived from a name never contains two consecutive
    hyphens: punctuation, hyphens included, is removed before every run of
    white space becomes one hyphen. *)
Theorem generateChemicalId_no_double_hyphen (ext : Externals) (name : jsstr) :
  includes (generateChemicalId ext name) (js "--") = false.
Proof.
  apply no_double_hyphen_includes. unfold generateChemicalId.
  apply no_double_hyphen_take.
  apply (hyphenate_no_double _ false), strip_other_no_hyphen.
Qed.

Lemma strip_other_id_chars s :
  Forall id_char s -> strip_other s = without_hyphens s.
Proof.
  unfold strip_other, without_hyphens.
  induction 1 as [|c s Hc _ IH]; [reflexivity|].
  cbn [List.filter]. rewrite IH.
  assert (is_lower c || is_digit c || is_space c = negb (c =? 45)) as ->;
    [|reflexivity].
  destruct Hc as [Hc | [Hc | ->]]; [| |reflexivity].
  - replace (is_lower c) with true
      by (symmetry; apply andb_true_iff; split; apply N.leb_le; lia).
    replace (c =? 45) with false by (symmetry; apply N.eqb_neq; lia).
    reflexivity.
  - replace (is_digit c) with true
      by (symmetry; apply andb_true_iff; split; apply N.leb_le; lia).
    replace (c =? 45) with false by (symmetry; apply N.eqb_neq; lia).
    apply orb_true_iff. left. apply orb_true_r.
Qed.

Lemma hyphenate_no_space s : forall in_run,
  Forall (fun c => is_space c = false) s -> hyphenate in_run s = s.
Proof.
  induction s as [|c s IH]; intros in_run H; [reflexivity|].
  inversion H as [|? ? Hc Hs]; subst. simpl. rewrite Hc, (IH false Hs). destruct in_run; reflexivity.
Qed.

Lemma id_char_not_space c : id_char c -> is_space c = false.
Proof.
  intros [H | [H | ->]]; [| |reflexivity];
    unfold is_space;
    repeat (apply orb_false_iff; split);
    try (apply N.eqb_neq; lia);
    apply andb_false_iff; first [left; apply N.leb_gt; lia | right; apply N.leb_gt; lia].
Qed.

Lemma generateChemicalId_id_chars (ext : Externals) (name : jsstr) :
  Forall id_char (generateChemicalId ext name)
  /\ (length (generateChemicalId ext name) <= 50)%nat.
Proof.
  unfold generateChemicalId. split.
  - apply Forall_take, hyphenate_chars, strip_other_chars.
  - rewrite length_take. lia.
Qed.

(** X2. Deriving an id from an id does not give the id back: when the
    case mapping leaves the id as it is (it has only lowercase letters,
    digits and hyphens), the second derivation removes its hyphens and
    changes nothing else.  An id is a name for itself only when it has no
    hyphen. *)
Theorem generateChemicalId_twice (ext : Externals) (name : jsstr) :
  toLowerCase ext (generateChemicalId ext name) = generateChemicalId ext name ->
  generateChemicalId ext (generateChemicalId ext name)
  = without_hyphens (generateChemicalId ext name).
Proof.
  intros Hlow.
  destruct (generateChemicalId_id_chars ext name) as [Hid Hlen].
  set (i := generateChemicalId ext name) in *.
  unfold generateChemicalId at 1. rewrite Hlow.
  rewrite (strip_other_id_chars _ Hid).
  assert (Hf : Forall id_char (without_hyphens i)).
  { unfold without_hyphens. apply List.Forall_forall. intros c Hc.
    apply List.filter_In in Hc as [Hc _].
    exact (proj1 (List.Forall_forall _ _) Hid c Hc). }
  rewrite hyphenate_no_space.
  - apply take_ge. unfold without_hyphens.
    pose proof (List.filter_length_le (fun c => negb (c =? 45)) i). lia.
  - eapply Forall_impl; [exact Hf|]. intros c. apply id_char_not_space.
Qed.

End Identifiers.

(** The id of the demonstration chemical, derived again. *)
Lemma generateChemicalId_twice_witness :
  ChemicalManager.generateChemicalId Sim.ext
    (ChemicalManager.generateChemicalId Sim.ext (js "302 D/T Bowl Cleaner"))
  = js "302dtbowlcleaner"
  /\ ChemicalManager.generateChemicalId Sim.ext
       (ChemicalManager.generateChemicalId Sim.ext (js "302 D/T Bowl Cleaner"))
     = without_hyphens
         (ChemicalManager.generateChemicalId Sim.ext (js "302 D/T Bowl Cleaner")).
Proof.
  split; [vm_compute; reflexivity|].
  apply generateChemicalId_twice. vm_compute. reflexivity.
Defined.

(* ===================================================================== *)
(** ** Further properties of the chemical registry                       *)
(* ===================================================================== *)

Section RegistryOperations.
Import Deployer ChemicalManager.
Context {R : Type} (hub : Hub R) (ext : Externals).

Lemma findIndex_not_In id (cs : list ChemicalRecord) :
  ~ In id (map chem_id cs) -> findIndex (has_id id) cs = None.
Proof.
  intros H. destruct (findIndex (has_id id) cs) as [i|] eqn:E; [|reflexivity].
  destruct (findIndex_Some _ _ _ E) as (c & Hc & Hp & _).
  apply has_id_true in Hp. exfalso. apply H. apply in_map_iff. exists c.
  split; [exact Hp|]. apply list_elem_of_In. eapply list_elem_of_lookup_2. exact Hc.
Qed.

Lemma In_insert (cs : list ChemicalRecord) : forall i c' x,
  In x (<[i := c']> cs) -> x = c' \/ In x cs.
Proof.
  induction cs as [|a cs IH]; intros [|i] c' x; simpl; try tauto.
  - intros [<-|H]; auto.
  - intros [<-|H]; auto. destruct (IH _ _ _ H); auto.
Qed.

Lemma filter_partition_length {A} (p : A -> bool) (l : list A) :
  (length (List.filter p l) + length (List.filter (fun x => negb (p x)) l)
   = length l)%nat.
Proof.
  induction l as [|a l IH]; [reflexivity|]. cbn [List.filter].
  destruct (p a); simpl; lia.
Qed.

(** X3. [validateChemicalData] accepts chemical data exactly when its
    name is truthy (it is there and not empty: the check is [!name], which
    looks at nothing else of the name) and its two documents each name a
    file whose name ends with [.pdf], in these very letters. *)
Theorem validateChemicalData_accepts (chemicalData : ChemicalInput) :
  validateChemicalData chemicalData = Ok tt
  <-> truthy (in_name chemicalData) = true
      /\ names_pdf (in_literature chemicalData)
      /\ names_pdf (in_sds chemicalData).
Proof.
  unfold validateChemicalData, names_pdf.
  destruct (in_name chemicalData) as [[|c name]|]; cbn [truthy];
    try (split; [destruct (present _), (present _); discriminate
                |intros [[=] _]]).
  destruct (in_literature chemicalData) as [lit|]; cbn [present app];
    [|split; [destruct (present _); discriminate|intros (_ & (? & [=]) & _)]].
  destruct (in_sds chemicalData) as [sds|]; cbn [present app];
    [|split; [discriminate|intros (_ & _ & (? & [=]))]].
  cbn [slot_filename].
  destruct (doc_filename lit) as [[|a f]|]; cbn [truthy negb orb or_default];
    try (split; [discriminate|intros (_ & (stem & [= H]) & _)];
         destruct stem; discriminate H).
  destruct (doc_filename sds) as [[|b g]|]; cbn [truthy negb orb or_default];
    try (split; [discriminate|intros (_ & _ & (stem & [= H]))];
         destruct stem; discriminate H).
  destruct (endsWith (a :: f) (js ".pdf")) eqn:E1; cbn [negb].
  - destruct (endsWith (b :: g) (js ".pdf")) eqn:E2; cbn [negb].
    + apply endsWith_spec in E1 as [s1 E1], E2 as [s2 E2]. split; [|reflexivity].
      intros _. split; [reflexivity|]. split; [exists s1|exists s2]; congruence.
    + split; [discriminate|]. intros (_ & _ & (stem & [= H])).
      assert (endsWith (b :: g) (js ".pdf") = true) by (apply endsWith_spec; eauto).
      congruence.
  - split; [discriminate|]. intros (_ & (stem & [= H]) & _).
    assert (endsWith (a :: f) (js ".pdf") = true) by (apply endsWith_spec; eauto).
    congruence.
Qed.

(** X4. Chemical data that [validateChemicalData] rejects is never
    stored and never deployed: [addChemical] prints its two lines, leaves the
    world as it is and throws the validation error. *)
Theorem addChemical_rejects (w : World R) (slug : jsstr)
    (chemicalData : ChemicalInput) (cfg : CustomerConfig) (e : JsError) :
  configs w !! slug = Some cfg ->
  validateChemicalData chemicalData = Throw e ->
  addChemical hub ext slug chemicalData w =
    (w,
     [ConsoleLog (js "🧪 Adding chemical " ++ dquote
                    ++ show_name (in_name chemicalData) ++ dquote ++ js " to "
                    ++ slug ++ js "...");
      ConsoleError (js "❌ Failed to add chemical: " ++ err_message e)],
     Throw e).
Proof.
  intros Hcfg Hval.
  unfold addChemical, try_catch, bind, emit, loadCustomerConfig, lift_result, throw.
  rewrite Hcfg, Hval. reflexivity.
Qed.

(** X5. An id that no record of the list has: [removeChemical] and
    [updateChemical] throw [Chemical "<id>" not found] after their two
    console lines; nothing is written and no request is sent. *)
Theorem unknown_chemical_id (w : World R) (slug id : jsstr)
    (updates : ChemicalInput) (cfg : CustomerConfig) :
  configs w !! slug = Some cfg ->
  ~ In id (map chem_id (chemicals cfg)) ->
  removeChemical hub ext slug id w =
    (w,
     [ConsoleLog (js "🗑️ Removing chemical " ++ dquote ++ id ++ dquote
                    ++ js " from " ++ slug ++ js "...");
      ConsoleError (js "❌ Failed to remove chemical: Chemical " ++ dquote ++ id
                      ++ dquote ++ js " not found")],
     Throw (not_found id))
  /\ updateChemical hub ext slug id updates w =
    (w,
     [ConsoleLog (js "📝 Updating chemical " ++ dquote ++ id ++ dquote
                    ++ js " for " ++ slug ++ js "...");
      ConsoleError (js "❌ Failed to update chemical: Chemical " ++ dquote ++ id
                      ++ dquote ++ js " not found")],
     Throw (not_found id)).
Proof.
  intros Hcfg Hid. apply findIndex_not_In in Hid.
  unfold removeChemical, updateChemical, try_catch, bind, emit,
    loadCustomerConfig, throw.
  rewrite Hcfg, Hid. cbn [app err_message not_found Error].
  split; repeat f_equal.
Qed.

(** The documents of chemical data that the validation accepts. *)
Lemma validateChemicalData_Ok_documents (chemicalData : ChemicalInput) :
  validateChemicalData chemicalData = Ok tt ->
  names_pdf (in_literature chemicalData) /\ names_pdf (in_sds chemicalData).
Proof.
  unfold validateChemicalData, names_pdf.
  destruct (truthy (in_name chemicalData));
    destruct (in_literature chemicalData) as [lit|];
    destruct (in_sds chemicalData) as [sds|];
    cbn [present app slot_filename]; try discriminate.
  destruct (truthy (doc_filename lit)) eqn:T1; [|discriminate].
  destruct (truthy (doc_filename sds)) eqn:T2; [|discriminate].
  cbn [negb orb].
  destruct (endsWith (or_default (doc_filename lit) []) (js ".pdf")) eqn:E1;
    [|discriminate].
  destruct (endsWith (or_default (doc_filename sds) []) (js ".pdf")) eqn:E2;
    [|discriminate].
  intros _.
  destruct (doc_filename lit) as [[|a f]|]; try discriminate T1.
  destruct (doc_filename sds) as [[|b g]|]; try discriminate T2.
  cbn [or_default] in E1, E2.
  apply endsWith_spec in E1 as [s1 E1], E2 as [s2 E2].
  split; [exists s1|exists s2]; congruence.
Qed.

Lemma new_doc_linked (d : option DocRef) (title : jsstr) :
  names_pdf d -> linked_pdf (new_doc d title).
Proof.
  intros [stem H]. exists stem. unfold new_doc. rewrite H.
  destruct stem; split; reflexivity.
Qed.

(** X6. Accepted chemical data whose derived id is new: [addChemical]
    stores, before it deploys and whatever the deployment does, the list with
    one record appended.  The record carries the derived id, is active, is
    dated today, and each of its two documents names a [.pdf] file and links
    to it under [pdfs/], where the deployment commits it.  When the
    deployment succeeds the result reports the record and the new number of
    active chemicals. *)
Theorem addChemical_appends (w : World R) (slug : jsstr)
    (chemicalData : ChemicalInput) (cfg : CustomerConfig) :
  configs w !! slug = Some cfg ->
  validateChemicalData chemicalData = Ok tt ->
  ~ In (generateChemicalId ext (or_default (in_name chemicalData) []))
       (map chem_id (chemicals cfg)) ->
  exists w' evs r cfg' c lit sds,
    addChemical hub ext slug chemicalData w = (w', evs, r)
    /\ configs w' !! slug = Some cfg'
    /\ chemicals cfg' = chemicals cfg ++ [c]
    /\ site_last_updated (site_settings cfg') = today (local w)
    /\ chem_id c = generateChemicalId ext (or_default (in_name chemicalData) [])
    /\ chem_active c = true
    /\ chem_last_updated c = today (local w)
    /\ chem_literature c = Some lit /\ linked_pdf lit
    /\ chem_sds c = Some sds /\ linked_pdf sds
    /\ (forall res, r = Ok res ->
        exists d, res = Added c d
                          (S (length (List.filter chem_active (chemicals cfg))))).
Proof.
  intros Hcfg Hval Hnew.
  pose proof (validateChemicalData_Ok_documents _ Hval) as [Hlit Hsds].
  apply findIndex_not_In in Hnew.
  set (chemicalId := generateChemicalId ext (or_default (in_name chemicalData) [])) in *.
  set (c := newChemical (local w) chemicalId chemicalData).
  unfold addChemical, try_catch, bind, emit, loadCustomerConfig, lift_result, get_local.
  rewrite Hcfg, Hval. fold chemicalId. rewrite Hnew. fold c.
  unfold saveCustomerConfig.
  destruct (deployCustomerSite hub ext _ _) as [[w2 e2] rd] eqn:Hd.
  apply deployCustomerSite_frame in Hd as [Hc2 Hl2].
  cbn [configs local] in Hc2, Hl2.
  assert (Hcount : length (List.filter chem_active (chemicals cfg ++ [c]))
                   = S (length (List.filter chem_active (chemicals cfg)))).
  { rewrite List.filter_app, length_app. simpl. lia. }
  destruct rd as [res|e];
    eexists _, _, _, _, c, _, _;
    (split; [reflexivity|]);
    (split; [cbn [configs]; rewrite Hc2; apply lookup_insert_eq|]);
    (split; [reflexivity|]); (split; [reflexivity|]); (split; [reflexivity|]);
    (split; [reflexivity|]); (split; [reflexivity|]);
    (split; [reflexivity|]); (split; [apply new_doc_linked; exact Hlit|]);
    (split; [reflexivity|]); (split; [apply new_doc_linked; exact Hsds|]).
  - intros res' [= <-]. exists res. cbn [chemicals set_site_last_updated set_chemicals].
    rewrite Hcount. reflexivity.
  - discriminate.
Qed.

(** X7. Adding again a chemical that was removed does not bring it back.
    When every record with the derived id is inactive and the data has no
    [active] key (the dashboard form sends none), [addChemical] takes the
    update path: the list keeps its length, no record with that id is active
    afterwards, the result, when there is one, is that of an update, and the
    default listing still does not show the chemical. *)
Theorem addChemical_keeps_inactive (w : World R) (slug : jsstr)
    (chemicalData : ChemicalInput) (cfg : CustomerConfig) :
  let chemicalId := generateChemicalId ext (or_default (in_name chemicalData) []) in
  configs w !! slug = Some cfg ->
  validateChemicalData chemicalData = Ok tt ->
  In chemicalId (map chem_id (chemicals cfg)) ->
  (forall c, In c (chemicals cfg) -> chem_id c = chemicalId -> chem_active c = false) ->
  in_active chemicalData = None ->
  exists w' evs r cfg' listed,
    addChemical hub ext slug chemicalData w = (w', evs, r)
    /\ configs w' !! slug = Some cfg'
    /\ length (chemicals cfg') = length (chemicals cfg)
    /\ (forall c, In c (chemicals cfg') -> chem_id c = chemicalId ->
          chem_active c = false)
    /\ (forall res, r = Ok res -> exists u, res = Existing u)
    /\ listChemicals slug false w' = (w', [], Ok listed)
    /\ (forall c, In c (list_chemicals listed) -> chem_id c <> chemicalId).
Proof.
  intros chemicalId Hcfg Hval Hin Hinactive Hkey.
  destruct (findIndex_In _ _ Hin) as (i & c & Hfind & Hc & Hid).
  assert (Hcin : In c (chemicals cfg))
    by (apply list_elem_of_In; eapply list_elem_of_lookup_2; exact Hc).
  destruct (updateChemical_run hub ext w slug chemicalId chemicalData cfg i c
              Hcfg Hfind Hc) as (w' & evs & r & Hrun & Hconf & Hloc).
  set (c' := set_last_updated (assign c chemicalData) (today (local w))) in *.
  set (cfg' := set_site_last_updated _ _) in Hconf.
  assert (Hstored : configs w' !! slug = Some cfg')
    by (rewrite Hconf; apply lookup_insert_eq).
  assert (Hc' : chem_active c' = false).
  { subst c'. cbn [chem_active set_last_updated assign]. rewrite Hkey.
    cbn [from_option]. unfold id. apply Hinactive; assumption. }
  assert (Hall : forall x, In x (chemicals cfg') -> chem_id x = chemicalId ->
                   chem_active x = false).
  { intros x Hx Hxid. cbn [chemicals cfg' set_site_last_updated set_chemicals] in Hx.
    apply In_insert in Hx as [->|Hx]; [exact Hc'|auto]. }
  destruct (listChemicals_run (R := R) w' slug cfg' false Hstored)
    as (listed & Hlist & Hlisted).
  exists w', (ConsoleLog (js "🧪 Adding chemical " ++ dquote
                            ++ show_name (in_name chemicalData) ++ dquote ++ js " to "
                            ++ slug ++ js "...")
              :: ConsoleLog (js "⚠️ Chemical " ++ dquote
                               ++ or_default (in_name chemicalData) [] ++ dquote
                               ++ js " already exists. Updating...")
              :: evs
              ++ match r with
                 | Ok _ => []
                 | Throw e =>
                   [ConsoleError (js "❌ Failed to add chemical: " ++ err_message e)]
                 end),
    (match r with Ok u => Ok (Existing u) | Throw e => Throw e end), cfg', listed.
  split.
  { unfold addChemical, try_catch, bind, emit, loadCustomerConfig, lift_result,
      get_local, ret, throw.
    rewrite Hcfg, Hval. fold chemicalId. rewrite Hfind, Hrun.
    destruct r; cbn [app]; rewrite ?app_nil_r; reflexivity. }
  split; [exact Hstored|].
  split; [apply length_insert|].
  split; [exact Hall|].
  split; [destruct r; intros res [= <-]; eauto|].
  split; [exact Hlist|].
  intros x Hx Hxid. rewrite Hlisted in Hx. apply List.filter_In in Hx as [Hx Hact].
  rewrite (Hall x Hx Hxid) in Hact. discriminate.
Qed.

(** X8. [listChemicals] changes nothing and its counts add up: [active]
    and [inactive] sum to the number of stored records, [total] is the
    length of the list returned, which is the whole list when inactive
    records are asked for and the active records, in their stored order,
    otherwise. *)
Theorem listChemicals_counts (w : World R) (slug : jsstr) (cfg : CustomerConfig)
    (includeInactive : bool) :
  configs w !! slug = Some cfg ->
  exists listed,
    listChemicals slug includeInactive w = (w, [], Ok listed)
    /\ list_customer listed = cust_name (customer_info cfg)
    /\ (list_active listed + list_inactive listed = length (chemicals cfg))%nat
    /\ list_total listed = length (list_chemicals listed)
    /\ list_total listed =
       (if includeInactive then list_active listed + list_inactive listed
        else list_active listed)%nat
    /\ list_chemicals listed =
       (if includeInactive then chemicals cfg
        else List.filter chem_active (chemicals cfg)).
Proof.
  intros Hcfg. unfold listChemicals, try_catch, bind, loadCustomerConfig, ret.
  rewrite Hcfg. eexists. split; [reflexivity|].
  cbn [list_customer list_active list_inactive list_total list_chemicals].
  pose proof (filter_partition_length chem_active (chemicals cfg)).
  destruct includeInactive; cbn [negb]; repeat split; lia.
Qed.

(** What [addChemical] does to the world, whether the customer is known or
    not: the local machine is left alone, and the store is left alone or
    written at the customer's key. *)
Lemma addChemical_frame (w w' : World R) slug chemicalData evs r :
  addChemical hub ext slug chemicalData w = (w', evs, r) ->
  local w' = local w
  /\ forall s, s <> slug -> configs w' !! s = configs w !! s.
Proof.
  intros Hrun. destruct (configs w !! slug) as [cfg|] eqn:Hcfg.
  - destruct (addChemical_run hub ext w slug chemicalData cfg Hcfg)
      as (w1 & e1 & r1 & Hrun1 & Hloc & Hcase).
    rewrite Hrun in Hrun1. injection Hrun1 as <- <- <-.
    split; [exact Hloc|]. intros s Hs.
    destruct (validateChemicalData chemicalData).
    + destruct (findIndex _ _).
      * destruct Hcase as (c & _ & _ & ->). apply lookup_insert_ne. congruence.
      * rewrite Hcase. apply lookup_insert_ne. congruence.
    + destruct Hcase as [-> _]. reflexivity.
  - unfold addChemical, try_catch, bind, emit, loadCustomerConfig, throw in Hrun.
    rewrite Hcfg in Hrun. injection Hrun as <- _ _. auto.
Qed.

Lemma bulk_loop_total slug (chemicalsData : list ChemicalInput) :
  forall (w : World R) (results : list BulkEntry),
  exists w' evs all,
    bulk_loop hub ext slug chemicalsData results w = (w', evs, Ok all)
    /\ map entry_chemical all
       = map entry_chemical results ++ map in_name chemicalsData
    /\ local w' = local w
    /\ forall s, s <> slug -> configs w' !! s = configs w !! s.
Proof.
  induction chemicalsData as [|d rest IH]; intros w results.
  - exists w, [], results. cbn [bulk_loop map]. rewrite app_nil_r. auto.
  - cbn [bulk_loop]. unfold bind at 1. unfold try_catch, bind, ret.
    destruct (addChemical hub ext slug d w) as [[w1 e1] r1] eqn:Hadd.
    apply addChemical_frame in Hadd as [Hl1 Hc1].
    destruct r1 as [res|e].
    + destruct (IH w1 (results ++ [BulkDone (in_name d) res]))
        as (w' & evs & all & Hrun & Hmap & Hl & Hc).
      rewrite Hrun. eexists _, _, all. split; [reflexivity|].
      rewrite Hmap, map_app, <- app_assoc. cbn [map entry_chemical app].
      split; [reflexivity|]. split; [congruence|].
      intros s Hs. rewrite (Hc s Hs). auto.
    + destruct (IH w1 (results ++ [BulkFailed (in_name d) (err_message e)]))
        as (w' & evs & all & Hrun & Hmap & Hl & Hc).
      rewrite Hrun. eexists _, _, all. split; [reflexivity|].
      rewrite Hmap, map_app, <- app_assoc. cbn [map entry_chemical app].
      split; [reflexivity|]. split; [congruence|].
      intros s Hs. rewrite (Hc s Hs). auto.
Qed.

(** X9. [bulkUpdateChemicals] never throws: an error of [addChemical] is
    kept as the failed entry of its chemical and the loop goes on.  The
    result has one entry per chemical given, in the order given; [success]
    and [failed] of the summary add up to [total], the number of chemicals
    given; the [success] flag says that no entry failed; and the
    configurations of other customers are not touched. *)
Theorem bulkUpdateChemicals_total (w : World R) (slug : jsstr)
    (chemicalsData : list ChemicalInput) :
  exists w' evs res,
    bulkUpdateChemicals hub ext slug chemicalsData w = (w', evs, Ok res)
    /\ map entry_chemical (bulk_results res) = map in_name chemicalsData
    /\ sum_total (bulk_summary res) = length chemicalsData
    /\ (sum_success (bulk_summary res) + sum_failed (bulk_summary res)
        = sum_total (bulk_summary res))%nat
    /\ sum_failed (bulk_summary res)
       = length (List.filter (fun r => negb (entry_success r)) (bulk_results res))
    /\ (bulk_success res = true <-> sum_failed (bulk_summary res) = 0%nat)
    /\ local w' = local w
    /\ (forall s, s <> slug -> configs w' !! s = configs w !! s).
Proof.
  destruct (bulk_loop_total slug chemicalsData w []) as (w' & evs & all & Hrun & Hmap & Hl & Hc).
  unfold bulkUpdateChemicals, try_catch, bind, emit, ret.
  rewrite Hrun. eexists _, _, _. split; [reflexivity|].
  cbn [bulk_results bulk_summary sum_total sum_success sum_failed bulk_success].
  split; [exact Hmap|]. split; [reflexivity|].
  split.
  { rewrite filter_partition_length.
    rewrite <- (length_map entry_chemical all), Hmap. apply length_map. }
  split; [reflexivity|].
  split; [apply bool_decide_eq_true|].
  auto.
Qed.

End RegistryOperations.

Section Checklist.
Import Deployer ChemicalManager.
Context {R : Type}.

Lemma Ok_inj {A} (a b : A) : Ok a = Ok b -> a = b.
Proof. intros [= ->]. reflexivity. Qed.

Lemma checklist_entries_Ok (cs : list ChemicalRecord) :
  Forall has_documents cs ->
  forall index checklist,
  exists body,
    checklist_entries index cs checklist = Ok (checklist ++ body)
    /\ forall c lit sds, In c cs ->
         chem_literature c = Some lit -> chem_sds c = Some sds ->
         includes body (literature_line lit) = true
         /\ includes body (sds_line sds) = true.
Proof.
  induction 1 as [|c cs [Hlit Hsds] _ IH]; intros index checklist.
  - exists []. cbn [checklist_entries]. rewrite app_nil_r.
    split; [reflexivity|intros ? ? ? []].
  - cbn [checklist_entries]. unfold checklist_entry.
    destruct (chem_literature c) as [lit|] eqn:El; [|congruence].
    destruct (chem_sds c) as [sds|] eqn:Es; [|congruence].
    set (lines := js "### " ++ _).
    destruct (IH (S index) (checklist ++ lines)) as (body & Hrun & Hincl).
    exists (lines ++ body). rewrite Hrun, <- app_assoc. split; [reflexivity|].
    intros c' lit' sds' [<-|Hin] Hl Hs.
    + rewrite El in Hl. rewrite Es in Hs. injection Hl as <-. injection Hs as <-.
      split; apply includes_spec.
      * exists (js "### " ++ dec_of_nat (index + 1) ++ js ". " ++ chem_name c ++ nl),
          (nl ++ sds_line sds ++ nl ++ nl ++ body).
        subst lines. unfold literature_line, sds_line.
        rewrite <- !app_assoc. reflexivity.
      * exists (js "### " ++ dec_of_nat (index + 1) ++ js ". " ++ chem_name c ++ nl
                ++ literature_line lit ++ nl),
          (nl ++ nl ++ body).
        subst lines. unfold literature_line, sds_line.
        rewrite <- !app_assoc. reflexivity.
    + destruct (Hincl c' lit' sds' Hin Hl Hs) as [H1 H2].
      split; apply (includes_within lines _ []) in H1, H2;
        rewrite app_nil_r in H1, H2; assumption.
Qed.

Lemma checklist_entries_Throw (cs : list ChemicalRecord) :
  ~ Forall has_documents cs ->
  forall index checklist,
    checklist_entries index cs checklist
    = Throw (Error (js "Cannot read properties of undefined (reading 'filename')")).
Proof.
  induction cs as [|c cs IH]; intros Hno index checklist.
  - exfalso. apply Hno. constructor.
  - cbn [checklist_entries]. unfold checklist_entry.
    destruct (chem_literature c) as [lit|] eqn:El; [|reflexivity].
    destruct (chem_sds c) as [sds|] eqn:Es; [|reflexivity].
    apply IH. intros Hcs. apply Hno. constructor; [|exact Hcs].
    split; congruence.
Qed.

Lemma has_documents_dec (cs : list ChemicalRecord) :
  Forall has_documents cs \/ ~ Forall has_documents cs.
Proof.
  induction cs as [|c cs [IH|IH]].
  - left. constructor.
  - destruct (chem_literature c) eqn:El, (chem_sds c) eqn:Es;
      try (right; intros H; inversion H as [|? ? [H1 H2] _]; subst; congruence).
    left. constructor; [split; congruence|exact IH].
  - right. intros H. inversion H; subst. contradiction.
Qed.

Lemma generateUploadChecklist_filter (w : World R) slug cfg :
  configs w !! slug = Some cfg ->
  forall w2 : World R,
    local w2 = local w ->
    configs w2 !! slug
    = Some (set_chemicals cfg (List.filter chem_active (chemicals cfg))) ->
    snd (generateUploadChecklist slug w2) = snd (generateUploadChecklist slug w).
Proof.
  intros Hcfg w2 Hl Hc.
  unfold generateUploadChecklist, try_catch, bind, loadCustomerConfig, get_local,
    lift_result, ret, emit, throw.
  rewrite Hcfg, Hc, Hl.
  cbn [chemicals set_chemicals customer_info site_settings].
  rewrite filter_active_idem.
  destruct (checklist_entries 0 _ _); reflexivity.
Qed.

(** X10. The upload check list of a customer is made from the active
    chemicals alone: it is the check list of the configuration without its
    inactive records.  It is produced exactly when every active chemical has
    its two document objects (a missing one is a [TypeError], logged and
    thrown); it then announces two files per active chemical and has the
    literature line and the SDS line of each.  The world is left as it
    is. *)
Theorem generateUploadChecklist_active_only (w : World R) (slug : jsstr)
    (cfg : CustomerConfig) :
  configs w !! slug = Some cfg ->
  let active := List.filter chem_active (chemicals cfg) in
  exists evs r,
    generateUploadChecklist slug w = (w, evs, r)
    /\ Forall console_event evs
    /\ (forall w2 : World R,
          local w2 = local w ->
          configs w2 !! slug = Some (set_chemicals cfg active) ->
          snd (generateUploadChecklist slug w2) = r)
    /\ ((exists text, r = Ok text) <-> Forall has_documents active)
    /\ forall text, r = Ok text ->
         includes text (js "## Required Files (" ++ dec_of_nat (length active * 2)
                          ++ js " total)") = true
         /\ forall c lit sds, In c active ->
              chem_literature c = Some lit -> chem_sds c = Some sds ->
              includes text (literature_line lit) = true
              /\ includes text (sds_line sds) = true.
Proof.
  intros Hcfg active.
  pose proof (generateUploadChecklist_filter w slug cfg Hcfg) as Hother.
  fold active in Hother.
  remember (generateUploadChecklist slug w) as run eqn:Erun.
  unfold generateUploadChecklist, try_catch, bind, loadCustomerConfig, get_local,
    lift_result, ret, emit, throw in Erun.
  rewrite Hcfg in Erun. fold active in Erun.
  set (header := js "# PDF Upload Checklist for " ++ _) in Erun.
  set (footer := js "## Upload Instructions" ++ _) in Erun.
  destruct (has_documents_dec active) as [Hall|Hno].
  - destruct (checklist_entries_Ok active Hall 0 header) as (body & Hrun & Hincl).
    rewrite Hrun in Erun. subst run. cbn [snd] in Hother.
    eexists _, _. split; [reflexivity|].
    split; [constructor|].
    split; [exact Hother|].
    split; [split; [intros _; exact Hall|intros _; eauto]|].
    intros text Ht. apply Ok_inj in Ht. subst text. split.
    + apply includes_spec.
      exists (js "# PDF Upload Checklist for " ++ cust_name (customer_info cfg)
              ++ nl ++ nl ++ js "Generated on: " ++ locale_date (local w) ++ nl ++ nl),
        (nl ++ nl ++ body ++ footer).
      subst header. rewrite <- !app_assoc. reflexivity.
    + intros c lit sds Hin Hl Hs. destruct (Hincl c lit sds Hin Hl Hs) as [H1 H2].
      rewrite <- app_assoc. split; apply includes_within; assumption.
  - rewrite (checklist_entries_Throw active Hno) in Erun. subst run.
    cbn [snd] in Hother. eexists _, _.
    split; [reflexivity|]. split; [repeat constructor|].
    split; [exact Hother|].
    split; [split; [intros [text [=]]|intros H; contradiction]|].
    intros text [=].
Qed.

End Checklist.

Section RegistryOperationsExamples.
Import Deployer ChemicalManager.

(** Chemical data whose literature file is not a PDF. *)
Lemma addChemical_rejects_witness :
  let w := Sample.world Sim.empty [Sample.bowl_cleaner] [] [] in
  let data := Sample.input (js "Floor Cleaner") None (js "floor.docx") (js "floor_sds.pdf") in
  validateChemicalData data = Throw (Error (js "Literature file must be a PDF"))
  /\ snd (addChemical Sim.hub Sim.ext (js "sqzr-demo") data w)
     = Throw (Error (js "Literature file must be a PDF"))
  /\ fst (fst (addChemical Sim.hub Sim.ext (js "sqzr-demo") data w)) = w.
Proof.
  intros w data.
  assert (H1 : configs w !! js "sqzr-demo" = Some (Sample.config [Sample.bowl_cleaner]))
    by (vm_compute; reflexivity).
  assert (H2 : validateChemicalData data
               = Throw (Error (js "Literature file must be a PDF")))
    by (vm_compute; reflexivity).
  split; [exact H2|].
  rewrite (addChemical_rejects Sim.hub Sim.ext w (js "sqzr-demo") data _ _ H1 H2).
  split; reflexivity.
Defined.

(** An id that the configuration does not have. *)
Lemma unknown_chemical_id_witness :
  let w := Sample.world Sim.empty [Sample.bowl_cleaner] [] [] in
  ~ In (js "glass-cleaner") (map chem_id [Sample.bowl_cleaner])
  /\ snd (removeChemical Sim.hub Sim.ext (js "sqzr-demo") (js "glass-cleaner") w)
     = Throw (not_found (js "glass-cleaner"))
  /\ fst (fst (removeChemical Sim.hub Sim.ext (js "sqzr-demo") (js "glass-cleaner") w))
     = w.
Proof.
  intros w.
  assert (H1 : configs w !! js "sqzr-demo" = Some (Sample.config [Sample.bowl_cleaner]))
    by (vm_compute; reflexivity).
  assert (H2 : ~ In (js "glass-cleaner") (map chem_id [Sample.bowl_cleaner])).
  { intros [H|[]]. vm_compute in H. discriminate H. }
  split; [exact H2|].
  destruct (unknown_chemical_id Sim.hub Sim.ext w (js "sqzr-demo") (js "glass-cleaner")
              (Sample.input (js "Glass Cleaner") None (js "a.pdf") (js "b.pdf")) _ H1 H2)
    as [Hrem _].
  rewrite Hrem. split; reflexivity.
Defined.

(** A new chemical for the demonstration customer, during an outage of the
    hosting service: the record is stored although the deployment fails. *)
Lemma addChemical_appends_witness :
  let w := Sample.world Sim.empty [Sample.bowl_cleaner] [] [] in
  let data := Sample.input (js "Floor Cleaner") None (js "floor_lit.pdf") (js "floor_sds.pdf") in
  exists w' evs r cfg' c,
    addChemical Sim.outage Sim.ext (js "sqzr-demo") data w = (w', evs, r)
    /\ configs w' !! js "sqzr-demo" = Some cfg'
    /\ chemicals cfg' = [Sample.bowl_cleaner; c]
    /\ chem_id c = js "floor-cleaner"
    /\ chem_active c = true.
Proof.
  intros w data.
  assert (H1 : configs w !! js "sqzr-demo" = Some (Sample.config [Sample.bowl_cleaner]))
    by (vm_compute; reflexivity).
  assert (H2 : validateChemicalData data = Ok tt) by (vm_compute; reflexivity).
  assert (H3 : ~ In (generateChemicalId Sim.ext (or_default (in_name data) []))
                    (map chem_id (chemicals (Sample.config [Sample.bowl_cleaner])))).
  { intros [H|[]]. vm_compute in H. discriminate H. }
  destruct (addChemical_appends Sim.outage Sim.ext w (js "sqzr-demo") data _ H1 H2 H3)
    as (w' & evs & r & cfg' & c & lit & sds & Hrun & Hcfg & Hcs & _ & Hid & Hact & _).
  exists w', evs, r, cfg', c. split; [exact Hrun|]. split; [exact Hcfg|].
  split; [exact Hcs|]. split; [|exact Hact].
  rewrite Hid. vm_compute. reflexivity.
Defined.

(** The glass cleaner was removed; its data is sent again. *)
Lemma addChemical_keeps_inactive_witness :
  let w := Sample.world Sim.empty [Sample.bowl_cleaner; Sample.glass_cleaner] [] [] in
  let data := Sample.input (js "Glass Cleaner") None (js "glass_lit.pdf") (js "glass_sds.pdf") in
  exists w' evs r listed,
    addChemical Sim.outage Sim.ext (js "sqzr-demo") data w = (w', evs, r)
    /\ listChemicals (js "sqzr-demo") false w' = (w', [], Ok listed)
    /\ forall c, In c (list_chemicals listed) -> chem_id c <> js "glass-cleaner".
Proof.
  intros w data.
  assert (H1 : configs w !! js "sqzr-demo"
               = Some (Sample.config [Sample.bowl_cleaner; Sample.glass_cleaner]))
    by (vm_compute; reflexivity).
  assert (H2 : validateChemicalData data = Ok tt) by (vm_compute; reflexivity).
  assert (Hid : generateChemicalId Sim.ext (or_default (in_name data) [])
                = js "glass-cleaner") by (vm_compute; reflexivity).
  assert (H3 : In (generateChemicalId Sim.ext (or_default (in_name data) []))
                  (map chem_id (chemicals (Sample.config
                                             [Sample.bowl_cleaner; Sample.glass_cleaner])))).
  { right. left. vm_compute. reflexivity. }
  assert (H4 : forall c,
             In c (chemicals (Sample.config [Sample.bowl_cleaner; Sample.glass_cleaner])) ->
             chem_id c = generateChemicalId Sim.ext (or_default (in_name data) []) ->
             chem_active c = false).
  { intros c [<-|[<-|[]]] H; [vm_compute in H; discriminate H|reflexivity]. }
  assert (H5 : in_active data = None) by reflexivity.
  destruct (addChemical_keeps_inactive Sim.outage Sim.ext w (js "sqzr-demo") data _
              H1 H2 H3 H4 H5)
    as (w' & evs & r & cfg' & listed & Hrun & _ & _ & _ & _ & Hlist & Hno).
  exists w', evs, r, listed. rewrite Hid in Hno. auto.
Defined.

(** The demonstration customer with one active and one removed chemical. *)
Lemma listChemicals_counts_witness :
  let w := Sample.world Sim.empty [Sample.bowl_cleaner; Sample.glass_cleaner] [] [] in
  exists listed,
    listChemicals (js "sqzr-demo") false w = (w, [], Ok listed)
    /\ list_total listed = 1%nat
    /\ list_active listed = 1%nat
    /\ list_inactive listed = 1%nat
    /\ list_chemicals listed = [Sample.bowl_cleaner].
Proof.
  intros w.
  assert (H1 : configs w !! js "sqzr-demo"
               = Some (Sample.config [Sample.bowl_cleaner; Sample.glass_cleaner]))
    by (vm_compute; reflexivity).
  destruct (listChemicals_counts w (js "sqzr-demo") _ false H1)
    as (listed & Hrun & _ & Hsum & Htot & Hact & Hcs).
  exists listed. split; [exact Hrun|].
  assert (Ha : list_active listed = 1%nat).
  { rewrite <- Hact, Htot, Hcs. reflexivity. }
  split; [rewrite Hact; exact Ha|]. split; [exact Ha|].
  split; [|exact Hcs].
  rewrite Ha in Hsum. cbn [chemicals Sample.config length] in Hsum. lia.
Defined.

(** The check list of the same customer has the two files of the active
    chemical and none of the removed one. *)
Lemma generateUploadChecklist_active_only_witness :
  let w := Sample.world Sim.empty [Sample.bowl_cleaner; Sample.glass_cleaner] [] [] in
  exists text,
    generateUploadChecklist (js "sqzr-demo") w = (w, [], Ok text)
    /\ includes text (js "## Required Files (2 total)") = true
    /\ includes text (js "- [ ] SDS: `302_dt_bowl_cleaner_sds.pdf`") = true
    /\ includes text (js "glass") = false.
Proof.
  intros w.
  assert (H1 : configs w !! js "sqzr-demo"
               = Some (Sample.config [Sample.bowl_cleaner; Sample.glass_cleaner]))
    by (vm_compute; reflexivity).
  destruct (generateUploadChecklist_active_only w (js "sqzr-demo") _ H1)
    as (evs & r & Hrun & _ & _ & _ & Htext).
  assert (Hr : match snd (generateUploadChecklist (js "sqzr-demo") w) with
               | Ok text => includes text (js "glass") = false
               | Throw _ => False
               end /\ snd (fst (generateUploadChecklist (js "sqzr-demo") w)) = [])
    by (vm_compute; split; reflexivity).
  rewrite Hrun in Hr. cbn [fst snd] in Hr. destruct Hr as [Hr ->].
  destruct r as [text|e]; [|destruct Hr].
  exists text. split; [exact Hrun|].
  destruct (Htext text eq_refl) as [Hfiles Hlines].
  split; [exact Hfiles|]. split; [|exact Hr].
  destruct (Hlines Sample.bowl_cleaner
              (Sample.doc (js "302_dt_bowl_cleaner_literature.pdf")
                 (js "HUSKY® 302 D/T BOWL CLEANER Product Literature"))
              (Sample.doc (js "302_dt_bowl_cleaner_sds.pdf")
                 (js "HUSKY® 302 D/T BOWL CLEANER Safety Data Sheet")))
    as [_ Hsds]; [left; reflexivity|reflexivity|reflexivity|].
  exact Hsds.
Defined.

(** A bulk update of two chemicals: the first is rejected by the
    validation, the second is added and deployed. *)
Example bulkUpdateChemicals_example :
  let w := Sample.world Sim.empty [Sample.bowl_cleaner] Sample.all_pdfs [] in
  let run :=
    bulkUpdateChemicals Sim.hub Sim.ext (js "sqzr-demo")
      [Sample.input (js "Floor Cleaner") None (js "floor.docx") (js "floor_sds.pdf");
       Sample.input (js "Glass Cleaner") None (js "glass_lit.pdf") (js "glass_sds.pdf")]
      w in
  match snd run with
  | Ok res =>
    bulk_success res = false
    /\ bulk_summary res = {| sum_total := 2; sum_success := 1; sum_failed := 1 |}
    /\ map entry_success (bulk_results res) = [false; true]
    /\ map entry_chemical (bulk_results res)
       = [Some (js "Floor Cleaner"); Some (js "Glass Cleaner")]
  | Throw _ => False
  end.
Proof. vm_compute. repeat split. Qed.

End RegistryOperationsExamples.

(* ===================================================================== *)
(** ** Further properties of the deployment pipeline                     *)
(* ===================================================================== *)

Section Publication.
Import Deployer.
Context {R : Type} (hub : Hub R) (ext : Externals).

Lemma no_put_puts evs : Forall no_put evs -> puts evs = [].
Proof.
  induction 1 as [|e evs He _ IH]; [reflexivity|].
  destruct e; cbn [puts flat_map app] in *; try exact IH. destruct He.
Qed.

Lemma console_no_put e : console_event e -> no_put e.
Proof. destruct e; simpl; auto. Qed.

Lemma setup_no_put e : setup_event e -> no_put e.
Proof. destruct e; simpl; auto. Qed.

Lemma publish_no_put b e : publish_event b e -> no_put e.
Proof. destruct e; simpl; auto. Qed.

Lemma verify_no_put e : verify_event e -> no_put e.
Proof. destruct e; simpl; auto. Qed.

Lemma heads_app e1 e2 : heads (e1 ++ e2) = heads e1 ++ heads e2.
Proof. unfold heads. apply flat_map_app. Qed.

(** X11. [enablePages] sends one request and tolerates one failure: it
    returns normally exactly when the request succeeded or failed with
    status 409 (Pages are enabled already); every other failure is logged
    and thrown as it is.  Besides the request there is only console
    output. *)
Theorem enablePages_conflict (w : World R) (repo branch : jsstr)
    (r1 : R) (o : result unit) :
  createPagesSite hub (remote w) owner repo branch (js "/") = (r1, o) ->
  exists evs r,
    enablePages hub repo branch w
    = (with_remote w r1, CreatePages owner repo branch (js "/") o :: evs, r)
    /\ Forall console_event evs
    /\ (r = Ok tt
        <-> o = Ok tt \/ exists e, o = Throw e /\ err_status e = Some 409%Z)
    /\ (forall e, r = Throw e -> o = Throw e /\ err_status e <> Some 409%Z).
Proof.
  intros Hreq. unfold enablePages, try_catch, bind, request, emit, throw.
  rewrite Hreq. unfold with_remote. destruct o as [[]|e].
  - eexists _, _. split; [reflexivity|]. split; [repeat constructor|].
    split; [split; auto|discriminate].
  - destruct (decide (err_status e = Some 409%Z)) as [He|He].
    + rewrite bool_decide_eq_true_2 by exact He.
      eexists _, _. split; [reflexivity|]. split; [repeat constructor|].
      split; [split; eauto|discriminate].
    + rewrite bool_decide_eq_false_2 by exact He.
      eexists _, _. split; [reflexivity|]. split; [repeat constructor|].
      split.
      * split; [discriminate|]. intros [H|(e' & [= <-] & H)]; [discriminate|contradiction].
      * intros e' [= <-]. auto.
Qed.

(** X12. A response whose [Content-Length] header is absent or empty never
    passes the verification, whatever its status and its content type: the
    header is then read as ["0"], zero bytes, which is below the 1024 the
    check asks for.  For a response that is otherwise accepted the error
    names the type and [0 bytes]. *)
Theorem verification_requires_length (res : Response) :
  truthy (res_content_length res) = false ->
  (exists e, check_response res = Throw e)
  /\ (res_ok res = true ->
      check_response res
      = Throw (Error (js "Unexpected type/size: " ++ contentType_of res
                        ++ js ", 0 bytes"))).
Proof.
  intros Hlen.
  assert (Hzero : contentLength_of res = Num 0).
  { unfold contentLength_of.
    destruct (res_content_length res) as [[|c s]|]; [reflexivity| |reflexivity].
    discriminate Hlen. }
  unfold check_response. rewrite Hzero. cbn [lt number_to_string].
  change (0 <? 1024)%Z with true. rewrite orb_true_r.
  destruct (res_ok res); cbn [negb]; split; eauto; discriminate.
Qed.

Lemma verify_one_heads (w w' : World R) repo f evs r :
  verify_one hub repo f w = (w', evs, r) -> heads evs = [pdf_url repo f].
Proof.
  intros H. apply verify_one_inv in H as (_ & o & H).
  destruct (verdict o); destruct H as [_ ->]; reflexivity.
Qed.

Lemma verify_files_heads repo (fs : list jsstr) : forall (w w' : World R) evs r,
  for_of fs (verify_one hub repo) w = (w', evs, r) ->
  done_so_far r (map (pdf_url repo) fs) (heads evs).
Proof.
  induction fs as [|f fs IH]; intros w w' evs r H.
  - injection H as <- <- <-. apply done_so_far_nil.
  - cbn [for_of] in H.
    apply bind_inv in H as [(e & H & ->)|(w1 & e1 & [] & e2 & H1 & H2 & ->)].
    + apply verify_one_heads in H. rewrite H.
      exists (map (pdf_url repo) fs). split; [reflexivity|discriminate].
    + apply verify_one_heads in H1. apply IH in H2.
      rewrite heads_app, H1. destruct H2 as (rest & Heq & Hrest).
      exists rest. cbn [map]. rewrite Heq. split; [reflexivity|exact Hrest].
Qed.

Lemma verify_chemicals_heads repo (cs : list ChemicalRecord) :
  forall (w w' : World R) evs r,
  for_of cs (fun chemical => for_of (slot_files chemical) (verify_one hub repo)) w
  = (w', evs, r) ->
  done_so_far r (map (pdf_url repo) (flat_map slot_files cs)) (heads evs).
Proof.
  induction cs as [|c cs IH]; intros w w' evs r H.
  - injection H as <- <- <-. apply done_so_far_nil.
  - cbn [for_of flat_map] in H |- *. rewrite map_app.
    apply bind_inv in H as [(e & H & ->)|(w1 & e1 & [] & e2 & H1 & H2 & ->)].
    + apply verify_files_heads in H. rewrite <- (app_nil_r (heads evs)).
      eapply done_so_far_app; [exact H|discriminate|]. intros e' [= ->]. auto.
    + apply verify_files_heads in H1. apply IH in H2. rewrite heads_app.
      eapply done_so_far_app; [exact H1|intros; exact H2|discriminate].
Qed.

(** X13. The verification asks for the documents in the order of the
    configuration, literature before SDS, chemical after chemical, one HEAD
    request per document named (a file named twice is asked for twice), at
    its address under [pdfs/] of the published site.  It stops at the first
    document that fails: the requests sent are then an initial part of that
    list and the rejected request is the last event; when it returns
    normally they are the whole list. *)
Theorem verifyPDFsOnPages_in_order (w w' : World R) (repo : jsstr)
    (cs : list ChemicalRecord) (evs : list event) (r : result unit) :
  verifyPDFsOnPages hub repo cs w = (w', evs, r) ->
  done_so_far r (map (pdf_url repo) (flat_map slot_files cs)) (heads evs)
  /\ (forall e, r = Throw e ->
      exists url o e', last evs = Some (Head url o) /\ verdict o = Throw e'
                       /\ e = verification_error url e').
Proof.
  unfold verifyPDFsOnPages. intros H.
  apply bind_inv in H as [(? & H & _)|(w0 & e0 & [] & ev1 & H0 & H & ->)];
    [discriminate H|].
  apply emit_inv in H0 as (-> & -> & _).
  apply bind_inv in H as [(e & H & ->)|(w1 & e1 & [] & e2 & H1 & H2 & ->)].
  - split; [exact (verify_chemicals_heads _ _ _ _ _ _ H)|].
    intros e0 [= <-]. clear - H.
    assert (Hlast : forall (cs : list ChemicalRecord) (w w' : World R) evs e,
              for_of cs (fun chemical =>
                           for_of (slot_files chemical) (verify_one hub repo)) w
              = (w', evs, Throw e) ->
              exists url o e', last evs = Some (Head url o) /\ verdict o = Throw e'
                               /\ e = verification_error url e').
    { clear. intros cs. induction cs as [|c cs IH]; intros w w' evs e H.
      - discriminate H.
      - cbn [for_of] in H.
        apply bind_inv in H as [(e0 & H & [= <-])|(w1 & e1 & [] & e2 & H1 & H2 & ->)].
        + clear IH. revert w w' evs H.
          induction (slot_files c) as [|f fs IHf]; intros w w' evs H;
            [discriminate H|].
          cbn [for_of] in H.
          apply bind_inv in H as [(e0 & H & [= <-])|(w1 & e1 & [] & e2 & H1 & H2 & ->)].
          * apply verify_one_inv in H as (_ & o & H).
            destruct (verdict o) as [|e'] eqn:Ev; destruct H as [Hr ->];
              [discriminate Hr|].
            exists (pdf_url repo f), o, e'. split; [reflexivity|].
            split; [exact Ev|congruence].
          * destruct (IHf _ _ _ H2) as (url & o & e' & Hl & Hv & He).
            exists url, o, e'. split; [|auto].
            rewrite last_app, Hl. reflexivity.
        + destruct (IH _ _ _ _ H2) as (url & o & e' & Hl & Hv & He).
          exists url, o, e'. split; [|auto]. rewrite last_app, Hl. reflexivity. }
    destruct (Hlast _ _ _ _ _ H) as (url & o & e' & Hl & Hv & He).
    exists url, o, e'. split; [|auto]. cbn [app].
    destruct ev1; [discriminate Hl|exact Hl].
  - apply emit_inv in H2 as (-> & -> & ->).
    apply verify_chemicals_heads in H1.
    split; [|discriminate].
    rewrite !heads_app. cbn [heads flat_map app]. rewrite app_nil_r. exact H1.
Qed.

Lemma sound_for_of_In P {A} (xs : list A) (body : A -> M R unit) :
  (forall x, In x xs -> sound P (body x)) -> sound P (for_of xs body).
Proof.
  induction xs as [|x xs IH]; intros Hb; cbn [for_of].
  - apply sound_ret.
  - apply sound_bind; [apply Hb; left; reflexivity|intros _].
    apply IH. intros y Hy. apply Hb. right. exact Hy.
Qed.

Lemma sound_safeUploadBinary_commit (P : event -> Prop) own repo b path buf message :
  (forall e, no_put e -> P e) ->
  (forall sha o,
      P (Put {| put_owner := own; put_repo := repo; put_path := path;
                put_message := message; put_content := toString_base64 buf;
                put_branch := b; put_sha := sha |} o)) ->
  sound P (safeUploadBinary hub own repo b path buf message).
Proof.
  intros Hno Hput. unfold safeUploadBinary, probe_sha. cbv zeta.
  apply sound_bind.
  - apply sound_try_catch.
    + apply sound_request. intros o. apply Hno. exact I.
    + intros e. destruct (bool_decide _); [apply sound_ret|apply sound_throw].
  - intros sha. apply sound_request. intros o. apply Hput.
Qed.

Lemma sound_bind_lift P {A B} (x : result A) (k : A -> M R B) :
  (forall a, x = Ok a -> sound P (k a)) -> sound P (bind (lift_result x) k).
Proof.
  intros Hk w w' evs r H. unfold bind, lift_result in H. destruct x as [a|e].
  - destruct (k a w) as [[w2 e2] rb] eqn:Hrun. injection H as <- <- <-.
    exact (Hk a eq_refl _ _ _ _ Hrun).
  - injection H as <- <- <-. repeat split. constructor.
Qed.

(** The loop of [uploadCustomerAssets] over the listing [files]. *)
Lemma sound_asset_loop repo slug b (files : list AssetEntry) :
  sound (asset_event repo slug b files)
    (for_of files (fun entry =>
       let filename := asset_name entry in
       isDirectory <- lift_result (asset_stat entry) ;;
       if isDirectory || startsWith filename (js ".") then ret tt
       else
         emit (ConsoleLog (js "⬆️  Uploading " ++ slug ++ js " asset: "
                             ++ filename)) ;;;
         buffer <- lift_result (asset_read entry) ;;
         safeUploadBinary hub owner repo b (js "assets/" ++ filename)
           buffer (js "Upload " ++ slug ++ js " asset: " ++ filename) ;;;
         emit (ConsoleLog (js "✅ Uploaded " ++ slug ++ js " asset: "
                             ++ filename)))).
Proof.
  apply sound_for_of_In. intros entry Hin. cbv zeta.
  apply sound_bind_lift. intros isDirectory Hstat.
  destruct isDirectory; [apply sound_ret|].
  destruct (startsWith (asset_name entry) (js ".")) eqn:Hdot; [apply sound_ret|].
  cbn [orb].
  apply sound_bind; [apply sound_emit; exact I|intros _].
  apply sound_bind_lift. intros buffer Hread.
  apply sound_bind; [|intros _; apply sound_emit; exact I].
  apply sound_safeUploadBinary_commit.
  - intros e He. destruct e; try exact I. destruct He.
  - intros sha o. exists entry, buffer. cbn [put_owner put_repo put_branch put_path
                                             put_content put_message].
    repeat split; assumption.
Qed.

Lemma uploadCustomerAssets_events (w w' : World R) repo slug b evs r :
  uploadCustomerAssets hub repo slug b w = (w', evs, r) ->
  match assets (local w) slug with
  | None =>
    w' = w /\ r = Ok tt
    /\ evs = [ConsoleLog (js "📁 No assets folder found for customer " ++ slug
                            ++ js ", skipping asset upload")]
  | Some (Throw e) => r = Throw e /\ puts evs = []
  | Some (Ok files) => Forall (asset_event repo slug b files) evs
  end.
Proof.
  unfold uploadCustomerAssets. intros H.
  apply bind_inv in H as [(? & H & _)|(w1 & e1 & l & e2 & H1 & H & ->)];
    [discriminate H|].
  apply get_local_inv in H1 as (-> & -> & [= ->]). cbn [app].
  destruct (assets (local w) slug) as [[files|e]|].
  - match type of H with
    | ?m _ = _ => assert (Hs : sound (asset_event repo slug b files) m)
    end; [|exact (proj2 (proj2 (Hs _ _ _ _ H)))].
    clear H.
    apply sound_bind; [sound_step|intros _].
    apply sound_try_catch.
    + apply sound_bind_lift. intros files' [= <-].
      apply sound_bind; [apply sound_asset_loop|intros _].
      sound_step.
    + intros e. apply sound_bind; [sound_step|intros _].
      apply sound_throw.
  - unfold bind, emit, try_catch, lift_result, throw in H.
    injection H as <- <- <-. split; reflexivity.
  - apply emit_inv in H as (-> & -> & ->). auto.
Qed.

(** X14. The assets of a customer.  Without an asset folder nothing is
    sent: one line is printed and the step is over.  With a folder, every
    commit of the step is that of a listed entry that is a file, not a
    directory, and whose name does not start with a dot; the file goes to
    [assets/<name>] of the repository, on the branch given, with the bytes
    read from it encoded once.  A folder that cannot be listed fails the
    step before any commit. *)
Theorem uploadCustomerAssets_files (w w' : World R) (repo slug b : jsstr)
    (evs : list event) (r : result unit) :
  uploadCustomerAssets hub repo slug b w = (w', evs, r) ->
  (assets (local w) slug = None ->
     w' = w /\ r = Ok tt
     /\ evs = [ConsoleLog (js "📁 No assets folder found for customer " ++ slug
                             ++ js ", skipping asset upload")])
  /\ (forall e, assets (local w) slug = Some (Throw e) ->
        r = Throw e /\ puts evs = [])
  /\ (forall files, assets (local w) slug = Some (Ok files) ->
        Forall (asset_event repo slug b files) evs).
Proof.
  intros H. apply uploadCustomerAssets_events in H.
  destruct (assets (local w) slug) as [[files|e]|].
  - split; [discriminate|]. split; [discriminate|]. intros ? [= <-]. exact H.
  - split; [discriminate|]. split; [|discriminate]. intros ? [= <-]. exact H.
  - split; [intros _; exact H|]. split; discriminate.
Qed.

(** The commits of one [uploadFile]: none when the probe fails, in which
    case the method throws, and otherwise the one commit of the file. *)
Lemma uploadFile_puts (w w' : World R) repo path content message b evs r :
  uploadFile hub repo path content message b w = (w', evs, r) ->
  (puts evs = [] /\ exists e, r = Throw e)
  \/ exists sha,
      puts evs = [commit_args repo path message
                    (toString_base64 (Buffer_from content)) b sha].
Proof.
  intros H.
  destruct (getContent hub (remote w) owner repo path b) as [r1 o] eqn:Hg.
  assert (Hcommit : forall sha,
             match o with
             | Ok s => Ok s
             | Throw e =>
               if bool_decide (err_status e = Some 404%Z) then Ok None else Throw e
             end = Ok sha ->
             puts evs = [commit_args repo path message
                           (toString_base64 (Buffer_from content)) b sha]).
  { intros sha Hs.
    destruct (createOrUpdateFileContents hub r1
                (commit_args repo path message (toString_base64 (Buffer_from content))
                   b sha)) as [r2 o2] eqn:Hp.
    rewrite (uploadFile_commit hub w repo path b content message r1 o sha r2 o2
               Hg Hs Hp) in H.
    injection H as <- <- <-. destruct o2; reflexivity. }
  destruct o as [sha|e].
  - right. exists sha. apply Hcommit. reflexivity.
  - destruct (decide (err_status e = Some 404%Z)) as [He|He].
    + rewrite bool_decide_eq_true_2 in Hcommit by exact He.
      right. exists None. apply Hcommit. reflexivity.
    + left. unfold uploadFile, try_catch, bind in H.
      rewrite (probe_sha_run hub w repo path b r1 (Throw e) Hg) in H.
      rewrite bool_decide_eq_false_2 in H by exact He.
      unfold emit, throw in H. injection H as <- <- <-. split; [reflexivity|eauto].
Qed.

(** The marker files of [createDirectoryStructure]. *)
Lemma createDirectoryStructure_puts (w w' : World R) repo b evs r :
  createDirectoryStructure hub repo b w = (w', evs, r) ->
  (forall a rest, puts evs = a :: rest ->
     put_path a = js ".nojekyll" /\ put_content a = [])
  /\ (r = Ok tt ->
      map put_path (puts evs)
      = [js ".nojekyll"; js "pdfs/.gitkeep"; js "assets/.gitkeep";
         js "qr-codes/.gitkeep"]
      /\ Forall (fun a => put_content a = []) (puts evs)).
Proof.
  unfold createDirectoryStructure. intros H.
  apply bind_inv in H as [(e & H & ->)|(w1 & e1 & [] & e2 & H1 & H & ->)].
  - apply uploadFile_puts in H as [[-> _]|[sha ->]].
    + split; [discriminate|discriminate].
    + split; [intros a rest [= <- _]; split; reflexivity|discriminate].
  - apply uploadFile_puts in H1 as [[_ [e' [=]]]|[sha H1]].
    rewrite puts_app, H1. split; [intros a rest [= <- _]; split; reflexivity|].
    intros ->. cbv zeta in H. cbn [for_of] in H.
    apply bind_inv in H as [(? & _ & [=])|(w2 & e3 & [] & ? & H2 & H & ->)].
    apply bind_inv in H as [(? & _ & [=])|(w3 & e4 & [] & ? & H3 & H & ->)].
    apply bind_inv in H as [(? & _ & [=])|(w4 & e5 & [] & ? & H4 & H & ->)].
    apply ret_inv in H as (_ & -> & _).
    apply uploadFile_puts in H2 as [[_ [e' [=]]]|[s2 H2]].
    apply uploadFile_puts in H3 as [[_ [e' [=]]]|[s3 H3]].
    apply uploadFile_puts in H4 as [[_ [e' [=]]]|[s4 H4]].
    rewrite !puts_app, H2, H3, H4. split; [reflexivity|].
    repeat constructor.
Qed.

(** The paths of the commits that step 7 owes are under [pdfs/]. *)
Lemma expected_commits_paths l (cs : list ChemicalRecord) :
  Forall (fun x => startsWith (fst (fst x)) (js "pdfs/") = true)
         (expected_commits l cs).
Proof.
  unfold expected_commits. apply List.Forall_forall. intros x Hx.
  apply in_flat_map in Hx as (c & _ & Hx).
  assert (Hslot : forall type data,
             In x (slot_commit l c type data) ->
             startsWith (fst (fst x)) (js "pdfs/") = true).
  { intros type data H. unfold slot_commit in H.
    destruct (truthy (slot_filename data)); [|destruct H].
    cbv zeta in H. destruct (pdfs l _) as [|bytes|e]; cbn [In] in H;
      [destruct H| |destruct H].
    destruct H as [<-|[]]. cbn [fst]. apply startsWith_spec. eauto. }
  apply in_app_or in Hx as [Hx|Hx]; eapply Hslot; exact Hx.
Qed.

Lemma sound_console_generateHTML cfg : sound console_event (@generateHTML R ext cfg).
Proof. unfold generateHTML. repeat sound_step. Qed.

(** Steps 2 to 12: the first commit, and the commits of a run that
    succeeds. *)
Lemma deploy_steps_layout (w w' : World R) cfg repo evs r :
  deploy_steps hub ext cfg repo w = (w', evs, r) ->
  (forall a rest, puts evs = a :: rest ->
     put_path a = js ".nojekyll" /\ put_content a = [])
  /\ (forall res, r = Ok res ->
      exists rest,
        map put_path (puts evs) = site_skeleton ++ rest
        /\ Forall (fun p => startsWith p (js "assets/") = true
                            \/ startsWith p (js "pdfs/") = true) rest).
Proof.
  unfold deploy_steps. cbv zeta. set (b := branch_of repo). intros H.
  apply bind_inv in H as [(? & H & _)|(w01 & e01 & [] & ? & H01 & H & ->)];
    [discriminate H|].
  apply emit_inv in H01 as (-> & -> & _).
  apply bind_inv in H as [(e & H & ->)|(w02 & e02 & html & ? & H02 & H & ->)].
  { apply sound_console_generateHTML in H as (_ & _ & H).
    rewrite puts_app. cbn [puts flat_map app].
    rewrite (no_put_puts _ (Forall_impl _ _ _ H console_no_put)).
    split; discriminate. }
  pose proof (sound_console_generateHTML _ _ _ _ _ H02) as (_ & _ & P02).
  apply (fun F => Forall_impl _ _ _ F console_no_put), no_put_puts in P02.
  apply bind_inv in H as [(e & H & ->)|(w03 & e03 & [] & ? & H03 & H & ->)].
  { apply createDirectoryStructure_puts in H as [H _].
    rewrite !puts_app, P02. cbn [puts flat_map app].
    split; [exact H|discriminate]. }
  pose proof (createDirectoryStructure_puts _ _ _ _ _ _ H03) as [F03 P03].
  destruct (P03 eq_refl) as [P03' _].
  split.
  { rewrite !puts_app, P02. cbn [puts flat_map app]. intros a rest Hp.
    destruct (puts e03) as [|a0 rest0] eqn:E; [discriminate P03'|].
    injection Hp as <- _. exact (F03 a0 rest0 eq_refl). }
  intros res ->.
  apply bind_inv in H as [(? & _ & [=])|(w04 & e04 & [] & ? & H04 & H & ->)].
  apply uploadFile_puts in H04 as [[_ [e' [=]]]|[s4 P04]].
  apply bind_inv in H as [(? & _ & [=])|(w05 & e05 & l & ? & H05 & H & ->)].
  apply get_local_inv in H05 as (-> & -> & _).
  apply bind_inv in H as [(? & _ & [=])|(w06 & e06 & [] & ? & H06 & H & ->)].
  pose proof (sound_uploadFile hub b _ _ _ _ _ _ _ _ H06) as (_ & L06 & _).
  apply uploadFile_puts in H06 as [[_ [e' [=]]]|[s6 P06]].
  apply bind_inv in H as [(? & _ & [=])|(w07 & e07 & [] & ? & H07 & H & ->)].
  apply uploadCustomerAssets_events in H07.
  apply bind_inv in H as [(? & _ & [=])|(w08 & e08 & [] & ? & H08 & H & ->)].
  apply emit_inv in H08 as (-> & -> & _).
  apply bind_inv in H as [(? & _ & [=])|(w09 & e09 & [] & ? & H09 & H & ->)].
  apply uploadPDFs_spec in H09 as (_ & (rest9 & E9 & R9) & _).
  rewrite (R9 tt eq_refl), app_nil_r in E9.
  apply bind_inv in H as [(? & _ & [=])|(w10 & e10 & [] & ? & H10 & H & ->)].
  apply (sound_enablePages hub b) in H10 as (_ & _ & P10).
  apply (fun F => Forall_impl _ _ _ F (publish_no_put b)), no_put_puts in P10.
  apply bind_inv in H as [(? & _ & [=])|(w11 & e11 & [] & ? & H11 & H & ->)].
  apply emit_inv in H11 as (-> & -> & _).
  apply bind_inv in H as [(? & _ & [=])|(w12 & e12 & [] & ? & H12 & H & ->)].
  apply emit_inv in H12 as (-> & -> & _).
  apply bind_inv in H as [(? & _ & [=])|(w13 & e13 & [] & ? & H13 & H & ->)].
  apply sound_verifyPDFsOnPages in H13 as (_ & _ & P13).
  apply (fun F => Forall_impl _ _ _ F verify_no_put), no_put_puts in P13.
  apply bind_inv in H as [(? & _ & [=])|(w14 & e14 & qr & ? & H14 & H & ->)].
  apply (sound_generateQRCodes b) in H14 as (_ & _ & P14).
  apply (fun F => Forall_impl _ _ _ F (publish_no_put b)), no_put_puts in P14.
  apply bind_inv in H as [(? & _ & [=])|(w15 & e15 & [] & ? & H15 & H & ->)].
  apply emit_inv in H15 as (-> & -> & _).
  apply bind_inv in H as [(? & _ & [=])|(w16 & e16 & l' & ? & H16 & H & ->)].
  apply get_local_inv in H16 as (-> & -> & _).
  apply ret_inv in H as (_ & -> & _).
  exists (map put_path (puts e07) ++ map put_path (puts e09)).
  split.
  { rewrite !puts_app, P02, P04, P06, P10, P13, P14. cbn [puts flat_map app].
    rewrite !app_nil_r, !map_app, P03'. unfold site_skeleton.
    cbn [map put_path commit_args app]. rewrite map_app. reflexivity. }
  apply Forall_app. split.
  - apply List.Forall_forall. intros p Hp. left.
    apply in_map_iff in Hp as (a & <- & Ha).
    assert (Hev : exists o, In (Put a o) e07).
    { clear - Ha. unfold puts in Ha. apply in_flat_map in Ha as (e & He & Ha).
      destruct e; cbn [In] in Ha; try contradiction.
      destruct Ha as [->|[]]. eauto. }
    destruct Hev as [o Ho].
    destruct (assets _ _) as [[files|e]|].
    + pose proof (proj1 (List.Forall_forall _ _) H07 _ Ho) as Hae.
      cbn [asset_event] in Hae.
      destruct Hae as (entry & buffer & _ & _ & _ & _ & _ & _ & _ & -> & _).
      apply startsWith_spec. eauto.
    + destruct H07 as [_ H07]. rewrite H07 in Ha. destruct Ha.
    + destruct H07 as (_ & _ & ->). destruct Ho as [[=]|[]].
  - apply List.Forall_forall. intros p Hp. right.
    apply in_map_iff in Hp as (a & <- & Ha).
    match type of E9 with
    | expected_commits ?l ?c = _ => pose proof (expected_commits_paths l c) as Hall
    end.
    rewrite E9 in Hall.
    apply (proj1 (List.Forall_forall _ _) Hall (commit_of a)).
    apply in_map. exact Ha.
Qed.

(** X15. The order of the commits of a deployment.  The first commit a
    deployment sends, if it sends any, is the empty file [.nojekyll]: no
    page and no document reaches the repository before Jekyll is switched
    off.  A deployment that succeeds has committed, in this order, the four
    markers, [index.html] and [README.md], and after these only files under
    [assets/] and under [pdfs/]. *)
Theorem deployment_layout (w w' : World R) (cfg : CustomerConfig)
    (evs : list event) (r : result DeployResult) :
  deployCustomerSite hub ext cfg w = (w', evs, r) ->
  (forall a rest, puts evs = a :: rest ->
     put_path a = js ".nojekyll" /\ put_content a = [])
  /\ (forall res, r = Ok res ->
      exists rest,
        map put_path (puts evs) = site_skeleton ++ rest
        /\ Forall (fun p => startsWith p (js "assets/") = true
                            \/ startsWith p (js "pdfs/") = true) rest).
Proof.
  unfold deployCustomerSite. intros H.
  assert (Hbody : exists w1 w2 e0 e1 repo r1,
             puts evs = puts e1
             /\ (puts e1 = []
                 \/ deploy_steps hub ext cfg repo w1 = (w2, e0, r1)
                    /\ puts e1 = puts e0
                    /\ forall res, r = Ok res -> r1 = Ok res)).
  { apply try_catch_inv in H as [(a & H & ->)|(w1 & e1 & e & e2 & H & Hh & ->)].
    - apply bind_inv in H as [(? & _ & [=])|(w0 & e0 & [] & ? & H0 & H & ->)].
      apply emit_inv in H0 as (-> & -> & _).
      apply bind_inv in H as [(? & _ & [=])|(w1 & e1 & repo & e2 & H1 & H & ->)].
      apply sound_createRepository in H1 as (_ & _ & P1).
      apply (fun F => Forall_impl _ _ _ F setup_no_put), no_put_puts in P1.
      exists w1, w', e2, ([ConsoleLog (js "🚀 Deploying GHS binder for "
                                        ++ cust_name (customer_info cfg) ++ js "...")]
                          ++ e1 ++ e2), repo, (Ok a).
      split; [reflexivity|]. right. split; [exact H|].
      split; [rewrite !puts_app, P1; reflexivity|auto].
    - apply bind_inv in Hh as [(? & Hh & _)|(? & ? & [] & ? & Hh1 & Hh & ->)];
        [discriminate Hh|].
      apply emit_inv in Hh1 as (-> & -> & _). injection Hh as <- <- <-.
      rewrite puts_app. cbn [puts flat_map app]. rewrite app_nil_r.
      apply bind_inv in H as [(? & H & _)|(w0 & e0 & [] & eb & H0 & H & ->)];
        [discriminate H|].
      apply emit_inv in H0 as (-> & -> & _).
      apply bind_inv in H as [(? & H & _)|(w2 & e2 & repo & e3 & H1 & H & ->)].
      + apply sound_createRepository in H as (_ & _ & P1).
        apply (fun F => Forall_impl _ _ _ F setup_no_put), no_put_puts in P1.
        exists w, w, [], ([ConsoleLog (js "🚀 Deploying GHS binder for "
                                        ++ cust_name (customer_info cfg) ++ js "...")]
                          ++ eb),
          {| repo_name := []; repo_default_branch := None; repo_html_url := [] |},
          (Throw e).
        split; [reflexivity|]. left. rewrite puts_app, P1. reflexivity.
      + apply sound_createRepository in H1 as (_ & _ & P1).
        apply (fun F => Forall_impl _ _ _ F setup_no_put), no_put_puts in P1.
        exists w2, w1, e3,
          ([ConsoleLog (js "🚀 Deploying GHS binder for "
                          ++ cust_name (customer_info cfg) ++ js "...")]
           ++ e2 ++ e3), repo, (Throw e).
        split; [reflexivity|]. right. split; [exact H|].
        split; [rewrite !puts_app, P1; reflexivity|discriminate]. }
  destruct Hbody as (w1 & w2 & e0 & e1 & repo & r1 & Hp & [Hnil|(Hsteps & He & Hr)]).
  - rewrite Hp, Hnil. split; [discriminate|].
    intros res ->. exfalso.
    apply deployCustomerSite_Ok in H as (wa & ea & eb & ec & repo' & _ & Hs & -> & _).
    apply deploy_steps_layout in Hs as [_ Hs].
    destruct (Hs res eq_refl) as (rest & Hrest & _).
    rewrite !puts_app in Hp. rewrite Hnil in Hp.
    apply (f_equal (map put_path)) in Hp. rewrite !map_app, Hrest in Hp.
    apply (f_equal (@length _)) in Hp. rewrite !length_app in Hp.
    cbn [site_skeleton length map] in Hp. lia.
  - apply deploy_steps_layout in Hsteps as [Hfirst Hok].
    rewrite Hp, He. split; [exact Hfirst|].
    intros res Hres. exact (Hok res (Hr res Hres)).
Qed.

End Publication.

Section PublicationExamples.
Import Deployer.

(** Pages are enabled already: the service answers 409 and the step goes
    on. *)
Lemma enablePages_conflict_witness :
  let w := Sample.world Sample.published [] [] [] in
  let conflict := Throw (Sim.http_error 409 (js "GitHub Pages is already enabled.")) in
  createPagesSite Sim.hub (remote w) owner (js "sqzr-demo-ghs-binder") (js "master")
    (js "/") = (Sample.published, conflict)
  /\ snd (enablePages Sim.hub (js "sqzr-demo-ghs-binder") (js "master") w) = Ok tt.
Proof.
  intros w conflict.
  assert (H1 : createPagesSite Sim.hub (remote w) owner (js "sqzr-demo-ghs-binder")
                 (js "master") (js "/") = (Sample.published, conflict))
    by (vm_compute; reflexivity).
  split; [exact H1|].
  destruct (enablePages_conflict Sim.hub w (js "sqzr-demo-ghs-binder") (js "master")
              Sample.published conflict H1) as (evs & r & Hrun & _ & Hok & _).
  rewrite Hrun. cbn [snd]. apply Hok. right.
  exists (Sim.http_error 409 (js "GitHub Pages is already enabled.")).
  split; reflexivity.
Defined.

(** A PDF answered with status 200 and no length. *)
Lemma verification_requires_length_witness :
  let res := {| res_status := 200;
                res_content_type := Some (js "application/pdf");
                res_content_length := None |} in
  check_response res
  = Throw (Error (js "Unexpected type/size: application/pdf, 0 bytes")).
Proof.
  intros res.
  rewrite (proj2 (verification_requires_length res eq_refl) eq_refl).
  vm_compute. reflexivity.
Defined.

(** The site is not published: the first document fails and the second is
    not asked for. *)
Lemma verifyPDFsOnPages_in_order_witness :
  let w := Sample.world Sample.existing [] [] [] in
  let run := verifyPDFsOnPages Sim.hub (js "sqzr-demo-ghs-binder")
               [Sample.bowl_cleaner] w in
  heads (snd (fst run))
  = [js "https://rascoused.github.io/sqzr-demo-ghs-binder/pdfs/302_dt_bowl_cleaner_literature.pdf"]
  /\ done_so_far (snd run)
       (map (pdf_url (js "sqzr-demo-ghs-binder"))
            (flat_map slot_files [Sample.bowl_cleaner]))
       (heads (snd (fst run))).
Proof.
  intros w run.
  split; [vm_compute; reflexivity|].
  assert (Hrun : run = (fst (fst run), snd (fst run), snd run))
    by (destruct run as [[w' evs] r]; reflexivity).
  exact (proj1 (verifyPDFsOnPages_in_order Sim.hub w _ _ _ _ _ Hrun)).
Defined.

(** The asset folder of the sample: of a logo, a hidden file and a
    directory, the logo alone is committed. *)
Lemma uploadCustomerAssets_files_witness :
  let w := {| remote := Sim.empty; configs := ∅;
              local := Sample.machine_with_assets |} in
  let run := uploadCustomerAssets Sim.hub (js "sqzr-demo-ghs-binder") (js "sqzr-demo")
               (js "main") w in
  map put_path (puts (snd (fst run))) = [js "assets/logo.png"]
  /\ Forall (asset_event (js "sqzr-demo-ghs-binder") (js "sqzr-demo") (js "main")
               Sample.asset_folder) (snd (fst run)).
Proof.
  intros w run.
  split; [vm_compute; reflexivity|].
  assert (Hrun : run = (fst (fst run), snd (fst run), snd run))
    by (destruct run as [[w' evs] r]; reflexivity).
  destruct (uploadCustomerAssets_files Sim.hub w _ _ _ _ _ _ Hrun) as (_ & _ & H).
  apply H. reflexivity.
Defined.

(** The deployment of the demonstration customer on an empty account. *)
Lemma deployment_layout_witness :
  let cfg := Sample.config [Sample.bowl_cleaner] in
  let w := Sample.world Sim.empty (chemicals cfg) Sample.all_pdfs [] in
  let run := deployCustomerSite Sim.hub Sim.ext cfg w in
  map put_path (puts (snd (fst run)))
  = site_skeleton ++ [js "pdfs/302_dt_bowl_cleaner_literature.pdf";
                      js "pdfs/302_dt_bowl_cleaner_sds.pdf"]
  /\ forall a rest, puts (snd (fst run)) = a :: rest ->
       put_path a = js ".nojekyll" /\ put_content a = [].
Proof.
  intros cfg w run.
  split; [vm_compute; reflexivity|].
  assert (Hrun : run = (fst (fst run), snd (fst run), snd run))
    by (destruct run as [[w' evs] r]; reflexivity).
  exact (proj1 (deployment_layout Sim.hub Sim.ext w _ cfg _ _ Hrun)).
Defined.

End PublicationExamples.

(* ===================================================================== *)
(** ** The request handlers and the customer operations                  *)
(* ===================================================================== *)

Section Handlers.
Import Deployer ChemicalManager Dashboard.
Context {R : Type} (hub : Hub R) (ext : Externals).

(** A handler that answers with the result of [m], or with status 500 and
    the message of the error [m] throws. *)
Lemma respond_run {A} (m : M R A) (w : World R) :
  try_catch (result <- m ;; json 200 (Success result))
            (fun error => json 500 (Failure (err_message error))) w
  = (fst (fst (m w)), snd (fst (m w)),
     Ok (match snd (m w) with
         | Ok a => {| reply_status := 200; reply_body := Success a |}
         | Throw e => {| reply_status := 500;
                         reply_body := Failure (err_message e) |}
         end)).
Proof.
  unfold try_catch, bind, json, ret. destruct (m w) as [[w1 e1] [a|e]];
    cbn [fst snd]; rewrite app_nil_r; reflexivity.
Qed.

(** X16. The errors of the chemical registry reach the client as status
    500, with the message of the error: chemical data that the validation
    rejects, an id that no record has, a customer without a configuration
    (the message is then that of the failed read).  In each case the world
    is left as it is. *)
Theorem registry_errors_are_500 (w : World R) (slug other id : jsstr)
    (chemicalData : ChemicalInput) (cfg : CustomerConfig) (e : JsError) :
  configs w !! slug = Some cfg ->
  validateChemicalData chemicalData = Throw e ->
  ~ In id (map chem_id (chemicals cfg)) ->
  configs w !! other = None ->
  (exists evs,
      handleAddChemical hub ext slug chemicalData w
      = (w, evs, Ok {| reply_status := 500;
                       reply_body := Failure (err_message e) |}))
  /\ (exists evs,
      handleRemoveChemical hub ext slug id w
      = (w, evs, Ok {| reply_status := 500;
                       reply_body :=
                         Failure (js "Chemical " ++ dquote ++ id ++ dquote
                                    ++ js " not found") |}))
  /\ (exists evs msg,
      handleListChemicals other None w
      = (w, evs, Ok {| reply_status := 500; reply_body := Failure msg |})
      /\ handleDeployCustomer hub ext other w
         = (w, [], Ok {| reply_status := 500; reply_body := Failure msg |})).
Proof.
  intros Hcfg Hval Hid Hother.
  apply findIndex_not_In in Hid.
  split; [|split].
  - unfold handleAddChemical. rewrite respond_run.
    unfold addChemical, try_catch, bind, emit, loadCustomerConfig, lift_result, throw.
    rewrite Hcfg, Hval. cbn [fst snd]. eauto.
  - unfold handleRemoveChemical. rewrite respond_run.
    unfold removeChemical, try_catch, bind, emit, loadCustomerConfig, throw.
    rewrite Hcfg, Hid. cbn [fst snd]. eauto.
  - unfold handleListChemicals, handleDeployCustomer. cbv zeta.
    rewrite !respond_run.
    unfold listChemicals, try_catch, bind, emit, loadCustomerConfig, readConfig, throw.
    rewrite Hother. cbn [fst snd err_message Error].
    eexists _, _. split; reflexivity.
Qed.

Lemma respond_answers {A} (m : M R A) (w : World R) :
  answers (try_catch (result <- m ;; json 200 (Success result))
                     (fun error => json 500 (Failure (err_message error)))) w.
Proof.
  unfold answers. rewrite respond_run. eexists _, _, _. split; [reflexivity|].
  unfold well_formed_reply. destruct (snd (m w)); cbn; auto.
Qed.

(** X17. The handlers of the customer, chemical, deployment and check-list
    routes never throw: whatever the request and whatever the managers do,
    each returns with an answer, a success body or a text having status 200
    and a failure body status 400 or 500. *)
Theorem handlers_answer (w : World R) (slug id : jsstr)
    (include_inactive : option jsstr) (chemicalData : ChemicalInput)
    (customerData : CustomerData)
    (repos_delete : R -> jsstr -> jsstr -> R * result unit)
    (fs_writeFile : gmap jsstr CustomerConfig -> jsstr -> CustomerConfig
                    -> result (gmap jsstr CustomerConfig))
    (fs_mkdir : Local -> jsstr -> result Local) :
  answers handleListCustomers w
  /\ answers (handleCreateCustomer fs_writeFile fs_mkdir customerData) w
  /\ answers (handleDeleteCustomer repos_delete slug) w
  /\ answers (handleListChemicals slug include_inactive) w
  /\ answers (handleAddChemical hub ext slug chemicalData) w
  /\ answers (handleRemoveChemical hub ext slug id) w
  /\ answers (handleDeployCustomer hub ext slug) w
  /\ answers (handleGenerateChecklist slug) w.
Proof.
  repeat split; try apply respond_answers.
  - unfold answers, handleCreateCustomer, try_catch, json, ret.
    destruct (negb (truthy (cd_name customerData))
              || negb (truthy (cd_slug customerData))).
    + eexists _, _, _. split; [reflexivity|]. cbn. auto.
    + unfold bind, get_local, writeFile, mkdir. cbv zeta.
      destruct (fs_writeFile _ _ _) as [store|e]; cbn [local];
        [destruct (fs_mkdir _ _) as [l|e]|];
        eexists _, _, _; (split; [reflexivity|]); cbn; auto.
  - unfold answers, handleDeployCustomer, try_catch, bind, json, ret, readConfig.
    destruct (configs w !! slug) as [cfg|].
    + destruct (deployCustomerSite hub ext cfg w) as [[w1 e1] [res|e]];
        eexists _, _, _; (split; [reflexivity|]); cbn; auto.
    + eexists _, _, _. split; [reflexivity|]. cbn. auto.
  - unfold answers, handleGenerateChecklist, try_catch, bind, json, ret.
    destruct (generateUploadChecklist slug w) as [[w1 e1] [text|e]];
      eexists _, _, _; (split; [reflexivity|]); cbn; auto.
Qed.

(** X18. [handleCreateCustomer] writes the configuration of the customer
    without looking at what is stored.  For a request with a name and a
    slug, the document it hands to the file system is the new one, with no
    chemical, whatever document and however many chemicals are stored under
    that slug.  When the file system replaces the document of the customer
    and makes its staging folder, as it does for a slug that is a file
    name, the answer has status 200, the document stored under the slug is
    the new one, the other customers are not touched and the staging folder
    exists with the files it had.  When the write fails, the answer has
    status 500 with the message of the error and nothing has changed; when
    the folder cannot be made, the answer has status 500 although the
    document was written.  Nothing is sent to the hosting service. *)
Theorem handleCreateCustomer_overwrites (w : World R) (customerData : CustomerData)
    (name slug : jsstr)
    (fs_writeFile : gmap jsstr CustomerConfig -> jsstr -> CustomerConfig
                    -> result (gmap jsstr CustomerConfig))
    (fs_mkdir : Local -> jsstr -> result Local) :
  cd_name customerData = Some name -> name <> [] ->
  cd_slug customerData = Some slug -> slug <> [] ->
  let document := new_config (createCustomerConfig (local w) customerData) in
  let run := handleCreateCustomer fs_writeFile fs_mkdir customerData w in
  (chemicals document = []
   /\ cust_name (customer_info document) = name
   /\ cust_slug (customer_info document) = slug
   /\ gh_name (cust_github_repo (customer_info document)) = slug ++ js "-ghs-binder")
  /\ remote (fst (fst run)) = remote w
  /\ snd (fst run) = []
  /\ (forall e, fs_writeFile (configs w) slug document = Throw e ->
        run = (w, [], Ok {| reply_status := 500;
                            reply_body := Failure (err_message e) |}))
  /\ (forall store e,
        fs_writeFile (configs w) slug document = Ok store ->
        fs_mkdir (local w) slug = Throw e ->
        run = ({| remote := remote w; configs := store; local := local w |}, [],
               Ok {| reply_status := 500; reply_body := Failure (err_message e) |}))
  /\ (fs_writeFile (configs w) slug document = Ok (<[slug := document]> (configs w)) ->
      fs_mkdir (local w) slug = Ok (mkdir_uploads (local w) slug) ->
      exists w' created,
        run = (w', [], Ok {| reply_status := 200; reply_body := Success created |})
        /\ created_customer created = customer_info document
        /\ configs w' !! slug = Some document
        /\ (forall s, s <> slug -> configs w' !! s = configs w !! s)
        /\ uploads (local w') slug <> None
        /\ staged_files (local w') slug = staged_files (local w) slug).
Proof.
  intros Hname Hn Hslug Hs document run.
  assert (Ht : truthy (cd_name customerData) = true /\ truthy (cd_slug customerData) = true
               /\ or_default (cd_name customerData) [] = name
               /\ or_default (cd_slug customerData) [] = slug).
  { rewrite Hname, Hslug. destruct name, slug; try contradiction. auto. }
  destruct Ht as (Ht1 & Ht2 & Hd1 & Hd2).
  assert (Hrun : run
    = match fs_writeFile (configs w) slug document with
      | Ok store =>
        match fs_mkdir (local w) slug with
        | Ok l =>
          ({| remote := remote w; configs := store; local := l |}, [],
           Ok {| reply_status := 200;
                 reply_body :=
                   Success {| created_message := js "Customer created successfully";
                              created_customer := customer_info document;
                              created_company :=
                                new_company
                                  (createCustomerConfig (local w) customerData) |} |})
        | Throw e =>
          ({| remote := remote w; configs := store; local := local w |}, [],
           Ok {| reply_status := 500; reply_body := Failure (err_message e) |})
        end
      | Throw e => (w, [], Ok {| reply_status := 500;
                                 reply_body := Failure (err_message e) |})
      end).
  { unfold run, handleCreateCustomer, try_catch, bind, get_local, writeFile, mkdir,
      json, ret.
    rewrite Ht1, Ht2. cbn [negb orb app]. rewrite Hd2. fold document.
    destruct (fs_writeFile (configs w) slug document) as [store|e]; cbn [local];
      [destruct (fs_mkdir (local w) slug) as [l|e]|]; reflexivity. }
  split.
  { unfold document, createCustomerConfig. rewrite Hd1, Hd2. cbn. auto. }
  split.
  { rewrite Hrun. destruct (fs_writeFile _ _ _); [destruct (fs_mkdir _ _)|];
      reflexivity. }
  split.
  { rewrite Hrun. destruct (fs_writeFile _ _ _); [destruct (fs_mkdir _ _)|];
      reflexivity. }
  split; [intros e He; rewrite Hrun, He; reflexivity|].
  split; [intros store e Hw He; rewrite Hrun, Hw, He; reflexivity|].
  intros Hw Hm. rewrite Hrun, Hw, Hm. eexists _, _. split; [reflexivity|].
  cbn [configs local created_customer].
  split; [reflexivity|].
  split; [apply lookup_insert_eq|].
  split; [intros s Hne; apply lookup_insert_ne; congruence|].
  unfold staged_files, mkdir_uploads. cbn [uploads].
  rewrite bool_decide_eq_true_2 by reflexivity.
  split; [discriminate|].
  destruct (uploads (local w) slug); [reflexivity|]. cbn [from_option].
  apply elements_empty.
Qed.

(** X19. Without a name or without a slug (absent or empty),
    [handleCreateCustomer] answers with status 400 and writes nothing. *)
Theorem handleCreateCustomer_requires (w : World R) (customerData : CustomerData)
    (fs_writeFile : gmap jsstr CustomerConfig -> jsstr -> CustomerConfig
                    -> result (gmap jsstr CustomerConfig))
    (fs_mkdir : Local -> jsstr -> result Local) :
  truthy (cd_name customerData) = false \/ truthy (cd_slug customerData) = false ->
  handleCreateCustomer fs_writeFile fs_mkdir customerData w
  = (w, [], Ok {| reply_status := 400;
                  reply_body := Failure (js "Customer name and slug are required") |}).
Proof.
  intros H. unfold handleCreateCustomer, try_catch, json, ret.
  destruct H as [-> | ->]; cbn [negb orb]; rewrite ?orb_true_r; reflexivity.
Qed.

(** X20. The address recorded for a new customer is not the address of
    its site.  [createCustomerConfig] writes [github_repo.url] under
    [rasco-inc.github.io]; the deployer publishes, verifies and reports the
    site under [rascoused.github.io], the account it commits to.  So the
    homepage it gives the repository, and the website line of the check
    list, never equal the address of a deployed site, whatever the
    customer and whatever the name of the repository. *)
Theorem created_homepage_differs (l : Local) (customerData : CustomerData)
    (repoName : jsstr) :
  let cfg := new_config (createCustomerConfig l customerData) in
  gh_url (cust_github_repo (customer_info cfg)) <> pages_base repoName
  /\ cr_homepage (create_args cfg) <> pages_base repoName
  /\ cr_homepage (create_args cfg) = gh_url (cust_github_repo (customer_info cfg)).
Proof.
  cbv zeta.
  assert (H : forall a b : jsstr,
             js "https://rasco-inc.github.io/" ++ a <> pages_base b).
  { intros a b Heq. unfold pages_base, owner in Heq.
    apply (f_equal (fun s => nth 13 s 0)) in Heq.
    vm_compute in Heq. discriminate Heq. }
  split; [apply H|]. split; [apply H|reflexivity].
Qed.

(** X21. [deleteCustomerSite] deletes the repository first and the
    configuration only after that.  When the service refuses the deletion
    (of a repository that does not exist, say), the error is logged and
    thrown and the configuration stays in the store; when it
    accepts, the configuration of the customer is removed and the others
    are kept.  The repository asked for is the one the configuration
    names, of the account of the deployer. *)
Theorem deleteCustomerSite_order (w : World R)
    (repos_delete : R -> jsstr -> jsstr -> R * result unit)
    (slug : jsstr) (cfg : CustomerConfig) (r1 : R) (o : result unit) :
  configs w !! slug = Some cfg ->
  repos_delete (remote w) owner (gh_name (cust_github_repo (customer_info cfg)))
  = (r1, o) ->
  exists w' evs r,
    deleteCustomerSite repos_delete slug w = (w', evs, r)
    /\ remote w' = r1 /\ local w' = local w
    /\ Forall console_event evs
    /\ (forall s, s <> slug -> configs w' !! s = configs w !! s)
    /\ (forall e, o = Throw e -> r = Throw e /\ configs w' !! slug = Some cfg)
    /\ (o = Ok tt ->
        configs w' !! slug = None
        /\ r = Ok {| del_success := true;
                     del_message := js "Customer site " ++ slug
                                    ++ js " deleted successfully" |}).
Proof.
  intros Hcfg Hdel.
  unfold deleteCustomerSite, try_catch, bind, readConfig, deleteRepository,
    unlinkConfig, emit, ret, throw.
  rewrite Hcfg. cbn [remote]. rewrite Hdel. destruct o as [[]|e].
  - eexists _, _, _. split; [reflexivity|]. cbn [remote local configs].
    split; [reflexivity|]. split; [reflexivity|].
    split; [repeat constructor|].
    split; [intros s Hs; apply lookup_delete_ne; congruence|].
    split; [discriminate|]. intros _. split; [apply lookup_delete_eq|reflexivity].
  - eexists _, _, _. split; [reflexivity|]. cbn [remote local configs].
    split; [reflexivity|]. split; [reflexivity|].
    split; [repeat constructor|].
    split; [reflexivity|].
    split; [intros e' [= <-]; auto|discriminate].
Qed.

(** X22. [updateCustomerSite] stores before it deploys.  For a customer
    with a configuration, the store holds afterwards, whatever the
    deployment did, the configuration with the keys of [updates] copied
    over it and [site_settings.last_updated] set to the current date, also
    over a date that [updates] brought; a key that [updates] does not have
    keeps its value, and the chemical list is replaced as a whole when
    [updates] has one.  The result of a deployment that succeeds counts the
    chemicals of the configuration stored. *)
Theorem updateCustomerSite_stores (w : World R) (slug : jsstr)
    (updates : ConfigUpdates) (cfg : CustomerConfig) :
  configs w !! slug = Some cfg ->
  exists w' evs r cfg',
    updateCustomerSite hub ext slug updates w = (w', evs, r)
    /\ configs w' = <[slug := cfg']> (configs w)
    /\ local w' = local w
    /\ site_last_updated (site_settings cfg') = today (local w)
    /\ chemicals cfg' = default (chemicals cfg) (up_chemicals updates)
    /\ customer_info cfg' = default (customer_info cfg) (up_customer_info updates)
    /\ deployment cfg' = default (deployment cfg) (up_deployment updates)
    /\ (forall res, r = Ok res ->
        total_chemicals (deployment_info res) = length (chemicals cfg')).
Proof.
  intros Hcfg.
  unfold updateCustomerSite, try_catch, bind, readConfig, get_local, writeConfig.
  rewrite Hcfg. cbv zeta.
  set (cfg' := set_site_last_updated (assign_config cfg updates) (today (local w))).
  destruct (deployCustomerSite hub ext cfg' _) as [[w2 e2] rd] eqn:Hd.
  pose proof (deployCustomerSite_frame hub ext _ _ _ _ _ Hd) as [Hc2 Hl2].
  cbn [configs local] in Hc2, Hl2.
  assert (Htotal : forall res, rd = Ok res ->
            total_chemicals (deployment_info res) = length (chemicals cfg')).
  { intros res ->. apply deployCustomerSite_Ok in Hd
      as (w1 & e0 & e1 & e3 & repo & _ & Hs & _ & _).
    apply deploy_steps_Ok in Hs
      as (? & ? & ? & ? & ? & ? & ? & ? & ? & ? & _ & _ & _ & _ & _ & _ & _ & Ht).
    exact Ht. }
  destruct rd as [res|e]; unfold emit, throw;
    eexists _, _, _, cfg'; (split; [reflexivity|]);
    (split; [exact Hc2|]); (split; [exact Hl2|]);
    (split; [reflexivity|]); (split; [reflexivity|]);
    (split; [reflexivity|]); (split; [reflexivity|]).
  - intros res' [= <-]. apply Htotal. reflexivity.
  - discriminate.
Qed.

(** X23. A deployment started from the dashboard leaves every stored
    configuration as it is, whether it succeeds or fails: nothing records
    the deployment, so [deployment.status] stays what it was and
    [deployment.last_deployed] stays unset.  The local files are not
    touched either.  The answer has status 200 with the result of the
    deployment, or status 500 with the message of its error. *)
Theorem handleDeployCustomer_leaves_store (w : World R) (slug : jsstr)
    (cfg : CustomerConfig) :
  configs w !! slug = Some cfg ->
  exists w' evs reply,
    handleDeployCustomer hub ext slug w = (w', evs, Ok reply)
    /\ configs w' = configs w
    /\ local w' = local w
    /\ match snd (deployCustomerSite hub ext cfg w) with
       | Ok res => reply = {| reply_status := 200; reply_body := Success res |}
       | Throw e =>
         reply = {| reply_status := 500; reply_body := Failure (err_message e) |}
       end.
Proof.
  intros Hcfg.
  unfold handleDeployCustomer, try_catch, bind, json, ret, readConfig.
  rewrite Hcfg.
  destruct (deployCustomerSite hub ext cfg w) as [[w1 e1] rd] eqn:Hd.
  apply deployCustomerSite_frame in Hd as [Hc Hl].
  destruct rd as [res|e]; eexists _, _, _; (split; [reflexivity|]);
    cbn [snd]; auto.
Qed.

Lemma omap_length_le {A B} (f : A -> option B) (l : list A) :
  (length (omap f l) <= length l)%nat.
Proof.
  induction l as [|a l IH]; [reflexivity|]. cbn [omap list_omap].
  destruct (f a); cbn [length]; lia.
Qed.

(** X24. [listCustomerSites], as the dashboard answers it: every stored
    configuration except [customer_template.json] is a customer, and its
    entry counts the active chemicals only (the file-status report counts
    all of them).  Nothing is changed. *)
Theorem handleListCustomers_lists (w : World R) :
  exists customers,
    listCustomerSites w = (w, [], Ok customers)
    /\ handleListCustomers w
       = (w, [], Ok {| reply_status := 200; reply_body := Success customers |})
    /\ (forall site,
          In site customers
          <-> exists key cfg,
                configs w !! key = Some cfg
                /\ key <> js "customer_template"
                /\ site = site_of cfg)
    /\ (length customers <= size (configs w))%nat.
Proof.
  unfold handleListCustomers, try_catch, bind, json, ret, listCustomerSites.
  eexists. split; [reflexivity|]. split; [reflexivity|]. split.
  - intros site. rewrite <- list_elem_of_In, list_elem_of_omap. split.
    + intros ([key cfg] & Hin & Hf). apply elem_of_map_to_list in Hin.
      unfold str_eqb in Hf. destruct (bool_decide _) eqn:E; [discriminate|].
      apply bool_decide_eq_false in E. injection Hf as <-.
      exists key, cfg. auto.
    + intros (key & cfg & Hin & Hne & ->). exists (key, cfg).
      split; [apply elem_of_map_to_list; exact Hin|].
      unfold str_eqb. rewrite bool_decide_eq_false_2 by exact Hne. reflexivity.
  - rewrite <- length_map_to_list. apply omap_length_le.
Qed.

End Handlers.

Section HandlersExamples.
Import Deployer ChemicalManager Dashboard.

(** Invalid data, an unknown id and an unknown customer. *)
Lemma registry_errors_are_500_witness :
  let w := Sample.world Sim.empty [Sample.bowl_cleaner] [] [] in
  let data := Sample.input (js "Floor Cleaner") None (js "floor.docx") (js "floor_sds.pdf") in
  validateChemicalData data = Throw (Error (js "Literature file must be a PDF"))
  /\ snd (handleAddChemical Sim.hub Sim.ext (js "sqzr-demo") data w)
     = Ok {| reply_status := 500;
             reply_body := Failure (js "Literature file must be a PDF") |}
  /\ exists msg,
      snd (handleDeployCustomer Sim.hub Sim.ext (js "acme") w)
      = Ok {| reply_status := 500; reply_body := Failure msg |}.
Proof.
  intros w data.
  assert (H1 : configs w !! js "sqzr-demo" = Some (Sample.config [Sample.bowl_cleaner]))
    by (vm_compute; reflexivity).
  assert (H2 : validateChemicalData data
               = Throw (Error (js "Literature file must be a PDF")))
    by (vm_compute; reflexivity).
  assert (H3 : ~ In (js "glass-cleaner")
                    (map chem_id (chemicals (Sample.config [Sample.bowl_cleaner])))).
  { intros [H|[]]. vm_compute in H. discriminate H. }
  assert (H4 : configs w !! js "acme" = None) by (vm_compute; reflexivity).
  split; [exact H2|].
  destruct (registry_errors_are_500 Sim.hub Sim.ext w (js "sqzr-demo") (js "acme")
              (js "glass-cleaner") data _ _ H1 H2 H3 H4)
    as ((e1 & Hadd) & _ & (e2 & msg & _ & Hdep)).
  rewrite Hadd, Hdep. split; [reflexivity|exists msg; reflexivity].
Defined.

(** The demonstration customer, with its chemical, is created again; and
    a customer whose slug has a separator in it. *)
Lemma handleCreateCustomer_overwrites_witness :
  let w := Sample.world Sim.empty [Sample.bowl_cleaner] [] [js "a.pdf"] in
  let data := Sample.customer_data (Some (js "SQZR")) (Some (js "sqzr-demo")) in
  let nested := Sample.customer_data (Some (js "SQZR")) (Some (js "eu/sqzr")) in
  (exists cfg, configs w !! js "sqzr-demo" = Some cfg
               /\ chemicals cfg = [Sample.bowl_cleaner])
  /\ (exists w' created cfg',
        handleCreateCustomer Sample.write_file Sample.make_folder data w
        = (w', [], Ok {| reply_status := 200; reply_body := Success created |})
        /\ configs w' !! js "sqzr-demo" = Some cfg'
        /\ chemicals cfg' = []
        /\ staged_files (local w') (js "sqzr-demo") = [js "a.pdf"])
  /\ exists msg,
      handleCreateCustomer Sample.write_file Sample.make_folder nested w
      = (w, [], Ok {| reply_status := 500; reply_body := Failure msg |}).
Proof.
  intros w data nested.
  split; [eexists; split; [vm_compute; reflexivity|reflexivity]|].
  split.
  - destruct (handleCreateCustomer_overwrites w data (js "SQZR") (js "sqzr-demo")
                Sample.write_file Sample.make_folder)
      as ((Hnew & _) & _ & _ & _ & _ & Hok);
      [reflexivity|discriminate|reflexivity|discriminate|].
    destruct Hok as (w' & created & Hrun & _ & Hcfg & _ & _ & Hst);
      [vm_compute; reflexivity|reflexivity|].
    exists w', created, (new_config (createCustomerConfig (local w) data)).
    split; [exact Hrun|]. split; [exact Hcfg|]. split; [exact Hnew|].
    rewrite Hst. vm_compute. reflexivity.
  - destruct (handleCreateCustomer_overwrites w nested (js "SQZR") (js "eu/sqzr")
                Sample.write_file Sample.make_folder)
      as (_ & _ & _ & Hfail & _);
      [reflexivity|discriminate|reflexivity|discriminate|].
    eexists. apply Hfail. vm_compute. reflexivity.
Defined.

(** A request without a slug. *)
Lemma handleCreateCustomer_requires_witness :
  let w := Sample.world Sim.empty [Sample.bowl_cleaner] [] [] in
  let data := Sample.customer_data (Some (js "SQZR")) None in
  handleCreateCustomer Sample.write_file Sample.make_folder data w
  = (w, [], Ok {| reply_status := 400;
                  reply_body := Failure (js "Customer name and slug are required") |}).
Proof.
  intros w data. apply handleCreateCustomer_requires. right. reflexivity.
Defined.

(** The customer was never deployed: the service has no repository to
    delete, and the configuration stays. *)
Lemma deleteCustomerSite_order_witness :
  let w := Sample.world Sim.empty [Sample.bowl_cleaner] [] [] in
  let run := deleteCustomerSite Sim.delete_repo (js "sqzr-demo") w in
  snd run = Throw (Sim.http_error 404 (js "Not Found"))
  /\ configs (fst (fst run)) !! js "sqzr-demo"
     = Some (Sample.config [Sample.bowl_cleaner]).
Proof.
  intros w run.
  assert (H1 : configs w !! js "sqzr-demo" = Some (Sample.config [Sample.bowl_cleaner]))
    by (vm_compute; reflexivity).
  assert (H2 : Sim.delete_repo (remote w) owner
                 (gh_name (cust_github_repo
                             (customer_info (Sample.config [Sample.bowl_cleaner]))))
               = (Sim.empty, Throw (Sim.http_error 404 (js "Not Found"))))
    by (vm_compute; reflexivity).
  destruct (deleteCustomerSite_order w Sim.delete_repo (js "sqzr-demo") _ _ _ H1 H2)
    as (w' & evs & r & Hrun & _ & _ & _ & _ & Hthrow & _).
  destruct (Hthrow _ eq_refl) as [-> Hkept].
  subst run. rewrite Hrun. split; [reflexivity|exact Hkept].
Defined.

(** An update that replaces the chemical list, during an outage. *)
Lemma updateCustomerSite_stores_witness :
  let w := Sample.world Sim.empty [Sample.bowl_cleaner] [] [] in
  let updates := {| up_customer_info := None;
                    up_chemicals := Some [Sample.glass_cleaner];
                    up_site_settings := None;
                    up_deployment := None |} in
  exists w' evs e cfg',
    updateCustomerSite Sim.outage Sim.ext (js "sqzr-demo") updates w
    = (w', evs, Throw e)
    /\ configs w' !! js "sqzr-demo" = Some cfg'
    /\ chemicals cfg' = [Sample.glass_cleaner]
    /\ site_last_updated (site_settings cfg') = js "2025-08-01".
Proof.
  intros w updates.
  assert (H1 : configs w !! js "sqzr-demo" = Some (Sample.config [Sample.bowl_cleaner]))
    by (vm_compute; reflexivity).
  destruct (updateCustomerSite_stores Sim.outage Sim.ext w (js "sqzr-demo") updates _ H1)
    as (w' & evs & r & cfg' & Hrun & Hcfg & _ & Hdate & Hcs & _).
  assert (Hr : match snd (updateCustomerSite Sim.outage Sim.ext (js "sqzr-demo")
                            updates w) with
               | Ok _ => False
               | Throw _ => True
               end) by (vm_compute; exact I).
  rewrite Hrun in Hr. cbn [snd] in Hr. destruct r as [res|e]; [destruct Hr|].
  exists w', evs, e, cfg'. split; [exact Hrun|].
  split; [rewrite Hcfg; apply lookup_insert_eq|].
  split; [exact Hcs|]. rewrite Hdate. reflexivity.
Defined.

(** A deployment from the dashboard, during an outage. *)
Lemma handleDeployCustomer_leaves_store_witness :
  let w := Sample.world Sim.empty [Sample.bowl_cleaner] [] [] in
  exists w' evs reply,
    handleDeployCustomer Sim.outage Sim.ext (js "sqzr-demo") w = (w', evs, Ok reply)
    /\ reply_status reply = 500%Z
    /\ configs w' = configs w.
Proof.
  intros w.
  assert (H1 : configs w !! js "sqzr-demo" = Some (Sample.config [Sample.bowl_cleaner]))
    by (vm_compute; reflexivity).
  destruct (handleDeployCustomer_leaves_store Sim.outage Sim.ext w (js "sqzr-demo") _ H1)
    as (w' & evs & reply & Hrun & Hcfg & _ & Hreply).
  assert (Hr : match snd (deployCustomerSite Sim.outage Sim.ext
                            (Sample.config [Sample.bowl_cleaner]) w) with
               | Ok _ => False
               | Throw _ => True
               end) by (vm_compute; exact I).
  destruct (snd (deployCustomerSite Sim.outage Sim.ext _ w)) as [res|e];
    [destruct Hr|].
  exists w', evs, reply. split; [exact Hrun|]. split; [|exact Hcfg].
  rewrite Hreply. reflexivity.
Defined.

End HandlersExamples.

(* ===================================================================== *)
(** ** The text fallback of the PDF generator                            *)
(* ===================================================================== *)

Section SafeText.
Import PDFGenerator.

Lemma replace_all_latin1 p0 pattern replacement s :
  255 < p0 ->
  Forall (fun c => c <= 255) s ->
  replace_all (p0 :: pattern) replacement 0 s = s.
Proof.
  intros Hp. induction 1 as [|c s Hc _ IH]; [reflexivity|].
  cbn [replace_all startsWith].
  replace (p0 =? c) with false by (symmetry; apply N.eqb_neq; lia).
  cbn [andb]. rewrite IH. reflexivity.
Qed.

Lemma remove_range_latin1 lo hi s :
  255 < lo ->
  Forall (fun c => c <= 255) s ->
  remove_range lo hi s = s.
Proof.
  intros Hlo. induction 1 as [|c s Hc _ IH]; [reflexivity|].
  cbn [remove_range]. rewrite IH.
  replace (is_high_surrogate c) with false
    by (symmetry; apply andb_false_iff; left; apply N.leb_gt; lia).
  replace (lo <=? c) with false by (symmetry; apply N.leb_gt; lia).
  reflexivity.
Qed.

Lemma containsSpecialChars_false s :
  containsSpecialChars s = false -> Forall (fun c => c <= 255) s.
Proof.
  unfold containsSpecialChars. induction s as [|c s IH]; intros H; [constructor|].
  cbn [existsb] in H. apply orb_false_iff in H as [H1 H2].
  constructor; [apply N.ltb_ge in H1; exact H1|auto].
Qed.

(** X25. A text in which [containsSpecialChars] finds nothing (every code
    unit is at most U+00FF) is returned unchanged by [makeSafeText]. *)
Theorem makeSafeText_latin1 (text : jsstr) :
  containsSpecialChars text = false -> makeSafeText text = text.
Proof.
  intros H. apply containsSpecialChars_false in H.
  unfold makeSafeText.
  change (js "🚨") with [55357; 57000].
  change (js "⚠️") with [9888; 65039].
  change (js "✅") with [9989].
  change (js "➤") with [10148].
  cbv zeta.
  do 4 (rewrite (replace_all_latin1 _ _ _ text) by (exact H || lia)).
  do 5 (rewrite (remove_range_latin1 _ _ text) by (exact H || lia)).
  reflexivity.
Qed.

(** The code units [remove_range] leaves are code units of its argument. *)
Lemma remove_range_Forall (P : N -> Prop) lo hi : forall n s,
  (length s <= n)%nat -> Forall P s -> Forall P (remove_range lo hi s).
Proof.
  induction n as [|n IH]; intros s Hn Hs.
  - destruct s; [constructor|simpl in Hn; lia].
  - destruct s as [|c r]; [constructor|].
    inversion Hs as [|? ? Hc Hr]; subst. simpl in Hn.
    assert (Hsingle : Forall P (if (lo <=? c) && (c <=? hi) then remove_range lo hi r
                                else c :: remove_range lo hi r)).
    { destruct ((lo <=? c) && (c <=? hi)); [|constructor; [exact Hc|]];
        apply IH; (lia || exact Hr). }
    cbn [remove_range]. cbv zeta.
    destruct (is_high_surrogate c); [|exact Hsingle].
    destruct r as [|d r']; [exact Hsingle|].
    destruct (is_low_surrogate d); [|exact Hsingle].
    inversion Hr as [|? ? Hd Hr']; subst. simpl in Hn.
    clear Hsingle.
    match goal with |- context [if ?b then _ else _] => destruct b end;
      [|constructor; [exact Hc|constructor; [exact Hd|]]];
      apply IH; (lia || exact Hr').
Qed.

(** Below the surrogates, [remove_range] removes every code unit of the
    range. *)
Lemma remove_range_removes lo hi : hi < 55296 -> forall n s,
  (length s <= n)%nat ->
  Forall (fun c => ~ (lo <= c <= hi)) (remove_range lo hi s).
Proof.
  intros Hhi. induction n as [|n IH]; intros s Hn.
  - destruct s; [constructor|simpl in Hn; lia].
  - destruct s as [|c r]; [constructor|]. simpl in Hn.
    assert (Hsingle : Forall (fun c => ~ (lo <= c <= hi))
                        (if (lo <=? c) && (c <=? hi) then remove_range lo hi r
                         else c :: remove_range lo hi r)).
    { destruct ((lo <=? c) && (c <=? hi)) eqn:E; [apply IH; lia|].
      constructor; [|apply IH; lia].
      intros [H1 H2]. apply andb_false_iff in E as [E|E]; apply N.leb_gt in E; lia. }
    cbn [remove_range]. cbv zeta.
    destruct (is_high_surrogate c) eqn:Ec; [|exact Hsingle].
    destruct r as [|d r']; [exact Hsingle|].
    destruct (is_low_surrogate d) eqn:Ed; [|exact Hsingle].
    simpl in Hn.
    clear Hsingle.
    match goal with |- context [if ?b then _ else _] => destruct b end;
      [apply IH; lia|].
    apply andb_true_iff in Ec as [Ec _], Ed as [Ed _].
    apply N.leb_le in Ec, Ed.
    constructor; [lia|constructor; [lia|apply IH; lia]].
Qed.

(** X26. The result of [makeSafeText] has no code unit between U+2600 and
    U+27BF, whatever the text: the two last replacements remove these
    blocks, and with them the warning sign and the check mark that the
    first replacements have just put in for the emoji. *)
Theorem makeSafeText_no_symbol (text : jsstr) :
  Forall (fun c => ~ symbol_or_dingbat c) (makeSafeText text)
  /\ makeSafeText (warning symbols) = []
  /\ makeSafeText (complete symbols) = []
  /\ makeSafeText (js "⚠️") = []
  /\ makeSafeText (js "✅") = [].
Proof.
  split; [|vm_compute; auto].
  unfold makeSafeText. cbv zeta.
  set (t := remove_range 128640 128767 _).
  pose proof (remove_range_removes 9728 9983 ltac:(lia) _ t (le_n _)) as H1.
  pose proof (remove_range_removes 9984 10175 ltac:(lia) _
                (remove_range 9728 9983 t) (le_n _)) as H2.
  pose proof (remove_range_Forall _ 9984 10175 _ _ (le_n _) H1) as H3.
  apply List.Forall_forall. intros c Hc.
  pose proof (proj1 (List.Forall_forall _ _) H2 c Hc) as Hb.
  pose proof (proj1 (List.Forall_forall _ _) H3 c Hc) as Ha.
  cbv beta in Ha, Hb. unfold symbol_or_dingbat. lia.
Qed.

(** The emergency sign becomes a word; the warning sign and the check mark
    disappear with the symbols that were to stand for them. *)
Example makeSafeText_example :
  makeSafeText (js "🚨 Call 911 ✅ done ⚠️ acid → drain")
  = js "EMERGENCY Call 911  done  acid → drain".
Proof. vm_compute. reflexivity. Qed.

End SafeText.

(** A text of Latin-1 characters. *)
Lemma makeSafeText_latin1_witness :
  PDFGenerator.containsSpecialChars (js "HUSKY® 302 D/T BOWL CLEANER") = false
  /\ PDFGenerator.makeSafeText (js "HUSKY® 302 D/T BOWL CLEANER")
     = js "HUSKY® 302 D/T BOWL CLEANER".
Proof.
  split; [reflexivity|]. apply makeSafeText_latin1. reflexivity.
Defined.

